(** * LeDesign: the IDE Chile geodata pipeline

    A shallow embedding of the two geodata scripts

    - [scripts/download-ide-data.py]: the ESRI-to-GeoJSON geometry
      translator, the feature-collection assembler, the paginated
      layer query and the download of the services;
    - [scripts/upload-to-turso.py]: the centroid and bounding-box
      summarizer and the SQLite loader;

    followed by the properties their specification states about them.

    Conventions of the embedding.

    - A Python value that came out of [json.loads] is a [value]: [None],
      a bool, a number, a string, a list or a dict.  A dict is an
      association list in insertion order with unique keys (what
      [json.loads] builds); [lookup] returns the first binding.
    - A number is an [int] of any size or a [float], an IEEE 754
      double: a NaN, an infinity, a signed zero or [m * 2^e] up to
      sign.  Arithmetic is Python's: exact on [int]s, rounded to the
      nearest double (ties to even) on [float]s, with [OverflowError]
      where an [int] has no double.  [sum] adds from the left, as
      CPython does up to 3.11; later versions compensate the rounding
      errors of a sum of floats.
    - A Python call that can raise returns a [result]: [Ok v] or
      [Raise e] with the class of the exception.  [try]/[except] is
      [catch].
    - Strings are byte strings, read as ASCII text: [len] counts
      bytes and [title] cases the letters A-Z and a-z only.
    - A table row holds the parameters of its INSERT as [sqlite3]
      binds them; what the affinity of a column makes of a bound
      value afterwards is not modelled.
    - [print] and [time.sleep] have no counterpart. *)

From Stdlib Require Import List String Ascii Bool Arith ZArith QArith Lia Lqa.
Import ListNotations.

Set Warnings "-register-all".

Close Scope Q_scope.
Open Scope string_scope.
Open Scope list_scope.

(** ** Python numbers *)

(** A double.  [FNum s m e] is [m * 2^e], negated when [s] holds, with
    [m] odd; the doubles among these have [m < 2^53], [-1074 <= e] and
    [m * 2^e < 2^1024]. *)
Inductive float : Type :=
| FNan
| FInf (negative : bool)
| FZero (negative : bool)
| FNum (negative : bool) (m : positive) (e : Z).

Inductive number : Type :=
| Int (z : Z)
| Float (f : float).

Coercion Int : Z >-> number.
Bind Scope Z_scope with number.

Fixpoint odd_part (m : positive) (e : Z) : positive * Z :=
  match m with
  | xO m' => odd_part m' (e + 1)
  | _ => (m, e)
  end.

(** The double nearest to [p / q], the one with the even mantissa when
    two are as near: an infinity from [2^1024 - 2^970] on, a zero up to
    [2^-1075].  [k] is the binary exponent of [p / q] and [2^t] the
    distance between the doubles around it. *)
Definition round_ratio (negative : bool) (p q : positive) : float :=
  let k0 := (Z.log2 (Zpos p) - Z.log2 (Zpos q))%Z in
  let below :=
    if (0 <=? k0)%Z then (Zpos p <? Z.shiftl (Zpos q) k0)%Z
    else (Z.shiftl (Zpos p) (- k0) <? Zpos q)%Z in
  let k := if below then (k0 - 1)%Z else k0 in
  let t := Z.max (k - 52) (-1074) in
  let num := if (0 <=? t)%Z then Zpos p else Z.shiftl (Zpos p) (- t) in
  let den := if (0 <=? t)%Z then Z.shiftl (Zpos q) t else Zpos q in
  let n := (num / den)%Z in
  let r := (num mod den)%Z in
  let nearest :=
    match (2 * r ?= den)%Z with
    | Lt => n
    | Gt => (n + 1)%Z
    | Eq => if Z.even n then n else (n + 1)%Z
    end in
  match nearest with
  | Zpos m =>
      if (1024 <=? Z.log2 (Zpos m) + t)%Z then FInf negative
      else let (m', e') := odd_part m t in FNum negative m' e'
  | _ => FZero negative
  end.

(** The double nearest to [m * 2^e]. *)
Definition round_dyadic (negative : bool) (m : positive) (e : Z) : float :=
  match e with
  | Zneg k => round_ratio negative m (Pos.shiftl 1 (Npos k))
  | _ => round_ratio negative (Pos.shiftl m (Z.to_N e)) 1
  end.

Definition signed (negative : bool) (z : Z) : Z :=
  if negative then (- z)%Z else z.

(** [x + y] on floats *)
Definition fadd (x y : float) : float :=
  match x, y with
  | FNan, _ | _, FNan => FNan
  | FInf a, FInf b => if Bool.eqb a b then FInf a else FNan
  | FInf a, _ => FInf a
  | _, FInf b => FInf b
  | FZero a, FZero b => FZero (a && b)
  | FZero _, _ => y
  | _, FZero _ => x
  | FNum a m1 e1, FNum b m2 e2 =>
      let e := Z.min e1 e2 in
      let z := (signed a (Z.shiftl (Zpos m1) (e1 - e))
                + signed b (Z.shiftl (Zpos m2) (e2 - e)))%Z in
      match z with
      | Z0 => FZero false
      | Zpos m => round_dyadic false m e
      | Zneg m => round_dyadic true m e
      end
  end.

(** [x / y] on floats, for a [y] that is not zero *)
Definition fdiv (x y : float) : float :=
  match x, y with
  | FNan, _ | _, FNan => FNan
  | FInf _, FInf _ => FNan
  | FInf a, (FZero b | FNum b _ _) => FInf (xorb a b)
  | (FZero a | FNum a _ _), FInf b => FZero (xorb a b)
  | FZero _, FZero _ => FNan
  | FNum a _ _, FZero b => FInf (xorb a b)
  | FZero a, FNum b _ _ => FZero (xorb a b)
  | FNum a m1 e1, FNum b m2 e2 =>
      let e := Z.min e1 e2 in
      round_ratio (xorb a b)
        (Pos.shiftl m1 (Z.to_N (e1 - e))) (Pos.shiftl m2 (Z.to_N (e2 - e)))
  end.

(** The double nearest to [z / n]; an infinity stands for a quotient
    beyond the doubles. *)
Definition nearest_double (z : Z) (n : positive) : float :=
  match z with
  | Z0 => FZero false
  | Zpos p => round_ratio false p n
  | Zneg p => round_ratio true p n
  end.

(** The float of a decimal literal, as [json.loads] reads it. *)
Definition double (q : Q) : number := Float (nearest_double (Qnum q) (Qden q)).

Arguments double q%_Q.

(** ** Python values *)

Inductive value : Type :=
| VNone
| VBool (b : bool)
| VNum (n : number)
| VStr (s : string)
| VList (l : list value)
| VDict (d : list (string * value)).

Arguments VNum n%_Z.

Inductive exn : Type :=
| TypeError
| IndexError
| KeyError
| AttributeError
| ZeroDivisionError
| OverflowError
| JSONDecodeError
| ValueError
| IntegrityError
| ProgrammingError.

Inductive result (A : Type) : Type :=
| Ok (a : A)
| Raise (e : exn).

Arguments Ok {A} a.
Arguments Raise {A} e.

Definition bind {A B : Type} (m : result A) (k : A -> result B) : result B :=
  match m with
  | Ok a => k a
  | Raise e => Raise e
  end.

Notation "x <- m ;; k" := (bind m (fun x => k))
  (at level 61, m at next level, right associativity).

(** [try: m except (e1, e2, ...): handler] *)
Definition catch {A : Type} (m : result A) (caught : exn -> bool)
    (handler : result A) : result A :=
  match m with
  | Ok a => Ok a
  | Raise e => if caught e then handler else Raise e
  end.

Fixpoint map_m {A B : Type} (f : A -> result B) (l : list A) : result (list B) :=
  match l with
  | [] => Ok []
  | x :: l' => y <- f x ;; ys <- map_m f l' ;; Ok (y :: ys)
  end.

(** *** Dictionaries *)

Fixpoint lookup (k : string) (d : list (string * value)) : option value :=
  match d with
  | [] => None
  | (k', v) :: d' => if String.eqb k k' then Some v else lookup k d'
  end.

Definition has_key (k : string) (d : list (string * value)) : bool :=
  match lookup k d with
  | Some _ => true
  | None => false
  end.

(** *** Strings *)

Fixpoint chars (s : string) : list value :=
  match s with
  | EmptyString => []
  | String c s' => VStr (String c EmptyString) :: chars s'
  end.

Fixpoint is_substring (k s : string) : bool :=
  String.prefix k s ||
  match s with
  | EmptyString => false
  | String _ s' => is_substring k s'
  end.

Definition str_nth (s : string) (i : nat) : option value :=
  match String.get i s with
  | Some c => Some (VStr (String c EmptyString))
  | None => None
  end.

(** *** Arithmetic: a bool is the int 1 or 0 *)

Definition int_of_bool (b : bool) : number := Int (if b then 1 else 0).

Definition as_num (v : value) : result number :=
  match v with
  | VNum n => Ok n
  | VBool b => Ok (int_of_bool b)
  | _ => Raise TypeError
  end.

(** [float(z)]: an int beyond the doubles is an [OverflowError]. *)
Definition float_of_int (z : Z) : result float :=
  match nearest_double z 1 with
  | FInf _ => Raise OverflowError
  | x => Ok x
  end.

(** [a + b]: the int is made a float when the other is one. *)
Definition py_add (a b : number) : result number :=
  match a, b with
  | Int x, Int y => Ok (Int (x + y))
  | Int x, Float y => x' <- float_of_int x ;; Ok (Float (fadd x' y))
  | Float x, Int y => y' <- float_of_int y ;; Ok (Float (fadd x y'))
  | Float x, Float y => Ok (Float (fadd x y))
  end.

(** [s / n] for a count [n]: the quotient of two ints is rounded once,
    and is an [OverflowError] beyond the doubles. *)
Definition py_div (s : number) (n : nat) : result number :=
  match n with
  | O => Raise ZeroDivisionError
  | S _ =>
      match s with
      | Int z =>
          match nearest_double z (Pos.of_nat n) with
          | FInf _ => Raise OverflowError
          | x => Ok (Float x)
          end
      | Float x => d <- float_of_int (Z.of_nat n) ;; Ok (Float (fdiv x d))
      end
  end.

(** *** The order of the numbers

    Where a number lies on the line from minus infinity to infinity; a
    NaN lies nowhere.  Python compares an int with a float by value,
    without rounding. *)

Inductive place : Type :=
| Lowest
| At (q : Q)
| Highest.

Definition float_place (x : float) : option place :=
  match x with
  | FNan => None
  | FInf negative => Some (if negative then Lowest else Highest)
  | FZero _ => Some (At 0)
  | FNum negative m (Zneg k) =>
      Some (At (Qmake (signed negative (Zpos m)) (Pos.shiftl 1 (Npos k))))
  | FNum negative m e =>
      Some (At (inject_Z (signed negative (Z.shiftl (Zpos m) e))))
  end.

Definition num_place (n : number) : option place :=
  match n with
  | Int z => Some (At (inject_Z z))
  | Float x => float_place x
  end.

Definition place_ltb (a b : place) : bool :=
  match a, b with
  | _, Lowest | Highest, _ => false
  | Lowest, _ | _, Highest => true
  | At x, At y => negb (Qle_bool y x)
  end.

Definition place_eqb (a b : place) : bool :=
  match a, b with
  | Lowest, Lowest | Highest, Highest => true
  | At x, At y => Qeq_bool x y
  | _, _ => false
  end.

(** [a < b] and [a == b] on numbers: false when one is a NaN. *)
Definition num_ltb (a b : number) : bool :=
  match num_place a, num_place b with
  | Some x, Some y => place_ltb x y
  | _, _ => false
  end.

Definition num_eqb (a b : number) : bool :=
  match num_place a, num_place b with
  | Some x, Some y => place_eqb x y
  | _, _ => false
  end.

Definition is_nan (n : number) : bool :=
  match n with
  | Float FNan => true
  | _ => false
  end.

(** *** Built-in operations *)

(** [bool(v)]: what [if v] and [not v] test. *)
Definition truthy (v : value) : bool :=
  match v with
  | VNone => false
  | VBool b => b
  | VNum (Int z) => negb (Z.eqb z 0)
  | VNum (Float (FZero _)) => false
  | VNum (Float _) => true
  | VStr s => negb (String.eqb s "")
  | VList l => negb (Nat.eqb (List.length l) 0)
  | VDict d => negb (Nat.eqb (List.length d) 0)
  end.

(** [v == k] for a string literal [k]. *)
Definition is_str (k : string) (v : value) : bool :=
  match v with
  | VStr s => String.eqb s k
  | _ => false
  end.

(** [k in v] for a string literal [k]. *)
Definition py_in (k : string) (v : value) : result bool :=
  match v with
  | VDict d => Ok (has_key k d)
  | VList l => Ok (existsb (is_str k) l)
  | VStr s => Ok (is_substring k s)
  | _ => Raise TypeError
  end.

(** [v[k]] for a string literal [k]. *)
Definition py_item (v : value) (k : string) : result value :=
  match v with
  | VDict d =>
      match lookup k d with
      | Some x => Ok x
      | None => Raise KeyError
      end
  | _ => Raise TypeError
  end.

(** [v[i]] for an integer literal [i >= 0].  The keys of a dict built by
    [json.loads] are strings, so an integer key is never found. *)
Definition py_index (v : value) (i : nat) : result value :=
  match v with
  | VList l =>
      match nth_error l i with
      | Some x => Ok x
      | None => Raise IndexError
      end
  | VStr s =>
      match str_nth s i with
      | Some x => Ok x
      | None => Raise IndexError
      end
  | VDict _ => Raise KeyError
  | _ => Raise TypeError
  end.

(** [len(v)] *)
Definition py_len (v : value) : result nat :=
  match v with
  | VList l => Ok (List.length l)
  | VStr s => Ok (String.length s)
  | VDict d => Ok (List.length d)
  | _ => Raise TypeError
  end.

(** [for x in v]: the items the iteration yields. *)
Definition py_iter (v : value) : result (list value) :=
  match v with
  | VList l => Ok l
  | VStr s => Ok (chars s)
  | VDict d => Ok (map (fun kv => VStr (fst kv)) d)
  | _ => Raise TypeError
  end.

(** [v.get(k, default)]: only a dict has the method. *)
Definition py_get (v : value) (k : string) (default : value) : result value :=
  match v with
  | VDict d =>
      match lookup k d with
      | Some x => Ok x
      | None => Ok default
      end
  | _ => Raise AttributeError
  end.

(** [sum(l)]: starts from the int 0 and adds from the left. *)
Fixpoint sum_from (acc : number) (l : list value) : result number :=
  match l with
  | [] => Ok acc
  | x :: l' => n <- as_num x ;; acc' <- py_add acc n ;; sum_from acc' l'
  end.

Definition py_sum (l : list value) : result number := sum_from (Int 0) l.

(** ** download-ide-data.py *)

Definition geojson (type : string) (coordinates : value) : value :=
  VDict [("type", VStr type); ("coordinates", coordinates)].

(** [esri_to_geojson_geometry(esri_geom, geom_type)]; [VNone] is the
    [None] it returns. *)
Definition esri_to_geojson_geometry (esri_geom geom_type : value) : result value :=
  if negb (truthy esri_geom) then Ok VNone
  else if is_str "esriGeometryPoint" geom_type then
    has_x <- py_in "x" esri_geom ;;
    has_y <- (if has_x then py_in "y" esri_geom else Ok false) ;;
    if has_y then
      x <- py_item esri_geom "x" ;;
      y <- py_item esri_geom "y" ;;
      Ok (geojson "Point" (VList [x; y]))
    else Ok VNone
  else if is_str "esriGeometryPolyline" geom_type then
    has_paths <- py_in "paths" esri_geom ;;
    if has_paths then
      paths <- py_item esri_geom "paths" ;;
      n <- py_len paths ;;
      if Nat.eqb n 1 then
        paths' <- py_item esri_geom "paths" ;;
        first <- py_index paths' 0 ;;
        Ok (geojson "LineString" first)
      else
        paths' <- py_item esri_geom "paths" ;;
        Ok (geojson "MultiLineString" paths')
    else Ok VNone
  else if is_str "esriGeometryPolygon" geom_type then
    has_rings <- py_in "rings" esri_geom ;;
    if has_rings then
      rings <- py_item esri_geom "rings" ;;
      n <- py_len rings ;;
      if Nat.eqb n 1 then
        rings' <- py_item esri_geom "rings" ;;
        Ok (geojson "Polygon" rings')
      else
        rings' <- py_item esri_geom "rings" ;;
        items <- py_iter rings' ;;
        Ok (geojson "MultiPolygon" (VList (map (fun ring => VList [ring]) items)))
    else Ok VNone
  else if is_str "esriGeometryMultipoint" geom_type then
    has_points <- py_in "points" esri_geom ;;
    if has_points then
      points <- py_item esri_geom "points" ;;
      Ok (geojson "MultiPoint" points)
    else Ok VNone
  else Ok VNone.

(** [esri_to_geojson(esri_data)] *)
Definition esri_to_geojson (esri_data : value) : result value :=
  geom_type <- py_get esri_data "geometryType" (VStr "") ;;
  fs <- py_get esri_data "features" (VList []) ;;
  items <- py_iter fs ;;
  features <-
    map_m (fun esri_feature =>
             g <- py_get esri_feature "geometry" VNone ;;
             geometry <- esri_to_geojson_geometry g geom_type ;;
             properties <- py_get esri_feature "attributes" (VDict []) ;;
             Ok (VDict [("type", VStr "Feature");
                        ("geometry", geometry);
                        ("properties", properties)]))
          items ;;
  Ok (VDict [("type", VStr "FeatureCollection"); ("features", VList features)]).

(** ** upload-to-turso.py: the spatial summarizer *)

(** [(sum(lons) / len(lons), sum(lats) / len(lats))] with
    [lons = [c[0] for c in cs]] and [lats = [c[1] for c in cs]]. *)
Definition mean_lon_lat (cs : list value) : result (value * value) :=
  lons <- map_m (fun c => py_index c 0) cs ;;
  lats <- map_m (fun c => py_index c 1) cs ;;
  slon <- py_sum lons ;;
  mlon <- py_div slon (List.length lons) ;;
  slat <- py_sum lats ;;
  mlat <- py_div slat (List.length lats) ;;
  Ok (VNum mlon, VNum mlat).

(** The body of the [try] block of [get_centroid]: [Some] pair when a
    branch returns, [None] when control falls out of the [if] chain. *)
Definition centroid_try (geom_type coords : value) : result (option (value * value)) :=
  if is_str "Point" geom_type then
    lon <- py_index coords 0 ;;
    lat <- py_index coords 1 ;;
    Ok (Some (lon, lat))
  else if is_str "LineString" geom_type then
    cs <- py_iter coords ;;
    r <- mean_lon_lat cs ;;
    Ok (Some r)
  else if is_str "Polygon" geom_type then
    ring <- (if truthy coords then py_index coords 0 else Ok (VList [])) ;;
    if truthy ring then
      cs <- py_iter ring ;;
      r <- mean_lon_lat cs ;;
      Ok (Some r)
    else Ok None
  else if is_str "MultiLineString" geom_type then
    lines <- py_iter coords ;;
    all_coords <- map_m py_iter lines ;;
    match List.concat all_coords with
    | [] => Ok None
    | cs => r <- mean_lon_lat cs ;; Ok (Some r)
    end
  else if is_str "MultiPolygon" geom_type then
    polys <- py_iter coords ;;
    all_coords <-
      map_m (fun poly =>
               rings <- py_iter poly ;;
               per_ring <- map_m py_iter rings ;;
               Ok (List.concat per_ring))
            polys ;;
    match List.concat all_coords with
    | [] => Ok None
    | cs => r <- mean_lon_lat cs ;; Ok (Some r)
    end
  else if is_str "MultiPoint" geom_type then
    cs <- py_iter coords ;;
    r <- mean_lon_lat cs ;;
    Ok (Some r)
  else Ok None.

(** [except (IndexError, TypeError)] *)
Definition index_or_type_error (e : exn) : bool :=
  match e with
  | IndexError | TypeError => true
  | _ => false
  end.

(** [get_centroid(geometry)]; [VNone] is [None]. *)
Definition get_centroid (geometry : value) : result (value * value) :=
  if negb (truthy geometry) then Ok (VNone, VNone)
  else
    geom_type <- py_get geometry "type" (VStr "") ;;
    coords <- py_get geometry "coordinates" (VList []) ;;
    if negb (truthy coords) then Ok (VNone, VNone)
    else
      r <- catch (centroid_try geom_type coords) index_or_type_error (Ok None) ;;
      match r with
      | Some c => Ok c
      | None => Ok (VNone, VNone)
      end.

(** *** Comparisons, [min] and [max] *)

Definition is_num (v : value) : bool :=
  match v with
  | VNum _ | VBool _ => true
  | _ => false
  end.

Definition num_of (v : value) : number :=
  match v with
  | VNum n => n
  | VBool b => int_of_bool b
  | _ => Int 0
  end.

(** An item of a list or a dict is equal to one of another when it is
    the same object or [==] to it.  The NaN of [json.loads] is one
    object, so it is equal to itself here, as nowhere else. *)
Definition same_number (a b : number) : bool :=
  num_eqb a b || (is_nan a && is_nan b).

(** [a == b] between the items of two lists or dicts *)
Fixpoint py_eq (a b : value) {struct a} : bool :=
  match a with
  | VNone => match b with VNone => true | _ => false end
  | VBool x => is_num b && same_number (int_of_bool x) (num_of b)
  | VNum x => is_num b && same_number x (num_of b)
  | VStr s => is_str s b
  | VList l =>
      match b with
      | VList m =>
          (fix all2 (l m : list value) {struct l} : bool :=
             match l, m with
             | [], [] => true
             | x :: l', y :: m' => py_eq x y && all2 l' m'
             | _, _ => false
             end) l m
      | _ => false
      end
  | VDict d =>
      match b with
      | VDict e =>
          Nat.eqb (List.length d) (List.length e) &&
          (fix sub (d : list (string * value)) {struct d} : bool :=
             match d with
             | [] => true
             | (k, v) :: d' =>
                 match lookup k e with
                 | Some w => py_eq v w
                 | None => false
                 end && sub d'
             end) d
      | _ => false
      end
  end.

Fixpoint str_ltb (s t : string) : bool :=
  match s, t with
  | EmptyString, EmptyString => false
  | EmptyString, String _ _ => true
  | String _ _, EmptyString => false
  | String a s', String b t' =>
      if Nat.ltb (nat_of_ascii a) (nat_of_ascii b) then true
      else if Nat.ltb (nat_of_ascii b) (nat_of_ascii a) then false
      else str_ltb s' t'
  end.

(** [a < b]: numbers by value, strings and lists lexicographically;
    any other pair is a [TypeError]. *)
Fixpoint py_lt (a b : value) {struct a} : result bool :=
  match a with
  | VNum _ | VBool _ =>
      if is_num b then Ok (num_ltb (num_of a) (num_of b)) else Raise TypeError
  | VStr s =>
      match b with
      | VStr t => Ok (str_ltb s t)
      | _ => Raise TypeError
      end
  | VList l =>
      match b with
      | VList m =>
          (fix lex (l m : list value) {struct l} : result bool :=
             match l, m with
             | [], [] => Ok false
             | [], _ :: _ => Ok true
             | _ :: _, [] => Ok false
             | x :: l', y :: m' => if py_eq x y then lex l' m' else py_lt x y
             end) l m
      | _ => Raise TypeError
      end
  | _ => Raise TypeError
  end.

(** [min(l)] keeps the first item and replaces it by each later item
    that is [<] it; [max(l)] by each later item that is [>] it. *)
Fixpoint min_from (best : value) (l : list value) : result value :=
  match l with
  | [] => Ok best
  | x :: l' => lt <- py_lt x best ;; min_from (if lt then x else best) l'
  end.

Fixpoint max_from (best : value) (l : list value) : result value :=
  match l with
  | [] => Ok best
  | x :: l' => gt <- py_lt best x ;; max_from (if gt then x else best) l'
  end.

(** [min(l)] and [max(l)]; an empty list is a [ValueError]. *)
Definition py_min (l : list value) : result value :=
  match l with
  | [] => Raise ValueError
  | x :: l' => min_from x l'
  end.

Definition py_max (l : list value) : result value :=
  match l with
  | [] => Raise ValueError
  | x :: l' => max_from x l'
  end.

Definition is_none (v : value) : bool :=
  match v with
  | VNone => true
  | _ => false
  end.

Definition bbox : Type := value * value * value * value.

Definition no_bbox : bbox := (VNone, VNone, VNone, VNone).

(** The loop of [get_bbox]: the centroids whose first component is not
    [None], in feature order. *)
Fixpoint located_centroids (features : list value) : result (list (value * value)) :=
  match features with
  | [] => Ok []
  | f :: fs =>
      g <- py_get f "geometry" VNone ;;
      centroid <- get_centroid g ;;
      rest <- located_centroids fs ;;
      Ok (if is_none (fst centroid) then rest else centroid :: rest)
  end.

(** [get_bbox(features)] *)
Definition get_bbox (features : value) : result bbox :=
  fs <- py_iter features ;;
  cs <- located_centroids fs ;;
  let lons := map fst cs in
  let lats := map snd cs in
  if truthy (VList lons) && truthy (VList lats) then
    west <- py_min lons ;;
    south <- py_min lats ;;
    east <- py_max lons ;;
    north <- py_max lats ;;
    Ok (west, south, east, north)
  else Ok no_bbox.

(** ** download-ide-data.py: the paginated layer query *)

(** What one [urlopen] / [read] / [decode] / [json.loads] round gives:
    an exception raised before [data] is assigned (transport error,
    timeout, undecodable body), or the decoded document. *)
Inductive outcome : Type :=
| Failure
| Decoded (data : value).

(** The layer endpoint of one [base_url] and [layer_id]: the outcome of
    the request with [resultOffset = offset].  The loop asks for each
    offset once at most. *)
Definition endpoint : Type := Z -> outcome.

(** The local variables of [query_layer], and the offsets of the
    requests issued so far.  [data] is [None] while the name is
    unbound. *)
Record fetch_state : Type := mk_fetch_state {
  all_features : list value;
  offset : Z;
  data : option value;
  requests : list Z
}.

Inductive control : Type := Break | Continue.

(** The statements of the [try] block after [data] is assigned.  The
    message printed for an API error can raise too; the handler breaks
    just as the branch does. *)
Definition page_body (page_size max_records : Z) (d : value)
    (acc : list value) : result (control * list value) :=
  has_error <- py_in "error" d ;;
  if has_error then Ok (Break, acc)
  else
    features <- py_get d "features" (VList []) ;;
    if negb (truthy features) then Ok (Break, acc)
    else
      items <- py_iter features ;;
      let acc' := acc ++ items in
      n <- py_len features ;;
      if (Z.of_nat n <? page_size)%Z || (Z.of_nat (List.length acc') >=? max_records)%Z
      then Ok (Break, acc')
      else Ok (Continue, acc').

(** The [while True] loop.  [except Exception] breaks with the
    variables as they are; every statement that can raise comes before
    [extend] has changed [all_features]. *)
Fixpoint query_loop (fuel : nat) (page_size max_records : Z) (serve : endpoint)
    (st : fetch_state) : option fetch_state :=
  match fuel with
  | O => None
  | S fuel' =>
      let reqs := requests st ++ [offset st] in
      match serve (offset st) with
      | Failure => Some (mk_fetch_state (all_features st) (offset st) (data st) reqs)
      | Decoded d =>
          match page_body page_size max_records d (all_features st) with
          | Ok (Continue, acc') =>
              query_loop fuel' page_size max_records serve
                (mk_fetch_state acc' (offset st + page_size)%Z (Some d) reqs)
          | Ok (Break, acc') =>
              Some (mk_fetch_state acc' (offset st) (Some d) reqs)
          | Raise _ =>
              Some (mk_fetch_state (all_features st) (offset st) (Some d) reqs)
          end
      end
  end.

(** The statements after the loop: the dict that is returned. *)
Definition query_result (st : fetch_state) : result value :=
  geometry_type <-
    match data st with
    | Some d => py_get d "geometryType" (VStr "")
    | None => Ok (VStr "")
    end ;;
  geometry_type' <-
    match data st with
    | Some d =>
        if truthy (VList (all_features st)) then
          has <- py_in "geometryType" d ;;
          if has then py_item d "geometryType" else Ok geometry_type
        else Ok geometry_type
    | None => Ok geometry_type
    end ;;
  Ok (VDict [("features", VList (all_features st));
             ("geometryType", geometry_type')]).

Definition fetch_start : fetch_state := mk_fetch_state [] 0%Z None [].

(** Each turn of the loop that goes on has added an item and left fewer
    than [max_records] of them, so this many turns are enough. *)
Definition query_fuel (max_records : Z) : nat := S (Z.to_nat max_records).

(** A run of [query_layer]: the offsets requested, and what the call
    returns or raises.  [None] is a loop that is out of fuel. *)
Definition query_layer_paged (page_size : Z) (serve : endpoint)
    (max_records : Z) : option (list Z * result value) :=
  match query_loop (query_fuel max_records) page_size max_records serve fetch_start with
  | Some st => Some (requests st, query_result st)
  | None => None
  end.

(** [page_size = 1000] *)
Definition query_layer (serve : endpoint) (max_records : Z) :
    option (list Z * result value) :=
  query_layer_paged 1000 serve max_records.

Definition default_max_records : Z := 10000.

(** ** upload-to-turso.py: the loader *)

(** *** The two tables

    A row holds the parameters of its INSERT as they are bound.  A
    [TEXT] column filled with [json.dumps(v)] holds [v] itself here.
    The [id] of a features row is its position in the table. *)

Record layer_row : Type := mk_layer_row {
  layer_id : string;
  layer_name : string;
  source_file : string;
  layer_geometry_type : value;
  feature_count : nat;
  layer_bbox : bbox
}.

Record feature_row : Type := mk_feature_row {
  row_layer_id : string;
  row_geometry_type : value;
  row_geometry : option value;
  centroid_lon : value;
  centroid_lat : value;
  row_properties : value
}.

Record database : Type := mk_database {
  layers : list layer_row;
  features : list feature_row;
  commits : nat
}.

(** [create_local_db]: the schema on a fresh file. *)
Definition create_local_db : database := mk_database [] [] 1.

(** What [sqlite3] binds to a [?]: [None] as NULL, a bool as the
    integer 1 or 0, an int of 64 bits as it is, a float as it is but
    for a NaN, which is bound as NULL, a string as it is.  A larger
    int is refused with [OverflowError], a list or a dict with
    [ProgrammingError] ([InterfaceError] before Python 3.11). *)
Definition sql_bind (v : value) : result value :=
  match v with
  | VNone => Ok VNone
  | VBool b => Ok (VNum (int_of_bool b))
  | VNum (Int z) =>
      if ((- 2 ^ 63 <=? z) && (z <? 2 ^ 63))%Z then Ok v else Raise OverflowError
  | VNum (Float FNan) => Ok VNone
  | VNum (Float _) => Ok v
  | VStr _ => Ok v
  | VList _ | VDict _ => Raise ProgrammingError
  end.

(** The parameters are bound from the left before the statement runs. *)
Definition bind_layer (r : layer_row) : result layer_row :=
  let '(west, south, east, north) := layer_bbox r in
  geom_type <- sql_bind (layer_geometry_type r) ;;
  west' <- sql_bind west ;;
  south' <- sql_bind south ;;
  east' <- sql_bind east ;;
  north' <- sql_bind north ;;
  Ok (mk_layer_row (layer_id r) (layer_name r) (source_file r) geom_type
        (feature_count r) (west', south', east', north')).

Definition bind_feature (r : feature_row) : result feature_row :=
  geom_type <- sql_bind (row_geometry_type r) ;;
  lon <- sql_bind (centroid_lon r) ;;
  lat <- sql_bind (centroid_lat r) ;;
  Ok (mk_feature_row (row_layer_id r) geom_type (row_geometry r) lon lat
        (row_properties r)).

(** [INSERT INTO layers]: [id] is the primary key. *)
Definition insert_layer (db : database) (r : layer_row) : result database :=
  bound <- bind_layer r ;;
  if existsb (fun l => String.eqb (layer_id l) (layer_id r)) (layers db)
  then Raise IntegrityError
  else Ok (mk_database (layers db ++ [bound]) (features db) (commits db)).

(** [INSERT INTO features] *)
Definition insert_feature (db : database) (r : feature_row) : result database :=
  bound <- bind_feature r ;;
  Ok (mk_database (layers db) (features db ++ [bound]) (commits db)).

Definition commit (db : database) : database :=
  mk_database (layers db) (features db) (S (commits db)).

(** *** String helpers *)

(** [s.replace(old, "")]: [skip] characters of a match are still to be
    dropped. *)
Fixpoint remove_from (old : string) (skip : nat) (s : string) : string :=
  match s with
  | EmptyString => EmptyString
  | String c s' =>
      match skip with
      | S k => remove_from old k s'
      | O =>
          if String.prefix old s
          then remove_from old (String.length old - 1) s'
          else String c (remove_from old 0 s')
      end
  end.

Definition remove_all (old s : string) : string := remove_from old 0 s.

Fixpoint replace_char (old new : ascii) (s : string) : string :=
  match s with
  | EmptyString => EmptyString
  | String c s' =>
      String (if Ascii.eqb c old then new else c) (replace_char old new s')
  end.

Definition is_upper (c : ascii) : bool :=
  Nat.leb 65 (nat_of_ascii c) && Nat.leb (nat_of_ascii c) 90.

Definition is_lower (c : ascii) : bool :=
  Nat.leb 97 (nat_of_ascii c) && Nat.leb (nat_of_ascii c) 122.

Definition to_upper (c : ascii) : ascii :=
  if is_lower c then ascii_of_nat (nat_of_ascii c - 32) else c.

Definition to_lower (c : ascii) : ascii :=
  if is_upper c then ascii_of_nat (nat_of_ascii c + 32) else c.

(** [s.title()] on ASCII text: a letter after a letter is lowered, any
    other letter is raised. *)
Fixpoint title_from (after_letter : bool) (s : string) : string :=
  match s with
  | EmptyString => EmptyString
  | String c s' =>
      let letter := is_upper c || is_lower c in
      String (if after_letter then to_lower c else to_upper c)
             (title_from letter s')
  end.

Definition title (s : string) : string := title_from false s.

Fixpoint ends_with (suffix s : string) : bool :=
  String.eqb s suffix ||
  match s with
  | EmptyString => false
  | String _ s' => ends_with suffix s'
  end.

(** *** Lists *)

(** [range(0, n, step)] *)
Definition range_step (n step : nat) : list nat :=
  map (fun k => k * step) (seq 0 ((n + step - 1) / step)).

(** [v[i : i + n]] *)
Definition py_slice (v : value) (i n : nat) : result value :=
  match v with
  | VList l => Ok (VList (firstn n (skipn i l)))
  | VStr s => Ok (VStr (String.substring i n s))
  | _ => Raise TypeError
  end.

(** *** [load_geojson_files] *)

Definition batch_size : nat := 500.

(** The loop that looks for the geometry type of the layer. *)
Fixpoint first_geometry_type (feats : list value) : result value :=
  match feats with
  | [] => Ok VNone
  | feat :: feats' =>
      g <- py_get feat "geometry" VNone ;;
      if truthy g then
        g' <- py_item feat "geometry" ;;
        py_get g' "type" VNone
      else first_geometry_type feats'
  end.

(** The row of one feature. *)
Definition feature_row_of (id : string) (feature : value) : result feature_row :=
  geometry <- py_get feature "geometry" VNone ;;
  properties <- py_get feature "properties" (VDict []) ;;
  let geom_json := if truthy geometry then Some geometry else None in
  centroid <- get_centroid geometry ;;
  feat_geom_type <-
    (if truthy geometry then py_get geometry "type" VNone else Ok VNone) ;;
  Ok (mk_feature_row id feat_geom_type geom_json
        (fst centroid) (snd centroid) properties).

(** [for feature in batch]: the database keeps the rows inserted before
    an exception. *)
Fixpoint insert_batch (db : database) (id : string) (batch : list value)
    : database * result unit :=
  match batch with
  | [] => (db, Ok tt)
  | feature :: batch' =>
      match feature_row_of id feature with
      | Raise e => (db, Raise e)
      | Ok r =>
          match insert_feature db r with
          | Raise e => (db, Raise e)
          | Ok db' => insert_batch db' id batch'
          end
      end
  end.

(** [for i in range(0, len(features), batch_size)] *)
Fixpoint insert_batches (db : database) (id : string) (feats : value)
    (starts : list nat) : database * result unit :=
  match starts with
  | [] => (db, Ok tt)
  | i :: starts' =>
      match (b <- py_slice feats i batch_size ;; py_iter b) with
      | Raise e => (db, Raise e)
      | Ok batch =>
          match insert_batch db id batch with
          | (db', Raise e) => (db', Raise e)
          | (db', Ok _) => insert_batches (commit db') id feats starts'
          end
      end
  end.

(** What the loop body does before it writes: the layer row and the
    feature count, or [None] for [No features, skipping]. *)
Definition prepare_layer (filename : string) (doc : value)
    : result (option (layer_row * value * nat)) :=
  feats <- py_get doc "features" (VList []) ;;
  if negb (truthy feats) then Ok None
  else
    let id := remove_all ".geojson" filename in
    items <- py_iter feats ;;
    geom_type <- first_geometry_type items ;;
    box <- get_bbox feats ;;
    n <- py_len feats ;;
    let name := title (replace_char "-" " " (replace_char "_" " " id)) in
    Ok (Some (mk_layer_row id name filename geom_type n box, feats, n)).

(** A file of the data directory: its name, its size in bytes and what
    [json.load] gives on it. *)
Record artifact : Type := mk_artifact {
  filename : string;
  filesize : Z;
  content : result value
}.

Inductive load_status : Type :=
| TooSmall
| NoFeatures
| Loaded (n : nat)
| Failed (e : exn).

(** One turn of the loop over the files.  Both [except] clauses print
    and go on to the next file. *)
Definition load_file (db : database) (a : artifact) : database * load_status :=
  if (filesize a <? 700)%Z then (db, TooSmall)
  else
    match content a with
    | Raise e => (db, Failed e)
    | Ok doc =>
        match prepare_layer (filename a) doc with
        | Raise e => (db, Failed e)
        | Ok None => (db, NoFeatures)
        | Ok (Some (row, feats, n)) =>
            match insert_layer db row with
            | Raise e => (db, Failed e)
            | Ok db1 =>
                match insert_batches db1 (layer_id row) feats
                        (range_step n batch_size) with
                | (db2, Raise e) => (db2, Failed e)
                | (db2, Ok _) => (db2, Loaded n)
                end
            end
        end
    end.

Fixpoint insert_sorted (a : artifact) (l : list artifact) : list artifact :=
  match l with
  | [] => [a]
  | b :: l' =>
      if str_ltb (filename b) (filename a) then b :: insert_sorted a l'
      else a :: l
  end.

(** [sorted] on the file names. *)
Definition sorted_by_name (l : list artifact) : list artifact :=
  fold_right insert_sorted [] l.

Fixpoint load_all (db : database) (total : nat) (files : list artifact)
    : database * nat :=
  match files with
  | [] => (db, total)
  | a :: files' =>
      match load_file db a with
      | (db', Loaded n) => load_all db' (total + n) files'
      | (db', _) => load_all db' total files'
      end
  end.

(** [load_geojson_files(conn)] on the listing of the data directory. *)
Definition load_geojson_files (db : database) (listing : list artifact)
    : database * nat :=
  let geojson_files := filter (fun a => ends_with ".geojson" (filename a)) listing in
  load_all db 0 (sorted_by_name geojson_files).

(** ** download-ide-data.py: the services and the run

    The world outside the script is explicit.  A [world] holds the
    files written, the newest first, and the number of layers queried
    so far.  The rest is a parameter: [web n url layer_id] is the
    endpoint that answers the [n]-th query, addressed to [url] and
    [layer_id]; [py_str v] is the text an f-string puts for [v];
    [writable w path] tells whether [open(path, "w")] succeeds in the
    world [w]; [makedirs_ok] whether [os.makedirs] does. *)

Definition OUTPUT_DIR : string := "data/ide-chile".

(** [os.path.join(OUTPUT_DIR, name)] *)
Definition output_path (name : string) : string :=
  if String.prefix "/" name then name else OUTPUT_DIR ++ "/" ++ name.

(** What a call of [query_layer] returns or raises.  The loop is never
    out of fuel ([query_loop_terminates]); the last case is not
    reached. *)
Definition query_layer_outcome (serve : endpoint) (max_records : Z) : result value :=
  match query_layer serve max_records with
  | Some (_, r) => r
  | None => Ok VNone
  end.

Record world : Type := mk_world {
  written : list (string * value);
  queries : nat
}.

(** [with open(path, "w") as f: json.dump(doc, f)], the file open. *)
Definition write_file (w : world) (path : string) (doc : value) : world :=
  mk_world ((path, doc) :: written w) (queries w).

(** How the [try] block of a layer ends. *)
Inductive layer_outcome : Type :=
| Saved (file : string) (count : nat)
| NoFeaturesFound
| Caught.

Inductive ending : Type := Finished | Crashed.

Section Downloader.

Variable web : nat -> value -> value -> endpoint.
Variable py_str : value -> string.
Variable writable : world -> string -> bool.
Variable makedirs_ok : bool.

(** [f"{service['id']}_layer{layer_id}.geojson"] *)
Definition layer_filename (id layer_id : value) : string :=
  py_str id ++ "_layer" ++ py_str layer_id ++ ".geojson".

(** The [try] block of the loop over the layers of a service. *)
Definition download_layer (w : world) (service layer_id : value)
    : world * layer_outcome :=
  match py_item service "url" with
  | Raise _ => (w, Caught)
  | Ok url =>
      let w1 := mk_world (written w) (S (queries w)) in
      match (esri_data <- query_layer_outcome (web (queries w) url layer_id)
                            default_max_records ;;
             feats <- py_item esri_data "features" ;;
             if truthy feats then
               geojson <- esri_to_geojson esri_data ;;
               id <- py_item service "id" ;;
               Ok (Some (layer_filename id layer_id, geojson))
             else Ok None) with
      | Raise _ => (w1, Caught)
      | Ok None => (w1, NoFeaturesFound)
      | Ok (Some (file, geojson)) =>
          let filepath := output_path file in
          if writable w1 filepath then
            let w2 := write_file w1 filepath geojson in
            match (fs <- py_item geojson "features" ;; py_len fs) with
            | Ok count => (w2, Saved file count)
            | Raise _ => (w2, Caught)
            end
          else (w1, Caught)
      end
  end.

Fixpoint download_layers (w : world) (service : value) (layer_ids : list value)
    (total_features : nat) : world * nat :=
  match layer_ids with
  | [] => (w, total_features)
  | layer_id :: rest =>
      match download_layer w service layer_id with
      | (w', Saved _ count) => download_layers w' service rest (total_features + count)
      | (w', _) => download_layers w' service rest total_features
      end
  end.

(** The layers the loop of [download_service] goes through. *)
Definition layers_of (service : value) : result (list value) :=
  layers <- py_get service "layers" (VList [VNum 0]) ;;
  py_iter layers.

(** [download_service(service)]: the world afterwards, and the total
    it returns or the exception it raises. *)
Definition download_service (w : world) (service : value) : world * result nat :=
  match (name <- py_item service "name" ;;
         id <- py_item service "id" ;;
         layers_of service) with
  | Raise e => (w, Raise e)
  | Ok layer_ids =>
      let (w', total_features) := download_layers w service layer_ids 0 in
      (w', Ok total_features)
  end.

Definition summary_entry (id name : value) (count : nat) (status : string) : value :=
  VDict [("id", id); ("name", name);
         ("features", VNum (Z.of_nat count));
         ("status", VStr status)].

(** The dict appended to [summary] for a service. *)
Definition entry_of (service : value) (count : nat) (status : string) : result value :=
  id <- py_item service "id" ;;
  name <- py_item service "name" ;;
  Ok (summary_entry id name count status).

(** The loop of [main] over the services.  An exception of the
    [except] branch leaves [main]. *)
Fixpoint download_all (w : world) (services : list value) (summary : list value)
    (total_all : nat) : world * result (list value * nat) :=
  match services with
  | [] => (w, Ok (summary, total_all))
  | service :: rest =>
      let (w', attempt) :=
        match download_service w service with
        | (w', Ok count) =>
            (w', entry <- entry_of service count "success" ;; Ok (entry, count))
        | (w', Raise e) => (w', Raise e)
        end in
      match attempt with
      | Ok (entry, count) =>
          download_all w' rest (summary ++ [entry]) (total_all + count)
      | Raise _ =>
          match entry_of service 0 "failed" with
          | Ok entry => download_all w' rest (summary ++ [entry]) total_all
          | Raise e => (w', Raise e)
          end
      end
  end.

(** The document written to [download-summary.json]. *)
Definition summary_document (now : string) (summary : list value) (total_all : nat)
    : value :=
  VDict [("downloadedAt", VStr now);
         ("services", VList summary);
         ("totalFeatures", VNum (Z.of_nat total_all))].

(** A line of the table printed at the end formats [s['name'][:30]]
    with [:<30]; only a string allows both. *)
Definition printable_entry (s : value) : bool :=
  match py_item s "name" with
  | Ok (VStr _) => true
  | _ => false
  end.

(** [main()] on a catalog of services, at the time [now]. *)
Definition main (now : string) (w : world) (services : list value) : world * ending :=
  if makedirs_ok then
    match download_all w services [] 0 with
    | (w', Raise _) => (w', Crashed)
    | (w', Ok (summary, total_all)) =>
        let summary_path := output_path "download-summary.json" in
        if writable w' summary_path then
          let w'' := write_file w' summary_path
                       (summary_document now summary total_all) in
          if forallb printable_entry summary then (w'', Finished) else (w'', Crashed)
        else (w', Crashed)
    end
  else (w, Crashed).

End Downloader.

(** * The specification

    What the properties are stated with: the translation table, the
    well-formed standard geometries and their encoding, the centroid
    and the bounding box as the specification words them, the
    endpoints of the pagination scenarios and the files of the loader
    scenarios. *)

(** ** The translation table *)

(** The translation table of the specification: a vendor object [d]
    under a tag, and the standard geometry it stands for. *)
Inductive translates : list (string * value) -> string -> value -> Prop :=
| translates_point d x y :
    lookup "x" d = Some (VNum x) ->
    lookup "y" d = Some (VNum y) ->
    translates d "esriGeometryPoint" (geojson "Point" (VList [VNum x; VNum y]))
| translates_one_path d path :
    lookup "paths" d = Some (VList [path]) ->
    translates d "esriGeometryPolyline" (geojson "LineString" path)
| translates_paths d paths :
    lookup "paths" d = Some (VList paths) ->
    2 <= List.length paths ->
    translates d "esriGeometryPolyline" (geojson "MultiLineString" (VList paths))
| translates_one_ring d ring :
    lookup "rings" d = Some (VList [ring]) ->
    translates d "esriGeometryPolygon" (geojson "Polygon" (VList [ring]))
| translates_rings d rings :
    lookup "rings" d = Some (VList rings) ->
    2 <= List.length rings ->
    translates d "esriGeometryPolygon"
      (geojson "MultiPolygon" (VList (map (fun ring => VList [ring]) rings)))
| translates_points d points :
    lookup "points" d = Some points ->
    translates d "esriGeometryMultipoint" (geojson "MultiPoint" points).

Definition scenario_point : list (string * value) :=
  [("x", VNum (double (-705 # 10))); ("y", VNum (double (-334 # 10)))].

(** The entry under [k] is an array when there is one. *)
Definition array_payload (k : string) (d : list (string * value)) : bool :=
  match lookup k d with
  | Some (VList _) | None => true
  | Some _ => false
  end.

(** An empty or absent vendor geometry, or an object whose [paths] and
    [rings] are arrays. *)
Definition vendor_shaped (g : value) : bool :=
  negb (truthy g) ||
  match g with
  | VDict d => array_payload "paths" d && array_payload "rings" d
  | _ => false
  end.

Definition known_tag (tag : value) : bool :=
  is_str "esriGeometryPoint" tag || is_str "esriGeometryPolyline" tag ||
  is_str "esriGeometryPolygon" tag || is_str "esriGeometryMultipoint" tag.

(** The object lacks a field its tag needs. *)
Definition payload_missing (d : list (string * value)) (tag : value) : bool :=
  is_str "esriGeometryPoint" tag && negb (has_key "x" d && has_key "y" d) ||
  is_str "esriGeometryPolyline" tag && negb (has_key "paths" d) ||
  is_str "esriGeometryPolygon" tag && negb (has_key "rings" d) ||
  is_str "esriGeometryMultipoint" tag && negb (has_key "points" d).

(** ** Well-formed standard geometries *)

(** A position: longitude, latitude, and whatever follows them. *)
Record position : Type := mk_position {
  lon : number;
  lat : number;
  more : list number
}.

Inductive geometry : Type :=
| Point (p : position)
| LineString (line : list position)
| Polygon (rings : list (list position))
| MultiPoint (points : list position)
| MultiLineString (lines : list (list position))
| MultiPolygon (polygons : list (list (list position))).

Definition encode_position (p : position) : value :=
  VList (VNum (lon p) :: VNum (lat p) :: map VNum (more p)).

Definition encode_line (l : list position) : value :=
  VList (map encode_position l).

Definition encode_rings (rs : list (list position)) : value :=
  VList (map encode_line rs).

Definition encode (g : geometry) : value :=
  match g with
  | Point p => geojson "Point" (encode_position p)
  | LineString l => geojson "LineString" (encode_line l)
  | Polygon rs => geojson "Polygon" (encode_rings rs)
  | MultiPoint l => geojson "MultiPoint" (encode_line l)
  | MultiLineString ls => geojson "MultiLineString" (encode_rings ls)
  | MultiPolygon ps => geojson "MultiPolygon" (VList (map encode_rings ps))
  end.

(** A feature's geometry: null or well-formed. *)
Definition encode_opt (g : option geometry) : value :=
  match g with
  | Some g => encode g
  | None => VNone
  end.

(** ** The centroid and the bounding box, as specified *)

(** [sum] on numbers. *)
Fixpoint add_from (acc : number) (l : list number) : result number :=
  match l with
  | [] => Ok acc
  | x :: l' => acc' <- py_add acc x ;; add_from acc' l'
  end.

(** The unweighted arithmetic mean as Python computes it: the sum from
    the left, divided by the count. *)
Definition mean (l : list number) : result number :=
  s <- add_from (Int 0) l ;; py_div s (List.length l).

(** The vertices a centroid averages: all of them, but for a Polygon
    those of the first ring only. *)
Definition vertices (g : option geometry) : list position :=
  match g with
  | None => []
  | Some (Point p) => [p]
  | Some (LineString l) => l
  | Some (MultiPoint l) => l
  | Some (Polygon rs) => hd [] rs
  | Some (MultiLineString ls) => List.concat ls
  | Some (MultiPolygon ps) => List.concat (List.concat ps)
  end.

(** The mean of the longitudes, then that of the latitudes. *)
Definition mean_lon_lat_of (l : list position) : result (number * number) :=
  x <- mean (map lon l) ;;
  y <- mean (map lat l) ;;
  Ok (x, y).

(** The centroid as numbers; [None] is (null, null). *)
Definition centroid_n (g : option geometry) : result (option (number * number)) :=
  match g with
  | Some (Point p) => Ok (Some (lon p, lat p))
  | _ =>
      match vertices g with
      | [] => Ok None
      | l => c <- mean_lon_lat_of l ;; Ok (Some c)
      end
  end.

Definition value_pair (c : number * number) : value * value :=
  (VNum (fst c), VNum (snd c)).

Definition pair_or_null (c : option (number * number)) : value * value :=
  match c with
  | Some c => value_pair c
  | None => (VNone, VNone)
  end.

Definition mean_position (l : list position) : result (value * value) :=
  match l with
  | [] => Ok (VNone, VNone)
  | _ :: _ => c <- mean_lon_lat_of l ;; Ok (value_pair c)
  end.

Definition spec_centroidOf (g : option geometry) : result (value * value) :=
  c <- centroid_n g ;; Ok (pair_or_null c).

Record feature : Type := mk_feature {
  geometry_of : option geometry;
  properties_of : list (string * value)
}.

(** The feature object the assembler writes. *)
Definition encode_feature (f : feature) : value :=
  VDict [("type", VStr "Feature");
         ("geometry", encode_opt (geometry_of f));
         ("properties", VDict (properties_of f))].

(** The centroids of the features that have one, in feature order. *)
Fixpoint located (fs : list feature) : result (list (number * number)) :=
  match fs with
  | [] => Ok []
  | f :: fs' =>
      c <- centroid_n (geometry_of f) ;;
      rest <- located fs' ;;
      Ok (match c with
          | Some c => c :: rest
          | None => rest
          end)
  end.

(** [a <= b] on numbers *)
Definition num_leb (a b : number) : bool := num_ltb a b || num_eqb a b.

(** The least and the greatest of [best :: l], the first among equals. *)
Definition num_min_from (best : number) (l : list number) : number :=
  fold_left (fun m x => if num_ltb x m then x else m) l best.

Definition num_max_from (best : number) (l : list number) : number :=
  fold_left (fun m x => if num_ltb m x then x else m) l best.

Definition box_of (cs : list (number * number)) : bbox :=
  match cs with
  | [] => no_bbox
  | c :: cs =>
      (VNum (num_min_from (fst c) (map fst cs)),
       VNum (num_min_from (snd c) (map snd cs)),
       VNum (num_max_from (fst c) (map fst cs)),
       VNum (num_max_from (snd c) (map snd cs)))
  end.

Definition spec_bboxOf (fs : list feature) : result bbox :=
  cs <- located fs ;; Ok (box_of cs).

(** A number that is neither an infinity nor a NaN. *)
Definition finite (n : number) : bool :=
  match n with
  | Float FNan | Float (FInf _) => false
  | _ => true
  end.

Definition finite_float (x : float) : bool :=
  match x with
  | FNan | FInf _ => false
  | _ => true
  end.

(** The vertices the centroid averages have finite coordinates. *)
Definition finite_geometry (g : option geometry) : bool :=
  forallb (fun p => finite (lon p) && finite (lat p)) (vertices g).



Definition place_leb (a b : place) : bool := place_ltb a b || place_eqb a b.

(** No item is a NaN. *)
Definition numbers (l : list number) : Prop := forall x, In x l -> is_nan x = false.

(** The mean of the vertices, or nothing to return. *)
Definition mean_or_fall (l : list position) : result (option (value * value)) :=
  match l with
  | [] => Ok None
  | _ :: _ => r <- mean_position l ;; Ok (Some r)
  end.




Definition sample_features : list feature :=
  [mk_feature (Some (Point (mk_position 3 2 []))) [];
   mk_feature None [("name", VStr "A")];
   mk_feature (Some (Point (mk_position 1 4 []))) []].

(** ** Endpoints and runs of the query *)

(** The dict [query_layer] returns when [data] is unbound or a dict. *)
Definition dict_or_unbound (o : option value) : Prop :=
  match o with
  | None => True
  | Some (VDict _) => True
  | Some _ => False
  end.

(** The offsets of the first [n] requests. *)
Definition page_offsets (p n : nat) : list Z :=
  map (fun k => Z.of_nat (k * p)) (seq 0 n).

(** An endpoint that holds [all] and serves the request at an offset
    with the next [p] features, or with those that remain. *)
Definition serves_all (p : nat) (all : list value) (serve : endpoint) : Prop :=
  forall off : nat,
    exists d,
      serve (Z.of_nat off) = Decoded (VDict d) /\
      lookup "error" d = None /\
      lookup "features" d = Some (VList (firstn p (skipn off all))).

(** No page is longer than what was asked for. *)
Definition pages_within (p : nat) (serve : endpoint) : Prop :=
  forall off d feats items,
    serve off = Decoded d ->
    py_get d "features" (VList []) = Ok feats ->
    py_iter feats = Ok items ->
    List.length items <= p.

(** An endpoint that holds [all]: each answer carries the page at the
    offset and the geometry type of the layer. *)
Definition mock_endpoint (p : nat) (tag : string) (all : list value) : endpoint :=
  fun off =>
    Decoded (VDict [("features", VList (firstn p (skipn (Z.to_nat off) all)));
                    ("geometryType", VStr tag)]).

Definition station (n : Z) : value :=
  VDict [("attributes", VDict [("id", VNum n)]);
         ("geometry", VDict [("x", VNum n); ("y", VNum 0)])].

Definition five_stations : list value :=
  [station 1; station 2; station 3; station 4; station 5].

(** The pages the loop takes in before the one that fails: each is
    served at its offset without an error field, is a full page, and
    leaves the accumulator below the ceiling, so that the loop asks
    for the next one. *)
Fixpoint prior_pages (p : nat) (max_records : Z) (serve : endpoint)
    (k : nat) (acc : list value) (pages : list (list value)) : Prop :=
  match pages with
  | [] => True
  | page :: rest =>
      (exists d,
         serve (Z.of_nat (k * p)) = Decoded (VDict d) /\
         lookup "error" d = None /\
         lookup "features" d = Some (VList page)) /\
      p <= List.length page /\
      (Z.of_nat (List.length (acc ++ page)) < max_records)%Z /\
      prior_pages p max_records serve (S k) (acc ++ page) rest
  end.

(** A request that fails before a document is decoded, or a document
    with an [error] field. *)
Definition fails (o : outcome) : Prop :=
  o = Failure \/ exists d, o = Decoded (VDict d) /\ has_key "error" d = true.

(** One full page, then a document with an error field. *)
Definition error_after_one_page (p : nat) (page : list value) : endpoint :=
  fun off =>
    if (off =? 0)%Z then
      Decoded (VDict [("features", VList page);
                      ("geometryType", VStr "esriGeometryPoint")])
    else
      Decoded (VDict [("error", VDict [("message", VStr "x")])]).

(** ** Files and rows *)

(** The rows a loop has added: each is the row of a feature of [feats]. *)
Definition rows_of (id : string) (feats : list value) (rows : list feature_row) : Prop :=
  Forall (fun row => exists f params,
                       In f feats /\
                       feature_row_of id f = Ok params /\
                       bind_feature params = Ok row) rows.

(** The sizes of the slices [l[i : i + batch_size]]. *)
Definition sum_batches (l : list value) (starts : list nat) : nat :=
  fold_right (fun i n => List.length (firstn batch_size (skipn i l)) + n) 0 starts.


(** The exceptions of an INSERT. *)
Definition insert_error (e : exn) : Prop :=
  e = IntegrityError \/ e = ProgrammingError \/ e = OverflowError.

(** The rows of a layer in the features table. *)
Definition rows_of_layer (id : string) (t : list feature_row) : list feature_row :=
  filter (fun r => String.eqb (row_layer_id r) id) t.

(** A feature collection on disk. *)
Definition collection (feats : list value) : value :=
  VDict [("type", VStr "FeatureCollection"); ("features", VList feats)].

Definition stations_file : artifact :=
  mk_artifact "red-hidrometrica_layer0.geojson" 812
    (Ok (collection (map encode_feature sample_features))).

(** A Point whose coordinates are two strings. *)
Definition text_point : value :=
  geojson "Point" (VList [VStr "-70.5"; VStr "-33.4"]).


Definition text_point_file : artifact :=
  mk_artifact "apr_layer0.geojson" 812
    (Ok (collection [VDict [("type", VStr "Feature");
                            ("geometry", text_point);
                            ("properties", VDict [("name", VStr "A")])]])).

(** ** Well-formed vendor geometries *)

Inductive esri_geometry : Type :=
| EsriPoint (x y : number)
| EsriPolyline (paths : list (list position))
| EsriPolygon (rings : list (list position))
| EsriMultipoint (points : list position).

Definition encode_esri (g : esri_geometry) : value :=
  match g with
  | EsriPoint x y => VDict [("x", VNum x); ("y", VNum y)]
  | EsriPolyline paths => VDict [("paths", encode_rings paths)]
  | EsriPolygon rings => VDict [("rings", encode_rings rings)]
  | EsriMultipoint points => VDict [("points", encode_line points)]
  end.

Definition esri_tag (g : esri_geometry) : string :=
  match g with
  | EsriPoint _ _ => "esriGeometryPoint"
  | EsriPolyline _ => "esriGeometryPolyline"
  | EsriPolygon _ => "esriGeometryPolygon"
  | EsriMultipoint _ => "esriGeometryMultipoint"
  end.

(** The standard geometry a vendor geometry becomes. *)
Definition translated (g : esri_geometry) : geometry :=
  match g with
  | EsriPoint x y => Point (mk_position x y [])
  | EsriPolyline [path] => LineString path
  | EsriPolyline paths => MultiLineString paths
  | EsriPolygon [ring] => Polygon [ring]
  | EsriPolygon rings => MultiPolygon (map (fun ring => [ring]) rings)
  | EsriMultipoint points => MultiPoint points
  end.

(** All the vertices of a vendor geometry. *)
Definition esri_vertices (g : esri_geometry) : list position :=
  match g with
  | EsriPoint x y => [mk_position x y []]
  | EsriPolyline paths => List.concat paths
  | EsriPolygon rings => List.concat rings
  | EsriMultipoint points => points
  end.

(** The six type names of a standard geometry. *)
Definition standard_types : list string :=
  ["Point"; "LineString"; "MultiLineString"; "Polygon"; "MultiPolygon"; "MultiPoint"].

(** The type names a vendor tag can be translated to. *)
Definition types_of_tag (tag : value) : list string :=
  if is_str "esriGeometryPoint" tag then ["Point"]
  else if is_str "esriGeometryPolyline" tag then ["LineString"; "MultiLineString"]
  else if is_str "esriGeometryPolygon" tag then ["Polygon"; "MultiPolygon"]
  else if is_str "esriGeometryMultipoint" tag then ["MultiPoint"]
  else [].

(** A vendor feature: its geometry, if it has one, and its attributes,
    if it has them. *)
Record esri_feature : Type := mk_esri_feature {
  esri_geometry_of : option esri_geometry;
  esri_attributes_of : option (list (string * value))
}.

Definition encode_esri_feature (f : esri_feature) : value :=
  VDict ((match esri_attributes_of f with
          | Some attrs => [("attributes", VDict attrs)]
          | None => []
          end)
         ++
         (match esri_geometry_of f with
          | Some g => [("geometry", encode_esri g)]
          | None => []
          end)).

(** The feature the assembler makes of a vendor feature of a layer
    with type tag [tag]: a geometry of another type is dropped. *)
Definition assembled (tag : string) (f : esri_feature) : feature :=
  mk_feature
    (match esri_geometry_of f with
     | Some g => if String.eqb (esri_tag g) tag then Some (translated g) else None
     | None => None
     end)
    (match esri_attributes_of f with
     | Some attrs => attrs
     | None => []
     end).

(** The document [query_layer] returns for a layer of well-formed
    vendor features. *)
Definition esri_document (tag : string) (fs : list esri_feature) : value :=
  VDict [("features", VList (map encode_esri_feature fs));
         ("geometryType", VStr tag)].

(** The exceptions of subscripting: [IndexError], [TypeError] and
    [KeyError]. *)
Definition subscript_error (e : exn) : bool :=
  match e with
  | IndexError | TypeError | KeyError => true
  | _ => false
  end.

(** The exceptions of the [try] block of [get_centroid]: those of
    subscripting and of iterating, and the [OverflowError] of a mean. *)
Definition centroid_error (e : exn) : bool :=
  match e with
  | IndexError | TypeError | KeyError | OverflowError => true
  | _ => false
  end.

(** The features the loop takes from the answer to a request: those of
    a document without an error field, none otherwise. *)
Definition page_items (o : outcome) : list value :=
  match o with
  | Failure => []
  | Decoded d =>
      match (has_error <- py_in "error" d ;;
             if has_error then Ok []
             else
               feats <- py_get d "features" (VList []) ;;
               if negb (truthy feats) then Ok [] else py_iter feats) with
      | Ok items => items
      | Raise _ => []
      end
  end.

(** The outcome that decodes to the document in [data]. *)
Definition Decoded_of (o : option value) : outcome :=
  match o with
  | Some d => Decoded d
  | None => Failure
  end.

(** ** The tables after a load *)

(** What the schema asks of the two tables: a layer id names one layer,
    every features row belongs to a layer, and a layer has no more
    features rows than its [feature_count]. *)
Definition consistent (db : database) : Prop :=
  NoDup (map layer_id (layers db)) /\
  (forall r, In r (features db) ->
             In (row_layer_id r) (map layer_id (layers db))) /\
  (forall l, In l (layers db) ->
             List.length (rows_of_layer (layer_id l) (features db))
             <= feature_count l).







(** The number of batches of [n] rows. *)
Definition batches (n : nat) : nat := (n + batch_size - 1) / batch_size.

Definition no_dot (s : string) : bool :=
  forallb (fun c => negb (Ascii.eqb c ".")) (list_ascii_of_string s).

(** ** The files of a download *)

(** The number of features in a document on disk. *)
Definition features_in (doc : value) : nat :=
  match py_item doc "features" with
  | Ok (VList l) => List.length l
  | _ => 0
  end.

(** The number of features in the files of a list of writes. *)
Definition features_written (files : list (string * value)) : nat :=
  list_sum (map (fun f => features_in (snd f)) files).

(** A file of a layer of [service]: a feature collection that is not
    empty, under the name made of the service's id and the layer. *)
Definition layer_file (py_str : value -> string) (service : value)
    (layer_ids : list value) (f : string * value) : Prop :=
  exists id layer_id feats,
    py_item service "id" = Ok id /\
    In layer_id layer_ids /\
    feats <> [] /\
    f = (output_path (layer_filename py_str id layer_id), collection feats).

(** A service of the catalog as [main] needs it: an id, a name that is
    a string, and layers that can be iterated (or none). *)
Definition catalogued (service : value) : bool :=
  match py_item service "id", py_item service "name", layers_of service with
  | Ok _, Ok (VStr _), Ok _ => true
  | _, _, _ => false
  end.

(** The entry of the summary for [service] with [count] features: the
    service's id and name, and a status; a failed service counts no
    feature. *)
Definition reported (service : value) (row : nat * value) : Prop :=
  exists id name status,
    py_item service "id" = Ok id /\
    py_item service "name" = Ok name /\
    snd row = summary_entry id name (fst row) status /\
    (status = "success" \/ (status = "failed" /\ fst row = 0)).

(** A file of a layer of one of the [services]. *)
Definition file_of_catalog (py_str : value -> string) (services : list value)
    (f : string * value) : Prop :=
  exists service layer_ids,
    In service services /\
    layers_of service = Ok layer_ids /\
    layer_file py_str service layer_ids f.

(** An f-string on the values of the catalog. *)
Definition text_of (v : value) : string :=
  match v with
  | VStr s => s
  | _ => "0"
  end.

Definition hydrometric_network : value :=
  VDict [("id", VStr "red-hidrometrica"); ("name", VStr "Hydrometric Network");
         ("url", VStr "https://rest-sit.mop.gob.cl/arcgis/rest/services/DGA/Red_Hidrometrica/MapServer");
         ("layers", VList [VNum 0])].

(** A service whose layers are a number: the loop over them raises. *)
Definition without_layers : value :=
  VDict [("id", VStr "alertas-dga"); ("name", VStr "Flood Alerts");
         ("url", VStr "https://rest-sit.mop.gob.cl/arcgis/rest/services/DGA/ALERTAS/MapServer");
         ("layers", VNum 0)].

(** Every layer of every service holds the five stations. *)
Definition stations_everywhere : nat -> value -> value -> endpoint :=
  fun _ _ _ => mock_endpoint 1000 "esriGeometryPoint" five_stations.

(** No request gets through. *)
Definition network_down : nat -> value -> value -> endpoint :=
  fun _ _ _ _ => Failure.

Definition always_writable : world -> string -> bool := fun _ _ => true.

Definition empty_world : world := mk_world [] 0.





(** ** The model on the scenarios of the specification *)

Example scenario_two_rings :
  esri_to_geojson_geometry
    (VDict [("rings", VList [VList [VNum 1]; VList [VNum 2]])])
    (VStr "esriGeometryPolygon")
  = Ok (geojson "MultiPolygon"
          (VList [VList [VList [VNum 1]]; VList [VList [VNum 2]]])).
Proof. reflexivity. Qed.

Example scenario_feature :
  esri_to_geojson
    (VDict [("geometryType", VStr "esriGeometryPoint");
            ("features",
             VList [VDict [("geometry",
                            VDict [("x", VNum (double (-705 # 10))); ("y", VNum (double (-334 # 10)))]);
                           ("attributes", VDict [("name", VStr "A")])]])])
  = Ok (VDict [("type", VStr "FeatureCollection");
               ("features",
                VList [VDict [("type", VStr "Feature");
                              ("geometry",
                               geojson "Point"
                                 (VList [VNum (double (-705 # 10)); VNum (double (-334 # 10))]));
                              ("properties", VDict [("name", VStr "A")])]])]).
Proof. reflexivity. Qed.

Example no_paths_is_a_multilinestring :
  esri_to_geojson_geometry (VDict [("paths", VList [])]) (VStr "esriGeometryPolyline")
  = Ok (geojson "MultiLineString" (VList [])).
Proof. reflexivity. Qed.

Example centroid_missing_latitude :
  get_centroid (geojson "Point" (VList [VNum 1])) = Ok (VNone, VNone).
Proof. reflexivity. Qed.

Example centroid_of_a_list : get_centroid (VList [VNum 1]) = Raise AttributeError.
Proof. reflexivity. Qed.

Example layer_name_of_file :
  title (replace_char "-" " "
           (replace_char "_" " " (remove_all ".geojson" "red-hidrometrica_layer0.geojson")))
  = "Red Hidrometrica Layer0".
Proof. reflexivity. Qed.

Example query_layer_three_pages :
  query_layer
    (fun off =>
       Decoded (VDict [("features",
                        VList (firstn 1000 (skipn (Z.to_nat off)
                                              (repeat (VDict []) 2500))));
                       ("geometryType", VStr "esriGeometryPoint")]))
    2500
  = Some ([0; 1000; 2000]%Z,
          Ok (VDict [("features", VList (repeat (VDict []) 2500));
                     ("geometryType", VStr "esriGeometryPoint")])).
Proof. vm_compute. reflexivity. Qed.

Example query_layer_unbound_data :
  query_layer (fun _ => Failure) default_max_records
  = Some ([0%Z], Ok (VDict [("features", VList []); ("geometryType", VStr "")])).
Proof. vm_compute. reflexivity. Qed.

Example query_layer_not_an_object :
  query_layer (fun _ => Decoded (VList [])) default_max_records
  = Some ([0%Z], Raise AttributeError).
Proof. vm_compute. reflexivity. Qed.

Example scenario_small_file :
  load_file create_local_db
    (mk_artifact "empty.geojson" 44 (Ok (VDict [("features", VList [])])))
  = (create_local_db, TooSmall).
Proof. reflexivity. Qed.

Example unparseable_file :
  load_geojson_files create_local_db
    [mk_artifact "broken.geojson" 900 (Raise JSONDecodeError);
     mk_artifact "notes.txt" 900 (Raise JSONDecodeError)]
  = (create_local_db, 0).
Proof. reflexivity. Qed.

(** * Properties *)

(** ** The geometry translator *)

Lemma lookup_truthy k d v : lookup k d = Some v -> truthy (VDict d) = true.
Proof. destruct d; simpl; [discriminate | reflexivity]. Qed.

Lemma lookup_has_key k d v : lookup k d = Some v -> has_key k d = true.
Proof. unfold has_key. intros ->. reflexivity. Qed.

Lemma lookup_item k d v : lookup k d = Some v -> py_item (VDict d) k = Ok v.
Proof. simpl. intros ->. reflexivity. Qed.

Ltac translator_start H :=
  unfold esri_to_geojson_geometry;
  rewrite (lookup_truthy _ _ _ H); simpl negb; cbv iota;
  repeat match goal with
         | |- context [is_str ?a (VStr ?b)] =>
             let r := eval vm_compute in (is_str a (VStr b)) in
             change (is_str a (VStr b)) with r; cbv iota
         end;
  unfold py_in.

(** C1.  Each vendor geometry is mapped to its standard form: a Point
    with numeric x and y yields Point with coordinates [x, y]; a
    Polyline with one path yields LineString of that path, with two or
    more paths MultiLineString of all paths; a Polygon with one ring
    yields Polygon, with two or more rings MultiPolygon in which every
    ring is a single-ring polygon of its own; a Multipoint yields
    MultiPoint with the point list unchanged. *)
Theorem translate_table d tag out :
  translates d tag out ->
  esri_to_geojson_geometry (VDict d) (VStr tag) = Ok out.
Proof.
  intros T. destruct T as [d x y Hx Hy | d path H | d paths H Hn
                          | d ring H | d rings H Hn | d points H].
  - translator_start Hx. unfold has_key. rewrite Hx, Hy. simpl.
    rewrite Hx, Hy. reflexivity.
  - translator_start H. unfold has_key. rewrite H. simpl.
    rewrite H. reflexivity.
  - destruct paths as [|p1 [|p2 paths]]; simpl in Hn; try lia.
    translator_start H. unfold has_key. rewrite H. simpl.
    rewrite H. reflexivity.
  - translator_start H. unfold has_key. rewrite H. simpl.
    rewrite H. reflexivity.
  - destruct rings as [|r1 [|r2 rings]]; simpl in Hn; try lia.
    translator_start H. unfold has_key. rewrite H. simpl.
    rewrite H. reflexivity.
  - translator_start H. unfold has_key. rewrite H. simpl.
    rewrite H. reflexivity.
Qed.

Lemma translate_table_witness :
  translates scenario_point "esriGeometryPoint"
    (geojson "Point" (VList [VNum (double (-705 # 10)); VNum (double (-334 # 10))])) /\
  esri_to_geojson_geometry (VDict scenario_point) (VStr "esriGeometryPoint")
  = Ok (geojson "Point" (VList [VNum (double (-705 # 10)); VNum (double (-334 # 10))])).
Proof.
  assert (T : translates scenario_point "esriGeometryPoint"
                (geojson "Point" (VList [VNum (double (-705 # 10)); VNum (double (-334 # 10))])))
    by (apply translates_point; reflexivity).
  split; [exact T | exact (translate_table _ _ _ T)].
Defined.

(** A vendor geometry whose [paths] is not an array: [len] raises. *)
Lemma translate_raises :
  esri_to_geojson_geometry (VDict [("paths", VNone)]) (VStr "esriGeometryPolyline")
  = Raise TypeError /\
  ~ (forall g tag, exists out, esri_to_geojson_geometry g tag = Ok out).
Proof.
  split; [reflexivity |].
  intros H.
  destruct (H (VDict [("paths", VNone)]) (VStr "esriGeometryPolyline")) as [out E].
  discriminate E.
Qed.

Lemma is_str_inj a b v : is_str a v = true -> is_str b v = true -> a = b.
Proof.
  destruct v; simpl; try discriminate.
  intros Ha Hb. apply String.eqb_eq in Ha, Hb. congruence.
Qed.

Lemma is_str_other a b v : is_str a v = true -> a <> b -> is_str b v = false.
Proof.
  intros Ha Hab. destruct (is_str b v) eqn:Hb; [| reflexivity].
  elim Hab. exact (is_str_inj _ _ _ Ha Hb).
Qed.

Ltac other_tags T H :=
  repeat match type of H with
         | context [is_str ?b ?tag] =>
             rewrite (is_str_other _ b tag T) in H by (intro; discriminate)
         end;
  simpl in H.

Ltac split_tag tag :=
  destruct (is_str "esriGeometryPoint" tag) eqn:Tpoint;
  [| destruct (is_str "esriGeometryPolyline" tag) eqn:Tline;
     [| destruct (is_str "esriGeometryPolygon" tag) eqn:Tpoly;
        [| destruct (is_str "esriGeometryMultipoint" tag) eqn:Tmulti]]].

Lemma translate_falsy g tag :
  truthy g = false -> esri_to_geojson_geometry g tag = Ok VNone.
Proof. unfold esri_to_geojson_geometry. intros ->. reflexivity. Qed.

Lemma translate_unknown_tag g tag :
  known_tag tag = false -> esri_to_geojson_geometry g tag = Ok VNone.
Proof.
  unfold known_tag, esri_to_geojson_geometry. intros H.
  destruct (truthy g); [simpl | reflexivity].
  split_tag tag; simpl in H; try discriminate. reflexivity.
Qed.

Lemma translate_missing d tag :
  payload_missing d tag = true ->
  esri_to_geojson_geometry (VDict d) tag = Ok VNone.
Proof.
  unfold payload_missing, esri_to_geojson_geometry. intros H.
  destruct (truthy (VDict d)); [simpl negb; cbv iota | reflexivity].
  split_tag tag; simpl in H; try discriminate; unfold py_in; simpl bind.
  - other_tags Tpoint H.
    destruct (has_key "x" d); [| reflexivity].
    destruct (has_key "y" d); [discriminate | reflexivity].
  - other_tags Tline H.
    destruct (has_key "paths" d); [discriminate | reflexivity].
  - other_tags Tpoly H.
    destruct (has_key "rings" d); [discriminate | reflexivity].
  - destruct (has_key "points" d); [discriminate | reflexivity].
Qed.

Lemma translate_returns g tag :
  vendor_shaped g = true -> exists out, esri_to_geojson_geometry g tag = Ok out.
Proof.
  unfold vendor_shaped. intros H.
  destruct (truthy g) eqn:Tg;
    [| exists VNone; apply translate_falsy; exact Tg].
  simpl in H. destruct g as [| | | | |d]; try discriminate.
  apply andb_prop in H. destruct H as [Hp Hr].
  unfold array_payload in Hp, Hr.
  unfold esri_to_geojson_geometry. rewrite Tg. simpl negb. cbv iota.
  split_tag tag; unfold py_in, has_key, py_item.
  - destruct (lookup "x" d); simpl; [| eauto].
    destruct (lookup "y" d); simpl; eauto.
  - destruct (lookup "paths" d) as [[| | | |l|]|]; simpl; try discriminate; eauto.
    destruct l as [|p [|q l]]; simpl; eauto.
  - destruct (lookup "rings" d) as [[| | | |l|]|]; simpl; try discriminate; eauto.
    destruct l as [|p [|q l]]; simpl; eauto.
  - destruct (lookup "points" d); simpl; eauto.
  - eauto.
Qed.

(** C2, amended.  On a vendor geometry that is empty or absent, or an
    object whose paths and rings are arrays, the translator returns and
    does not raise, whatever the tag.  It returns null for an empty or
    absent geometry, for an unrecognized tag, and for an object that
    lacks the fields of its tag. *)
Theorem translate_total_on_vendor_objects :
  (forall g tag, vendor_shaped g = true ->
     exists out, esri_to_geojson_geometry g tag = Ok out) /\
  (forall g tag, truthy g = false ->
     esri_to_geojson_geometry g tag = Ok VNone) /\
  (forall g tag, known_tag tag = false ->
     esri_to_geojson_geometry g tag = Ok VNone) /\
  (forall d tag, payload_missing d tag = true ->
     esri_to_geojson_geometry (VDict d) tag = Ok VNone).
Proof.
  repeat split.
  - apply translate_returns.
  - apply translate_falsy.
  - apply translate_unknown_tag.
  - apply translate_missing.
Qed.

Lemma translate_total_on_vendor_objects_witness :
  (exists out,
     esri_to_geojson_geometry (VDict [("paths", VList [])])
       (VStr "esriGeometryPolyline") = Ok out) /\
  esri_to_geojson_geometry (VDict []) (VStr "esriGeometryPoint") = Ok VNone /\
  esri_to_geojson_geometry (VDict scenario_point) (VStr "esriGeometryEnvelope")
  = Ok VNone /\
  esri_to_geojson_geometry (VDict [("x", VNum 1)]) (VStr "esriGeometryPoint")
  = Ok VNone.
Proof.
  destruct translate_total_on_vendor_objects as (A & B & C & D).
  split; [| split; [| split]].
  - apply A. reflexivity.
  - apply B. reflexivity.
  - apply C. reflexivity.
  - apply D. reflexivity.
Defined.

(** ** Numbers *)

Lemma bind_ok {A B} (a : A) (k : A -> result B) : bind (Ok a) k = k a.
Proof. reflexivity. Qed.

Lemma round_ratio_cases s p q :
  round_ratio s p q = FZero s \/ round_ratio s p q = FInf s \/
  exists m e, round_ratio s p q = FNum s m e.
Proof.
  unfold round_ratio.
  match goal with
  | |- context [match ?n with Zpos _ => _ | _ => _ end] => destruct n as [|m|m]
  end; auto.
  destruct (1024 <=? _)%Z; auto.
  destruct (odd_part m _) as [m' e']. eauto.
Qed.

(** The double of a positive int is a positive double, or an infinity
    for an int of 1024 bits or more. *)
Lemma int_double s p :
  (exists m e, round_ratio s p 1 = FNum s m e) \/
  (round_ratio s p 1 = FInf s /\ (1023 <= Z.log2 (Zpos p))%Z).
Proof.
  pose proof (Z.log2_spec (Zpos p) eq_refl) as [Hlo Hhi].
  pose proof (Z.log2_nonneg (Zpos p)) as Hk.
  unfold round_ratio.
  change (Z.log2 1) with 0%Z. rewrite Z.sub_0_r.
  set (k := Z.log2 (Zpos p)) in *.
  replace (0 <=? k)%Z with true by (symmetry; apply Z.leb_le; exact Hk).
  rewrite Z.shiftl_mul_pow2 by exact Hk. rewrite Z.mul_1_l.
  replace (Zpos p <? 2 ^ k)%Z with false by (symmetry; apply Z.ltb_ge; exact Hlo).
  replace (Z.max (k - 52) (-1074)) with (k - 52)%Z by lia.
  destruct (0 <=? k - 52)%Z eqn:T.
  - apply Z.leb_le in T.
    rewrite Z.shiftl_mul_pow2 by exact T. rewrite Z.mul_1_l.
    assert (Hpow : (2 ^ k = 2 ^ (k - 52) * 2 ^ 52)%Z)
      by (rewrite <- Z.pow_add_r by lia; f_equal; lia).
    assert (Hpos : (0 < 2 ^ (k - 52))%Z) by (apply Z.pow_pos_nonneg; lia).
    assert (Hn1 : (2 ^ 52 <= Zpos p / 2 ^ (k - 52))%Z)
      by (apply Z.div_le_lower_bound; lia).
    assert (Hn2 : (Zpos p / 2 ^ (k - 52) < 2 ^ 53)%Z).
    { apply Z.div_lt_upper_bound; [exact Hpos |].
      replace (2 ^ (k - 52) * 2 ^ 53)%Z with (2 ^ Z.succ k)%Z; [exact Hhi |].
      rewrite <- Z.pow_add_r by lia. f_equal. lia. }
    set (n := (Zpos p / 2 ^ (k - 52))%Z) in *.
    assert (Hnear : forall m : Z, (m = n \/ m = n + 1)%Z ->
              (exists m' e',
                match m with
                | Zpos m0 =>
                    if (1024 <=? Z.log2 (Zpos m0) + (k - 52))%Z then FInf s
                    else let (m', e') := odd_part m0 (k - 52) in FNum s m' e'
                | _ => FZero s
                end = FNum s m' e') \/
              (match m with
               | Zpos m0 =>
                   if (1024 <=? Z.log2 (Zpos m0) + (k - 52))%Z then FInf s
                   else let (m', e') := odd_part m0 (k - 52) in FNum s m' e'
               | _ => FZero s
               end = FInf s /\ (1023 <= k)%Z)).
    { intros m Hm. destruct m as [|m|m]; try lia.
      destruct (1024 <=? _)%Z eqn:O.
      - right. split; [reflexivity |]. apply Z.leb_le in O.
        assert (L : (Z.log2 (Zpos m) <= Z.log2 (2 ^ 53))%Z)
          by (apply Z.log2_le_mono; lia).
        rewrite Z.log2_pow2 in L by lia. lia.
      - left. destruct (odd_part m _) as [m' e']. eauto. }
    destruct (2 * (Zpos p mod 2 ^ (k - 52)) ?= 2 ^ (k - 52))%Z;
      [destruct (Z.even n) | |]; apply Hnear; auto.
  - apply Z.leb_gt in T.
    rewrite Z.shiftl_mul_pow2 by lia.
    rewrite Z.div_1_r, Z.mod_1_r. change (2 * 0 ?= 1)%Z with Lt. cbv iota.
    assert (Hpos : (0 < 2 ^ (- (k - 52)))%Z) by (apply Z.pow_pos_nonneg; lia).
    destruct (Zpos p * 2 ^ (- (k - 52)))%Z as [|m|m] eqn:M; try lia.
    assert (Hlog : Z.log2 (Zpos m) = 52%Z).
    { rewrite <- M. rewrite Z.log2_mul_pow2 by lia. fold k. lia. }
    rewrite Hlog.
    replace (1024 <=? 52 + (k - 52))%Z with false by (symmetry; apply Z.leb_gt; lia).
    left. destruct (odd_part m _) as [m' e']. eauto.
Qed.

Lemma float_of_int_error z e : float_of_int z = Raise e -> e = OverflowError.
Proof.
  unfold float_of_int. destruct (nearest_double z 1); congruence.
Qed.


Lemma nearest_double_cases z n :
  nearest_double z n <> FNan.
Proof.
  destruct z as [|p|p]; simpl; [discriminate | |].
  - destruct (round_ratio_cases false p n) as [-> | [-> | (m & e & ->)]]; discriminate.
  - destruct (round_ratio_cases true p n) as [-> | [-> | (m & e & ->)]]; discriminate.
Qed.

Lemma py_add_error a b e : py_add a b = Raise e -> e = OverflowError.
Proof.
  destruct a as [x|x], b as [y|y]; simpl; try discriminate.
  - destruct (float_of_int x) eqn:F; simpl; [discriminate |].
    intros E. inversion E; subst. exact (float_of_int_error _ _ F).
  - destruct (float_of_int y) eqn:F; simpl; [discriminate |].
    intros E. inversion E; subst. exact (float_of_int_error _ _ F).
Qed.

Lemma py_div_error s n e : py_div s (S n) = Raise e -> e = OverflowError.
Proof.
  unfold py_div. destruct s as [z|x].
  - destruct (nearest_double z _); congruence.
  - destruct (float_of_int _) eqn:F; simpl; [discriminate |].
    intros E. inversion E; subst. exact (float_of_int_error _ _ F).
Qed.

Lemma add_from_error l : forall acc e, add_from acc l = Raise e -> e = OverflowError.
Proof.
  induction l as [|x l IH]; intros acc e; simpl; [discriminate |].
  destruct (py_add acc x) as [acc'|e'] eqn:A; simpl.
  - apply IH.
  - intros E. inversion E; subst. exact (py_add_error _ _ _ A).
Qed.

Lemma mean_error l e : l <> [] -> mean l = Raise e -> e = OverflowError.
Proof.
  intros Hne. unfold mean.
  destruct (add_from 0 l) as [s|e'] eqn:A; simpl.
  - destruct l as [|x l]; [congruence |]. apply py_div_error.
  - intros E. inversion E; subst. exact (add_from_error _ _ _ A).
Qed.

(** *** A sum of finite numbers is not a NaN *)

Lemma round_ratio_not_nan s p q : round_ratio s p q <> FNan.
Proof.
  destruct (round_ratio_cases s p q) as [-> | [-> | (m & e & ->)]]; discriminate.
Qed.

Lemma round_dyadic_not_nan s m e : round_dyadic s m e <> FNan.
Proof. destruct e; apply round_ratio_not_nan. Qed.

Lemma fadd_not_nan x y :
  x <> FNan -> y <> FNan -> finite_float x || finite_float y = true ->
  fadd x y <> FNan.
Proof.
  destruct x as [|a|a|a m1 e1], y as [|b|b|b m2 e2]; simpl;
    try congruence; try discriminate.
  intros _ _ _.
  destruct (signed a _ + signed b _)%Z;
    [discriminate | apply round_dyadic_not_nan | apply round_dyadic_not_nan].
Qed.

Lemma float_of_int_finite z x :
  float_of_int z = Ok x -> x <> FNan /\ finite_float x = true.
Proof.
  unfold float_of_int. pose proof (nearest_double_cases z 1) as N.
  destruct (nearest_double z 1); try discriminate; try congruence;
    intros E; inversion E; subst; split; (discriminate || reflexivity).
Qed.

Lemma py_add_not_nan a b c :
  is_nan a = false -> finite b = true -> py_add a b = Ok c -> is_nan c = false.
Proof.
  destruct a as [x|x], b as [y|y]; simpl; intros Ha Hb.
  - intros E. inversion E. reflexivity.
  - destruct (float_of_int x) as [x'|] eqn:F; simpl; [| discriminate].
    destruct (float_of_int_finite _ _ F) as [N Fin].
    intros E. inversion E; subst. simpl.
    pose proof (fadd_not_nan x' y N) as H.
    destruct (fadd x' y); try reflexivity.
    exfalso. apply H; [destruct y; congruence | rewrite Fin; reflexivity | reflexivity].
  - destruct (float_of_int y) as [y'|] eqn:F; simpl; [| discriminate].
    destruct (float_of_int_finite _ _ F) as [N Fin].
    intros E. inversion E; subst. simpl.
    pose proof (fadd_not_nan x y') as H.
    destruct (fadd x y'); try reflexivity.
    exfalso. apply H; [destruct x; congruence | exact N |
                       rewrite Fin; apply orb_true_r | reflexivity].
  - intros E. inversion E; subst. simpl.
    pose proof (fadd_not_nan x y) as H.
    destruct (fadd x y); try reflexivity.
    exfalso. apply H; [destruct x; congruence | destruct y; congruence |
                       destruct y; try discriminate; apply orb_true_r | reflexivity].
Qed.

Lemma add_from_not_nan l :
  forall acc c,
    is_nan acc = false -> forallb finite l = true ->
    add_from acc l = Ok c -> is_nan c = false.
Proof.
  induction l as [|x l IH]; intros acc c Ha Hl; simpl.
  - intros E. inversion E; subst. exact Ha.
  - simpl in Hl. apply andb_prop in Hl. destruct Hl as [Hx Hl].
    destruct (py_add acc x) as [acc'|] eqn:A; simpl; [| discriminate].
    apply IH; [| exact Hl]. exact (py_add_not_nan _ _ _ Ha Hx A).
Qed.

Lemma count_double n x :
  float_of_int (Z.of_nat (S n)) = Ok x -> exists m e, x = FNum false m e.
Proof.
  unfold float_of_int, nearest_double.
  destruct (Z.of_nat (S n)) as [|p|p] eqn:Z; try lia.
  destruct (int_double false p) as [(m & e & ->) | [-> _]]; [| discriminate].
  intros E. inversion E. eauto.
Qed.

Lemma py_div_not_nan s n c :
  is_nan s = false -> py_div s (S n) = Ok c -> is_nan c = false.
Proof.
  unfold py_div. destruct s as [z|x]; intros Hs.
  - pose proof (nearest_double_cases z (Pos.of_nat (S n))) as N.
    destruct (nearest_double z _); try discriminate; try congruence;
      intros E; inversion E; reflexivity.
  - destruct (float_of_int _) as [d|] eqn:F; simpl; [| discriminate].
    destruct (count_double _ _ F) as (m & e & ->).
    intros E. inversion E; subst.
    destruct x as [|a|a|a m1 e1]; simpl in *; try discriminate; try reflexivity.
    pose proof (round_ratio_not_nan (xorb a false)
                  (Pos.shiftl m1 (Z.to_N (e1 - Z.min e1 e)))
                  (Pos.shiftl m (Z.to_N (e - Z.min e1 e)))) as N.
    destruct (round_ratio _ _ _); congruence.
Qed.

Lemma mean_not_nan l c :
  forallb finite l = true -> mean l = Ok c -> is_nan c = false.
Proof.
  intros Hl. unfold mean.
  destruct (add_from 0 l) as [s|] eqn:A; simpl; [| discriminate].
  pose proof (add_from_not_nan l 0 s eq_refl Hl A) as Hs.
  destruct l as [|x l]; [discriminate |]. simpl List.length.
  apply py_div_not_nan. exact Hs.
Qed.

(** *** Floats are added and divided without an exception *)



(** *** The order of the numbers *)

Lemma Qltb_lt x y : negb (Qle_bool y x) = true <-> (x < y)%Q.
Proof.
  rewrite negb_true_iff. split.
  - intros H. apply Qnot_le_lt. intros L. apply Qle_bool_iff in L. congruence.
  - intros H. destruct (Qle_bool y x) eqn:E; [| reflexivity].
    apply Qle_bool_iff in E. apply Qlt_not_le in H. contradiction.
Qed.

Lemma Qltb_ge x y : negb (Qle_bool y x) = false <-> (y <= x)%Q.
Proof. rewrite negb_false_iff. apply Qle_bool_iff. Qed.

Lemma place_leb_refl a : place_leb a a = true.
Proof.
  destruct a; try reflexivity. unfold place_leb. simpl.
  apply orb_true_iff. right. apply Qeq_bool_iff. reflexivity.
Qed.

Lemma place_leb_total a b : place_ltb a b = false -> place_leb b a = true.
Proof.
  unfold place_leb. destruct a as [|x|], b as [|y|]; simpl; try reflexivity;
    try discriminate.
  intros H. apply Qltb_ge in H. apply orb_true_iff.
  destruct (Qle_bool x y) eqn:E.
  - right. apply Qle_bool_iff in E. apply Qeq_bool_iff. lra.
  - left. reflexivity.
Qed.

Lemma place_leb_trans a b c :
  place_leb a b = true -> place_leb b c = true -> place_leb a c = true.
Proof.
  unfold place_leb. destruct a as [|x|], b as [|y|], c as [|z|]; simpl;
    try reflexivity; try discriminate.
  rewrite !orb_true_iff, !Qltb_lt, !Qeq_bool_iff. lra.
Qed.

Lemma num_leb_places a b :
  num_leb a b
  = match num_place a, num_place b with
    | Some x, Some y => place_leb x y
    | _, _ => false
    end.
Proof.
  unfold num_leb, num_ltb, num_eqb.
  destruct (num_place a), (num_place b); reflexivity.
Qed.

Lemma num_place_some a : is_nan a = false -> exists x, num_place a = Some x.
Proof.
  destruct a as [z|[|s|s|s m e]]; simpl; try discriminate; eauto.
  destruct e; eauto.
Qed.

Lemma num_leb_refl a : is_nan a = false -> num_leb a a = true.
Proof.
  intros H. rewrite num_leb_places. destruct (num_place_some a H) as [x ->].
  apply place_leb_refl.
Qed.

Lemma num_ltb_leb a b : num_ltb a b = true -> num_leb a b = true.
Proof. unfold num_leb. intros ->. reflexivity. Qed.

Lemma num_leb_total a b :
  is_nan a = false -> is_nan b = false -> num_ltb a b = false -> num_leb b a = true.
Proof.
  intros Ha Hb. rewrite num_leb_places. unfold num_ltb.
  destruct (num_place_some a Ha) as [x ->], (num_place_some b Hb) as [y ->].
  apply place_leb_total.
Qed.

Lemma num_leb_trans a b c :
  num_leb a b = true -> num_leb b c = true -> num_leb a c = true.
Proof.
  rewrite !num_leb_places.
  destruct (num_place a), (num_place b), (num_place c); try discriminate.
  apply place_leb_trans.
Qed.

Lemma num_min_from_in best l : In (num_min_from best l) (best :: l).
Proof.
  revert best. induction l as [|y l IH]; intros best; simpl; [auto |].
  destruct (IH (if num_ltb y best then y else best)) as [H | H].
  - destruct (num_ltb y best); rewrite <- H; auto.
  - auto.
Qed.

Lemma num_max_from_in best l : In (num_max_from best l) (best :: l).
Proof.
  revert best. induction l as [|y l IH]; intros best; simpl; [auto |].
  destruct (IH (if num_ltb best y then y else best)) as [H | H].
  - destruct (num_ltb best y); rewrite <- H; auto.
  - auto.
Qed.

Lemma num_min_from_le l :
  forall best,
    numbers (best :: l) ->
    num_leb (num_min_from best l) best = true /\
    forall x, In x l -> num_leb (num_min_from best l) x = true.
Proof.
  induction l as [|y l IH]; intros best Hn; simpl.
  - split; [apply num_leb_refl, Hn; left; reflexivity | contradiction].
  - assert (Hb : is_nan best = false) by (apply Hn; left; reflexivity).
    assert (Hy : is_nan y = false) by (apply Hn; right; left; reflexivity).
    destruct (IH (if num_ltb y best then y else best)) as [H1 H2].
    { intros x [<- | Hx]; [destruct (num_ltb y best); assumption |].
      apply Hn. right. right. exact Hx. }
    destruct (num_ltb y best) eqn:E.
    + split.
      * eapply num_leb_trans; [exact H1 | apply num_ltb_leb; exact E].
      * intros x [<- | Hx]; [exact H1 | apply H2; exact Hx].
    + split; [exact H1 |].
      intros x [<- | Hx]; [| apply H2; exact Hx].
      apply (num_leb_trans _ best); [exact H1 | apply num_leb_total; assumption].
Qed.

Lemma num_max_from_ge l :
  forall best,
    numbers (best :: l) ->
    num_leb best (num_max_from best l) = true /\
    forall x, In x l -> num_leb x (num_max_from best l) = true.
Proof.
  induction l as [|y l IH]; intros best Hn; simpl.
  - split; [apply num_leb_refl, Hn; left; reflexivity | contradiction].
  - assert (Hb : is_nan best = false) by (apply Hn; left; reflexivity).
    assert (Hy : is_nan y = false) by (apply Hn; right; left; reflexivity).
    destruct (IH (if num_ltb best y then y else best)) as [H1 H2].
    { intros x [<- | Hx]; [destruct (num_ltb best y); assumption |].
      apply Hn. right. right. exact Hx. }
    destruct (num_ltb best y) eqn:E.
    + split.
      * eapply num_leb_trans; [apply num_ltb_leb; exact E | exact H1].
      * intros x [<- | Hx]; [exact H1 | apply H2; exact Hx].
    + split; [exact H1 |].
      intros x [<- | Hx]; [| apply H2; exact Hx].
      apply (num_leb_trans _ best); [apply num_leb_total; assumption | exact H1].
Qed.

(** ** The spatial summarizer *)

(** *** [get_centroid] on well-formed geometries *)

Lemma map_m_lons l :
  map_m (fun c => py_index c 0) (map encode_position l)
  = Ok (map (fun p => VNum (lon p)) l).
Proof. induction l as [|p l IH]; simpl; [| rewrite IH]; reflexivity. Qed.

Lemma map_m_lats l :
  map_m (fun c => py_index c 1) (map encode_position l)
  = Ok (map (fun p => VNum (lat p)) l).
Proof. induction l as [|p l IH]; simpl; [| rewrite IH]; reflexivity. Qed.

Lemma sum_from_nums (f : position -> number) l :
  forall acc, sum_from acc (map (fun p => VNum (f p)) l) = add_from acc (map f l).
Proof.
  induction l as [|p l IH]; intros acc; simpl; [reflexivity |].
  destruct (py_add acc (f p)); simpl; [apply IH | reflexivity].
Qed.

Lemma mean_lon_lat_positions p l :
  mean_lon_lat (map encode_position (p :: l)) = mean_position (p :: l).
Proof.
  unfold mean_lon_lat. rewrite map_m_lons, map_m_lats, !bind_ok.
  unfold py_sum. rewrite !sum_from_nums, !length_map.
  unfold mean_position, mean_lon_lat_of, mean. rewrite !length_map.
  destruct (add_from 0 (map lon (p :: l))) as [slon|]; [| reflexivity].
  rewrite !bind_ok.
  destruct (py_div slon (List.length (p :: l))) as [mlon|]; [| reflexivity].
  rewrite !bind_ok.
  destruct (add_from 0 (map lat (p :: l))) as [slat|]; [| reflexivity].
  rewrite !bind_ok.
  destruct (py_div slat (List.length (p :: l))) as [mlat|]; reflexivity.
Qed.

Lemma map_m_iter_lines ls :
  map_m py_iter (map encode_line ls) = Ok (map (map encode_position) ls).
Proof. induction ls as [|l ls IH]; simpl; [| rewrite IH]; reflexivity. Qed.

Lemma map_m_iter_polygons ps :
  map_m (fun poly =>
           rings <- py_iter poly ;;
           per_ring <- map_m py_iter rings ;;
           Ok (List.concat per_ring))
        (map encode_rings ps)
  = Ok (map (fun rs => map encode_position (List.concat rs)) ps).
Proof.
  induction ps as [|rs ps IH]; simpl; [reflexivity |].
  rewrite map_m_iter_lines. simpl. rewrite IH. simpl.
  rewrite concat_map. reflexivity.
Qed.

Lemma mean_or_none l :
  match map encode_position l with
  | [] => Ok None
  | c :: cs => r <- mean_lon_lat (c :: cs) ;; Ok (Some r)
  end = mean_or_fall l.
Proof.
  destruct l as [|p l]; [reflexivity |].
  change (map encode_position (p :: l))
    with (encode_position p :: map encode_position l).
  cbv iota.
  change (encode_position p :: map encode_position l)
    with (map encode_position (p :: l)).
  rewrite mean_lon_lat_positions. reflexivity.
Qed.

Ltac eval_tags :=
  repeat match goal with
         | |- context [is_str ?a (VStr ?b)] =>
             let r := eval vm_compute in (is_str a (VStr b)) in
             change (is_str a (VStr b)) with r; cbv iota
         end.

Lemma centroid_try_line p l :
  centroid_try (VStr "LineString") (encode_line (p :: l)) = mean_or_fall (p :: l).
Proof.
  unfold centroid_try. eval_tags. unfold encode_line, py_iter.
  rewrite bind_ok, mean_lon_lat_positions. reflexivity.
Qed.

Lemma centroid_try_multipoint p l :
  centroid_try (VStr "MultiPoint") (encode_line (p :: l)) = mean_or_fall (p :: l).
Proof.
  unfold centroid_try. eval_tags. unfold encode_line, py_iter.
  rewrite bind_ok, mean_lon_lat_positions. reflexivity.
Qed.

Lemma centroid_try_polygon p l rs :
  centroid_try (VStr "Polygon") (encode_rings ((p :: l) :: rs)) = mean_or_fall (p :: l).
Proof.
  unfold centroid_try. eval_tags. unfold encode_rings.
  change (truthy (VList (map encode_line ((p :: l) :: rs)))) with true.
  cbv iota.
  change (py_index (VList (map encode_line ((p :: l) :: rs))) 0)
    with (Ok (encode_line (p :: l))).
  rewrite bind_ok.
  change (truthy (encode_line (p :: l))) with true. cbv iota.
  unfold encode_line, py_iter.
  rewrite bind_ok, mean_lon_lat_positions. reflexivity.
Qed.

Lemma centroid_try_lines ls :
  centroid_try (VStr "MultiLineString") (encode_rings ls)
  = mean_or_fall (List.concat ls).
Proof.
  unfold centroid_try. eval_tags. unfold encode_rings, py_iter.
  rewrite bind_ok, map_m_iter_lines, bind_ok.
  rewrite <- concat_map. apply mean_or_none.
Qed.

Lemma concat_map_concat {A} (ps : list (list (list A))) :
  List.concat (map (@List.concat A) ps) = List.concat (List.concat ps).
Proof.
  induction ps as [|rs ps IH]; simpl; [reflexivity |].
  rewrite concat_app, IH. reflexivity.
Qed.

Lemma centroid_try_polygons ps :
  centroid_try (VStr "MultiPolygon") (VList (map encode_rings ps))
  = mean_or_fall (List.concat (List.concat ps)).
Proof.
  unfold centroid_try. eval_tags. unfold py_iter at 1.
  rewrite bind_ok, map_m_iter_polygons, bind_ok.
  rewrite <- (map_map (@List.concat position) (map encode_position)).
  rewrite <- concat_map, concat_map_concat. apply mean_or_none.
Qed.

(** [get_centroid] on a geometry object with coordinates. *)
Lemma get_centroid_geojson type coords :
  truthy coords = true ->
  get_centroid (geojson type coords)
  = r <- catch (centroid_try (VStr type) coords) index_or_type_error (Ok None) ;;
    Ok (match r with Some c => c | None => (VNone, VNone) end).
Proof.
  intros H. unfold get_centroid, geojson.
  change (truthy (VDict [("type", VStr type); ("coordinates", coords)])) with true.
  change (py_get (VDict [("type", VStr type); ("coordinates", coords)]) "type" (VStr ""))
    with (Ok (VStr type)).
  change (py_get (VDict [("type", VStr type); ("coordinates", coords)])
            "coordinates" (VList []))
    with (Ok coords).
  rewrite !bind_ok. rewrite H. simpl negb. cbv iota.
  destruct (catch _ _ _) as [[c|]|e]; reflexivity.
Qed.

Lemma mean_lon_lat_of_error l e :
  l <> [] -> mean_lon_lat_of l = Raise e -> e = OverflowError.
Proof.
  intros Hne. unfold mean_lon_lat_of.
  destruct (mean (map lon l)) as [x|e1] eqn:X; simpl.
  - destruct (mean (map lat l)) as [y|e2] eqn:Y; simpl; [discriminate |].
    intros E. inversion E; subst. apply (mean_error (map lat l)); [| exact Y].
    destruct l; [congruence | discriminate].
  - intros E. inversion E; subst. apply (mean_error (map lon l)); [| exact X].
    destruct l; [congruence | discriminate].
Qed.

Lemma mean_position_error l e : mean_position l = Raise e -> e = OverflowError.
Proof.
  destruct l as [|p l]; simpl; [discriminate |].
  destruct (mean_lon_lat_of (p :: l)) as [c|e1] eqn:M; simpl; [discriminate |].
  intros E. inversion E; subst. apply (mean_lon_lat_of_error (p :: l)); [discriminate | exact M].
Qed.

(** No exception of the mean is one the [except] clause names. *)
Lemma catch_mean l :
  r <- catch (mean_or_fall l) index_or_type_error (Ok None) ;;
  Ok (match r with Some c => c | None => (VNone, VNone) end)
  = mean_position l.
Proof.
  destruct l as [|p l]; [reflexivity |]. unfold mean_or_fall.
  destruct (mean_position (p :: l)) as [c|e] eqn:M; [reflexivity |].
  rewrite (mean_position_error _ _ M). reflexivity.
Qed.

Lemma spec_centroid_mean g :
  spec_centroidOf g
  = match g with
    | Some (Point p) => Ok (VNum (lon p), VNum (lat p))
    | _ => mean_position (vertices g)
    end.
Proof.
  unfold spec_centroidOf, centroid_n.
  destruct g as [[p | l | rs | l | ls | ps]|]; try reflexivity;
    unfold mean_position;
    match goal with
    | |- context [vertices ?g] => destruct (vertices g) as [|q l0]
    end; try reflexivity;
    destruct (mean_lon_lat_of (q :: l0)); reflexivity.
Qed.

Lemma get_centroid_encode g : get_centroid (encode_opt g) = spec_centroidOf g.
Proof.
  rewrite spec_centroid_mean.
  destruct g as [[p | l | rs | l | ls | ps]|]; [| | | | | | reflexivity].
  - reflexivity.
  - destruct l as [|p l]; [reflexivity |].
    unfold encode_opt, encode.
    rewrite get_centroid_geojson, centroid_try_line by reflexivity.
    apply catch_mean.
  - destruct rs as [|[|p l] rs]; [reflexivity | reflexivity |].
    unfold encode_opt, encode.
    rewrite get_centroid_geojson, centroid_try_polygon by reflexivity.
    apply catch_mean.
  - destruct l as [|p l]; [reflexivity |].
    unfold encode_opt, encode.
    rewrite get_centroid_geojson, centroid_try_multipoint by reflexivity.
    apply catch_mean.
  - destruct ls as [|l0 ls]; [reflexivity |].
    unfold encode_opt, encode.
    rewrite get_centroid_geojson, centroid_try_lines by reflexivity.
    apply catch_mean.
  - destruct ps as [|rs0 ps]; [reflexivity |].
    unfold encode_opt, encode.
    rewrite get_centroid_geojson, centroid_try_polygons by reflexivity.
    apply catch_mean.
Qed.






(** A Point whose coordinates are an object: the lookup of [coords[0]]
    raises [KeyError], which the [except] clause does not name. *)
Lemma get_centroid_key_error :
  get_centroid
    (geojson "Point" (VDict [("lon", VNum (double (-705 # 10)));
                             ("lat", VNum (double (-334 # 10)))]))
  = Raise KeyError.
Proof. reflexivity. Qed.

(** *** [get_bbox] on features with null or well-formed geometry *)

Lemma min_from_nums l :
  forall best, min_from (VNum best) (map VNum l) = Ok (VNum (num_min_from best l)).
Proof.
  induction l as [|y l IH]; intros best; simpl; [reflexivity |].
  destruct (num_ltb y best); apply IH.
Qed.

Lemma max_from_nums l :
  forall best, max_from (VNum best) (map VNum l) = Ok (VNum (num_max_from best l)).
Proof.
  induction l as [|y l IH]; intros best; simpl; [reflexivity |].
  destruct (num_ltb best y); apply IH.
Qed.

Lemma located_centroids_features fs :
  located_centroids (map encode_feature fs)
  = cs <- located fs ;; Ok (map value_pair cs).
Proof.
  induction fs as [|f fs IH]; [reflexivity |].
  change (map encode_feature (f :: fs))
    with (encode_feature f :: map encode_feature fs).
  unfold located_centroids; fold located_centroids.
  change (py_get (encode_feature f) "geometry" VNone)
    with (Ok (encode_opt (geometry_of f))).
  rewrite bind_ok, get_centroid_encode, IH.
  unfold spec_centroidOf. simpl located.
  destruct (centroid_n (geometry_of f)) as [c|]; [| reflexivity].
  rewrite !bind_ok.
  destruct (located fs) as [rest|]; [| reflexivity].
  rewrite !bind_ok. destruct c; reflexivity.
Qed.

Lemma map_fst_pairs cs : map fst (map value_pair cs) = map VNum (map fst cs).
Proof. rewrite !map_map. reflexivity. Qed.

Lemma map_snd_pairs cs : map snd (map value_pair cs) = map VNum (map snd cs).
Proof. rewrite !map_map. reflexivity. Qed.

Lemma get_bbox_features fs :
  get_bbox (VList (map encode_feature fs)) = spec_bboxOf fs.
Proof.
  unfold get_bbox, py_iter, spec_bboxOf.
  rewrite bind_ok, located_centroids_features.
  destruct (located fs) as [cs|]; [| reflexivity].
  rewrite !bind_ok. cbv zeta. rewrite map_fst_pairs, map_snd_pairs.
  destruct cs as [|c cs]; [reflexivity |].
  change (map fst (c :: cs)) with (fst c :: map fst cs).
  change (map snd (c :: cs)) with (snd c :: map snd cs).
  change (map VNum (fst c :: map fst cs)) with (VNum (fst c) :: map VNum (map fst cs)).
  change (map VNum (snd c :: map snd cs)) with (VNum (snd c) :: map VNum (map snd cs)).
  unfold py_min, py_max, truthy. simpl andb. cbv iota.
  rewrite !min_from_nums, !max_from_nums. reflexivity.
Qed.



Lemma finite_not_nan n : finite n = true -> is_nan n = false.
Proof. destruct n as [z|[|s|s|s m e]]; simpl; congruence. Qed.

Lemma centroid_n_numbers g x y :
  finite_geometry g = true ->
  centroid_n g = Ok (Some (x, y)) ->
  is_nan x = false /\ is_nan y = false.
Proof.
  unfold finite_geometry, centroid_n. intros Hfin.
  assert (M : forall l,
             forallb (fun p => finite (lon p) && finite (lat p)) l = true ->
             match l with
             | [] => Ok None
             | p :: l0 => c <- mean_lon_lat_of (p :: l0) ;; Ok (Some c)
             end = Ok (Some (x, y)) ->
             is_nan x = false /\ is_nan y = false).
  { intros l Hl. destruct l as [|p l]; [discriminate |].
    unfold mean_lon_lat_of.
    destruct (mean (map lon (p :: l))) as [mx|] eqn:X; cbn [bind]; [| discriminate].
    destruct (mean (map lat (p :: l))) as [my|] eqn:Y; cbn [bind]; [| discriminate].
    intros E. inversion E; subst. split.
    - apply (mean_not_nan (map lon (p :: l))); [| exact X].
      rewrite forallb_forall in *. intros n Hn. apply in_map_iff in Hn.
      destruct Hn as (q & <- & Hq). apply Hl in Hq. apply andb_prop in Hq. apply Hq.
    - apply (mean_not_nan (map lat (p :: l))); [| exact Y].
      rewrite forallb_forall in *. intros n Hn. apply in_map_iff in Hn.
      destruct Hn as (q & <- & Hq). apply Hl in Hq. apply andb_prop in Hq. apply Hq. }
  destruct g as [[p | l | rs | l | ls | ps]|]; cbn [vertices] in *;
    [| apply M; exact Hfin .. | intros E; discriminate E].
  simpl in Hfin. rewrite andb_true_r in Hfin. apply andb_prop in Hfin.
  intros E. inversion E; subst. split; apply finite_not_nan; apply Hfin.
Qed.

Lemma located_numbers fs :
  Forall (fun f => finite_geometry (geometry_of f) = true) fs ->
  forall cs, located fs = Ok cs ->
             numbers (map fst cs) /\ numbers (map snd cs).
Proof.
  induction 1 as [|f fs Hf _ IH]; intros cs; simpl.
  - intros E. inversion E. split; intros x [].
  - destruct (centroid_n (geometry_of f)) as [c|] eqn:C; simpl; [| discriminate].
    destruct (located fs) as [rest|]; simpl; [| discriminate].
    destruct (IH rest eq_refl) as [H1 H2].
    intros E. inversion E; subst. destruct c as [[x y]|]; [| auto].
    destruct (centroid_n_numbers _ _ _ Hf C) as [Hx Hy].
    split; intros n [<- | Hn]; auto.
Qed.

Lemma box_of_corners cs :
  numbers (map fst cs) -> numbers (map snd cs) -> cs <> [] ->
  exists w s e n,
    box_of cs = (VNum w, VNum s, VNum e, VNum n) /\
    In w (map fst cs) /\ In s (map snd cs) /\
    In e (map fst cs) /\ In n (map snd cs) /\
    (forall c, In c cs ->
               num_leb w (fst c) = true /\ num_leb (fst c) e = true /\
               num_leb s (snd c) = true /\ num_leb (snd c) n = true) /\
    num_leb w e = true /\ num_leb s n = true.
Proof.
  intros Hlon Hlat Hne. destruct cs as [|c cs]; [congruence |].
  destruct (num_min_from_le (map fst cs) (fst c) Hlon) as [Hw Hws].
  destruct (num_min_from_le (map snd cs) (snd c) Hlat) as [Hs Hss].
  destruct (num_max_from_ge (map fst cs) (fst c) Hlon) as [He Hes].
  destruct (num_max_from_ge (map snd cs) (snd c) Hlat) as [Hn Hns].
  do 4 eexists. split; [reflexivity |].
  split; [apply (num_min_from_in (fst c) (map fst cs)) |].
  split; [apply (num_min_from_in (snd c) (map snd cs)) |].
  split; [apply (num_max_from_in (fst c) (map fst cs)) |].
  split; [apply (num_max_from_in (snd c) (map snd cs)) |].
  split.
  - intros c' [<- | Hc]; [auto |].
    split; [apply Hws, in_map, Hc |].
    split; [apply Hes, in_map, Hc |].
    split; [apply Hss, in_map, Hc | apply Hns, in_map, Hc].
  - split; eapply num_leb_trans; eauto.
Qed.




(** ** The paginated layer query *)

Lemma length_chars s : List.length (chars s) = String.length s.
Proof. induction s as [|c s IH]; simpl; [| rewrite IH]; reflexivity. Qed.

Lemma py_iter_len v items :
  py_iter v = Ok items -> py_len v = Ok (List.length items).
Proof.
  destruct v; simpl; try discriminate; intros E; inversion E; subst.
  - rewrite length_chars. reflexivity.
  - reflexivity.
  - rewrite length_map. reflexivity.
Qed.

Lemma py_iter_truthy v items :
  py_iter v = Ok items -> truthy v = true -> items <> [].
Proof.
  destruct v as [| | |s|l|d]; simpl; try discriminate; intros E T;
    inversion E; subst; clear E.
  - destruct s; simpl in *; [discriminate T | discriminate].
  - destruct items; simpl in *; [discriminate T | discriminate].
  - destruct d; simpl in *; [discriminate T | discriminate].
Qed.

(** What a turn of the loop that goes on has done. *)
Lemma page_body_continue ps max d acc acc' :
  page_body ps max d acc = Ok (Continue, acc') ->
  exists feats items,
    py_get d "features" (VList []) = Ok feats /\
    py_iter feats = Ok items /\
    acc' = acc ++ items /\ items <> [] /\
    (ps <= Z.of_nat (List.length items))%Z /\
    (Z.of_nat (List.length acc') < max)%Z.
Proof.
  unfold page_body.
  destruct (py_in "error" d) as [[|]|]; simpl; try discriminate.
  destruct (py_get d "features" (VList [])) as [feats|]; simpl; try discriminate.
  destruct (truthy feats) eqn:T; simpl; try discriminate.
  destruct (py_iter feats) as [items|] eqn:I; simpl; try discriminate.
  rewrite (py_iter_len _ _ I). simpl.
  destruct (Z.of_nat (List.length items) <? ps)%Z eqn:Short; simpl; try discriminate.
  destruct (Z.of_nat (List.length (acc ++ items)) >=? max)%Z eqn:Full;
    simpl; try discriminate.
  intros E. inversion E; subst. exists feats, items.
  repeat split; auto.
  - eapply py_iter_truthy; eauto.
  - apply Z.ltb_ge. exact Short.
  - rewrite Z.geb_leb in Full. apply Z.leb_gt. exact Full.
Qed.

(** The accumulator only grows and stays a prefix-extension. *)
Lemma page_body_break ps max d acc acc' :
  page_body ps max d acc = Ok (Break, acc') ->
  acc' = acc \/
  exists feats items,
    py_get d "features" (VList []) = Ok feats /\
    py_iter feats = Ok items /\ acc' = acc ++ items /\
    ((Z.of_nat (List.length items) < ps)%Z \/ (max <= Z.of_nat (List.length acc'))%Z).
Proof.
  unfold page_body.
  destruct (py_in "error" d) as [[|]|]; simpl; try discriminate.
  { intros E. inversion E. auto. }
  destruct (py_get d "features" (VList [])) as [feats|]; simpl; try discriminate.
  destruct (truthy feats) eqn:T; simpl.
  2:{ intros E. inversion E. auto. }
  destruct (py_iter feats) as [items|] eqn:I; simpl; try discriminate.
  rewrite (py_iter_len _ _ I). simpl.
  destruct (Z.of_nat (List.length items) <? ps)%Z eqn:Short; simpl.
  { intros E. inversion E; subst. right. exists feats, items.
    repeat split; auto. left. apply Z.ltb_lt. exact Short. }
  destruct (Z.of_nat (List.length (acc ++ items)) >=? max)%Z eqn:Full;
    simpl; try discriminate.
  intros E. inversion E; subst. right. exists feats, items.
  repeat split; auto. right. rewrite Z.geb_leb in Full. apply Z.leb_le. exact Full.
Qed.

(** The loop ends: every endpoint, every ceiling, every page size. *)
Lemma query_loop_terminates ps max serve fuel st :
  (Z.to_nat max - List.length (all_features st) < fuel)%nat ->
  exists st', query_loop fuel ps max serve st = Some st'.
Proof.
  revert st. induction fuel as [|fuel IH]; intros st Hf; [lia |].
  simpl. destruct (serve (offset st)) as [|d]; [eauto |].
  destruct (page_body ps max d (all_features st)) as [[[|] acc']|e] eqn:B; eauto.
  apply page_body_continue in B.
  destruct B as (feats & items & _ & _ & -> & Hne & _ & Hlt).
  apply IH. simpl. rewrite length_app in *.
  destruct items; [congruence |]. simpl in *. lia.
Qed.

Lemma query_loop_more_fuel ps max serve fuel fuel' st st' :
  query_loop fuel ps max serve st = Some st' ->
  (fuel <= fuel')%nat ->
  query_loop fuel' ps max serve st = Some st'.
Proof.
  revert fuel' st. induction fuel as [|fuel IH]; intros fuel' st; [discriminate |].
  intros H Hle. destruct fuel' as [|fuel']; [lia |].
  simpl in *. destruct (serve (offset st)) as [|d]; [exact H |].
  destruct (page_body ps max d (all_features st)) as [[[|] acc']|e]; auto.
  apply IH; [exact H | lia].
Qed.

(** A run that ends with some fuel is the run of [query_layer]. *)
Lemma query_loop_run ps max serve fuel st' :
  query_loop fuel ps max serve fetch_start = Some st' ->
  query_loop (query_fuel max) ps max serve fetch_start = Some st'.
Proof.
  intros H.
  destruct (query_loop_terminates ps max serve (query_fuel max) fetch_start)
    as [st'' E]; [unfold query_fuel; simpl; lia |].
  pose proof (query_loop_more_fuel _ _ _ _ (Nat.max fuel (query_fuel max)) _ _ H
                (Nat.le_max_l _ _)) as H1.
  pose proof (query_loop_more_fuel _ _ _ _ (Nat.max fuel (query_fuel max)) _ _ E
                (Nat.le_max_r _ _)) as H2.
  rewrite H1 in H2. inversion H2; subst. exact E.
Qed.

Lemma query_result_dict st :
  dict_or_unbound (data st) ->
  exists tag,
    query_result st
    = Ok (VDict [("features", VList (all_features st)); ("geometryType", tag)]).
Proof.
  unfold query_result. destruct (data st) as [[| | | | |d]|]; simpl;
    try contradiction; intros _.
  - destruct (lookup "geometryType" d) as [x|] eqn:L; simpl.
    + destruct (negb _); simpl; unfold has_key; rewrite ?L; simpl; rewrite ?L; eauto.
    + destruct (negb _); simpl; unfold has_key; rewrite ?L; simpl; eauto.
  - eauto.
Qed.

(** A page that carries features and no error. *)
Lemma page_body_features ps max d acc page :
  lookup "error" d = None ->
  lookup "features" d = Some (VList page) ->
  page <> [] ->
  page_body ps max (VDict d) acc
  = Ok (if (Z.of_nat (List.length page) <? ps)%Z
           || (Z.of_nat (List.length (acc ++ page)) >=? max)%Z
        then Break else Continue, acc ++ page).
Proof.
  intros He Hf Hne. unfold page_body, py_in, has_key, py_get.
  rewrite He, Hf. simpl.
  destruct page as [|x page]; [congruence |]. simpl.
  destruct (_ || _); reflexivity.
Qed.

Lemma page_offsets_S p n :
  page_offsets p (S n) = page_offsets p n ++ [Z.of_nat (n * p)].
Proof. unfold page_offsets. rewrite seq_S, map_app. reflexivity. Qed.

Lemma firstn_app_skipn {A} a b (l : list A) :
  firstn a l ++ firstn b (skipn a l) = firstn (a + b) l.
Proof.
  revert l. induction a as [|a IH]; intros l; [reflexivity |].
  destruct l as [|x l]; simpl; [destruct b; reflexivity |].
  rewrite IH. reflexivity.
Qed.

Lemma ceil_div_unique (n N p : nat) :
  0 < p -> 1 <= n -> (n - 1) * p < N -> N <= n * p ->
  Z.to_nat ((Z.of_nat N + Z.of_nat p - 1) / Z.of_nat p) = n.
Proof.
  intros Hp Hn Hlo Hhi.
  assert (E : ((Z.of_nat N + Z.of_nat p - 1) / Z.of_nat p = Z.of_nat n)%Z).
  { symmetry. apply (Z.div_unique_pos _ _ _ (Z.of_nat N + Z.of_nat p - 1
                                               - Z.of_nat n * Z.of_nat p)%Z); nia. }
  rewrite E. apply Nat2Z.id.
Qed.

(** *** Runs with a page size [p >= 1] *)

Section Pagination.

Variable p : nat.
Variable max_records : Z.
Variable serve : endpoint.
Hypothesis p_positive : 0 < p.

Lemma exact_run all :
  serves_all p all serve ->
  forall fuel k st st',
    all_features st = firstn (k * p) all ->
    offset st = Z.of_nat (k * p) ->
    requests st = page_offsets p k ->
    k * p < List.length all ->
    query_loop fuel (Z.of_nat p) (Z.of_nat (List.length all)) serve st = Some st' ->
    exists n,
      1 <= n /\ (n - 1) * p < List.length all /\ List.length all <= n * p /\
      all_features st' = all /\ requests st' = page_offsets p n /\
      dict_or_unbound (data st').
Proof.
  pose proof p_positive as Hp.
  intros Hserve. induction fuel as [|fuel IH]; intros k st st' Hacc Hoff Hreq Hk;
    [discriminate |].
  simpl. rewrite Hoff. destruct (Hserve (k * p)) as (d & -> & He & Hf).
  assert (Hlen : List.length (firstn p (skipn (k * p) all))
                 = Nat.min p (List.length all - k * p))
    by (rewrite length_firstn, length_skipn; reflexivity).
  rewrite (page_body_features _ _ _ _ _ He Hf)
    by (intros E; rewrite E in Hlen; simpl in Hlen; lia).
  rewrite Hacc, firstn_app_skipn, Hlen, length_firstn.
  destruct ((_ <? _)%Z || (_ >=? _)%Z) eqn:C.
  - intros E. inversion E; subst; clear E. simpl.
    assert (Hall : List.length all <= k * p + p).
    { apply orb_prop in C. destruct C as [C | C].
      - apply Z.ltb_lt in C. lia.
      - rewrite Z.geb_leb in C. apply Z.leb_le in C. lia. }
    exists (S k). repeat split.
    + lia.
    + simpl. rewrite Nat.sub_0_r. exact Hk.
    + simpl. lia.
    + apply firstn_all2. exact Hall.
    + rewrite page_offsets_S, Hreq. reflexivity.
  - apply orb_false_elim in C. destruct C as [C1 C2].
    apply Z.ltb_ge in C1. rewrite Z.geb_leb in C2. apply Z.leb_gt in C2.
    intros E. apply (IH (S k)) in E; [exact E | | | |]; simpl.
    + f_equal. lia.
    + lia.
    + rewrite page_offsets_S, Hreq. reflexivity.
    + lia.
Qed.

Lemma bounded_run :
  pages_within p serve ->
  forall fuel st st',
    (Z.of_nat (List.length (all_features st)) < max_records)%Z ->
    query_loop fuel (Z.of_nat p) max_records serve st = Some st' ->
    (Z.of_nat (List.length (all_features st')) <= max_records + Z.of_nat p - 1)%Z.
Proof.
  pose proof p_positive as Hp.
  intros Hw. induction fuel as [|fuel IH]; intros st st' Hlt; [discriminate |].
  simpl. destruct (serve (offset st)) as [|d] eqn:S.
  - intros E. inversion E; subst. simpl. lia.
  - destruct (page_body (Z.of_nat p) max_records d (all_features st))
      as [[[|] acc']|e] eqn:B.
    + intros E. inversion E; subst; clear E. simpl.
      apply page_body_break in B.
      destruct B as [-> | (feats & items & Hg & Hi & -> & _)]; [lia |].
      pose proof (Hw _ _ _ _ S Hg Hi). rewrite length_app. lia.
    + apply page_body_continue in B.
      destruct B as (feats & items & _ & _ & -> & _ & _ & Hlt').
      intros E. apply IH in E; [exact E | exact Hlt'].
    + intros E. inversion E; subst. simpl. lia.
Qed.

(** C3.  With [max_records >= 1] the loop ends, whatever the endpoint
    answers.  On an endpoint that holds exactly [max_records] features
    and serves each request with the next page of them, it issues
    exactly ceil(max_records / page_size) requests, one per page
    offset, and returns all the features.  A turn goes on to the next
    page only after a page of at least [page_size] features that left
    the accumulator below [max_records]; so, when no page is longer
    than [page_size], the accumulator never holds more than
    [max_records + page_size - 1] features. *)
Theorem pagination_terminates :
  (1 <= max_records)%Z ->
  (exists st,
     query_loop (query_fuel max_records) (Z.of_nat p) max_records serve fetch_start
     = Some st /\
     query_layer_paged (Z.of_nat p) serve max_records
     = Some (requests st, query_result st) /\
     (pages_within p serve ->
      (Z.of_nat (List.length (all_features st))
       <= max_records + Z.of_nat p - 1)%Z)) /\
  (forall all,
     Z.of_nat (List.length all) = max_records ->
     serves_all p all serve ->
     exists reqs tag,
       query_layer_paged (Z.of_nat p) serve max_records
       = Some (reqs, Ok (VDict [("features", VList all); ("geometryType", tag)])) /\
       reqs = page_offsets p (List.length reqs) /\
       List.length reqs
       = Z.to_nat ((max_records + Z.of_nat p - 1) / Z.of_nat p)) /\
  (forall d acc acc',
     page_body (Z.of_nat p) max_records d acc = Ok (Continue, acc') ->
     exists items,
       acc' = acc ++ items /\ p <= List.length items /\
       (Z.of_nat (List.length acc') < max_records)%Z).
Proof.
  pose proof p_positive as Hp.
  intros Hmax.
  destruct (query_loop_terminates (Z.of_nat p) max_records serve
              (query_fuel max_records) fetch_start) as [st Hst];
    [unfold query_fuel; simpl; lia |].
  split; [| split].
  - exists st. split; [exact Hst |]. split.
    + unfold query_layer_paged. rewrite Hst. reflexivity.
    + intros Hw. apply (bounded_run Hw _ _ _) with (2 := Hst).
      simpl. lia.
  - intros all Hall Hserve. rewrite <- Hall in Hst, Hmax. rewrite <- Hall.
    destruct (exact_run all Hserve _ 0 fetch_start st eq_refl eq_refl eq_refl
                ltac:(simpl; lia) Hst)
      as (n & Hn & Hlo & Hhi & Hfeat & Hreq & Hdata).
    destruct (query_result_dict st Hdata) as [tag Htag].
    assert (Hlen : List.length (requests st) = n)
      by (rewrite Hreq; unfold page_offsets; rewrite length_map, length_seq;
          reflexivity).
    exists (requests st), tag. split; [| split].
    + unfold query_layer_paged. rewrite Hst, Htag, Hfeat. reflexivity.
    + rewrite Hlen. exact Hreq.
    + rewrite Hlen. symmetry. apply ceil_div_unique; assumption.
  - intros d acc acc' B. apply page_body_continue in B.
    destruct B as (feats & items & _ & _ & -> & _ & Hfull & Hlt).
    exists items. split; [reflexivity |]. split; [lia | exact Hlt].
Qed.

Lemma fail_soft_run :
  forall pages k st,
    offset st = Z.of_nat (k * p) ->
    dict_or_unbound (data st) ->
    prior_pages p max_records serve k (all_features st) pages ->
    fails (serve (Z.of_nat ((k + List.length pages) * p))) ->
    exists st',
      query_loop (S (List.length pages)) (Z.of_nat p) max_records serve st = Some st' /\
      all_features st' = all_features st ++ List.concat pages /\
      requests st'
      = requests st ++ map (fun i => Z.of_nat (i * p)) (seq k (S (List.length pages))) /\
      dict_or_unbound (data st').
Proof.
  pose proof p_positive as Hp.
  induction pages as [|page rest IH]; intros k st Hoff Hdata Hprior Hfail.
  - simpl List.length in *. rewrite Nat.add_0_r in Hfail.
    simpl. rewrite Hoff.
    destruct Hfail as [-> | (d & -> & Herr)].
    + eexists. split; [reflexivity |]. simpl. rewrite app_nil_r. auto.
    + unfold page_body, py_in. rewrite Herr. simpl.
      eexists. split; [reflexivity |]. simpl. rewrite app_nil_r. auto.
  - destruct Hprior as ((d & Hserve & Herr & Hfeat) & Hfull & Hbelow & Hrest).
    change (query_loop (S (List.length (page :: rest))) (Z.of_nat p) max_records serve st)
      with (query_loop (S (S (List.length rest))) (Z.of_nat p) max_records serve st).
    remember (S (List.length rest)) as fuel eqn:Hfuel.
    simpl query_loop. rewrite Hoff, Hserve.
    rewrite (page_body_features _ _ _ _ _ Herr Hfeat)
      by (destruct page; [simpl in Hfull; lia | discriminate]).
    replace (Z.of_nat (List.length page) <? Z.of_nat p)%Z with false
      by (symmetry; apply Z.ltb_ge; lia).
    replace (Z.of_nat (List.length (all_features st ++ page)) >=? max_records)%Z
      with false by (symmetry; rewrite Z.geb_leb; apply Z.leb_gt; exact Hbelow).
    simpl orb. cbv iota. subst fuel.
    destruct (IH (S k)
                (mk_fetch_state (all_features st ++ page)
                   (Z.of_nat (k * p) + Z.of_nat p)%Z (Some (VDict d))
                   (requests st ++ [Z.of_nat (k * p)])))
      as (st' & Hrun & Hall & Hreq & Hd).
    + simpl. lia.
    + exact I.
    + exact Hrest.
    + replace (S k + List.length rest) with (k + List.length (page :: rest))
        by (simpl; lia). exact Hfail.
    + exists st'. split; [exact Hrun |]. split; [| split].
      * rewrite Hall. simpl. rewrite app_assoc. reflexivity.
      * rewrite Hreq. simpl. rewrite <- app_assoc. reflexivity.
      * exact Hd.
Qed.

(** C4.  When a request fails in transport or decoding, or its answer
    carries an error field, the loop stops there: that request is the
    last one and no offset is asked for twice.  The call returns, and
    its features are those of the pages taken in before, in order. *)
Theorem fail_soft_pagination (pages : list (list value)) :
  prior_pages p max_records serve 0 [] pages ->
  fails (serve (Z.of_nat (List.length pages * p))) ->
  exists tag,
    query_layer_paged (Z.of_nat p) serve max_records
    = Some (page_offsets p (S (List.length pages)),
            Ok (VDict [("features", VList (List.concat pages));
                       ("geometryType", tag)])).
Proof.
  intros Hprior Hfail.
  destruct (fail_soft_run pages 0 fetch_start eq_refl I Hprior Hfail) as (st & Hrun & Hall & Hreq & Hdata).
  apply query_loop_run in Hrun.
  destruct (query_result_dict st Hdata) as [tag Htag].
  exists tag. unfold query_layer_paged. rewrite Hrun, Htag, Hall, Hreq.
  reflexivity.
Qed.

End Pagination.

Lemma mock_serves_all p tag all : serves_all p all (mock_endpoint p tag all).
Proof.
  intros off. eexists. split; [reflexivity |].
  rewrite Nat2Z.id. split; reflexivity.
Qed.

Lemma pagination_terminates_witness :
  (exists reqs tag,
     query_layer_paged 2 (mock_endpoint 2 "esriGeometryPoint" five_stations) 5
     = Some (reqs, Ok (VDict [("features", VList five_stations);
                              ("geometryType", tag)])) /\
     reqs = page_offsets 2 (List.length reqs) /\
     List.length reqs = 3) /\
  (exists reqs tag,
     query_layer (mock_endpoint 1000 "esriGeometryPoint" (repeat (station 1) 2500))
       2500
     = Some (reqs, Ok (VDict [("features", VList (repeat (station 1) 2500));
                              ("geometryType", tag)])) /\
     reqs = page_offsets 1000 (List.length reqs) /\
     List.length reqs = 3).
Proof.
  split.
  - destruct (pagination_terminates 2 5
                (mock_endpoint 2 "esriGeometryPoint" five_stations))
      as (_ & Hexact & _); [lia | lia |].
    apply (Hexact five_stations); [reflexivity | apply mock_serves_all].
  - destruct (pagination_terminates 1000 2500
                (mock_endpoint 1000 "esriGeometryPoint" (repeat (station 1) 2500)))
      as (_ & Hexact & _); [lia | lia |].
    apply (Hexact (repeat (station 1) 2500)).
    + rewrite repeat_length. reflexivity.
    + apply mock_serves_all.
Defined.

Lemma fail_soft_pagination_witness :
  exists tag,
    query_layer_paged 2 (error_after_one_page 2 [station 1; station 2]) 10
    = Some ([0; 2]%Z,
            Ok (VDict [("features", VList [station 1; station 2]);
                       ("geometryType", tag)])).
Proof.
  apply (fail_soft_pagination 2 10 (error_after_one_page 2 [station 1; station 2])
           ltac:(lia) [[station 1; station 2]]).
  - simpl. repeat split; try lia. eexists. repeat split.
  - right. eexists. split; reflexivity.
Defined.

(** A full first page of a point layer, then an error document: the
    features of the first page are returned, under an empty geometry
    type. *)
Lemma geometry_type_lost :
  query_layer (error_after_one_page 1000 (repeat (station 1) 1000))
    default_max_records
  = Some ([0; 1000]%Z,
          Ok (VDict [("features", VList (repeat (station 1) 1000));
                     ("geometryType", VStr "")])).
Proof. vm_compute. reflexivity. Qed.

(** ** The loader *)

Lemma in_firstn {A} (x : A) n l : In x (firstn n l) -> In x l.
Proof.
  intros H. rewrite <- (firstn_skipn n l). apply in_or_app. left. exact H.
Qed.

Lemma in_skipn {A} (x : A) n l : In x (skipn n l) -> In x l.
Proof.
  intros H. rewrite <- (firstn_skipn n l). apply in_or_app. right. exact H.
Qed.

Lemma rows_of_incl id feats feats' rows :
  (forall f, In f feats -> In f feats') ->
  rows_of id feats rows -> rows_of id feats' rows.
Proof.
  intros Hin. apply Forall_impl. intros row (f & params & Hf & E & B).
  exists f, params. auto.
Qed.

Lemma insert_batch_spec id batch :
  forall db db' r,
    insert_batch db id batch = (db', r) ->
    exists rows,
      db' = mk_database (layers db) (features db ++ rows) (commits db) /\
      rows_of id batch rows /\
      (r = Ok tt -> List.length rows = List.length batch).
Proof.
  induction batch as [|f batch IH]; intros db db' r H; simpl in H.
  - inversion H; subst. exists []. rewrite app_nil_r. destruct db'; simpl.
    split; [reflexivity |]. split; [constructor | reflexivity].
  - destruct (feature_row_of id f) as [row|e] eqn:F.
    + destruct (insert_feature db row) as [db1|e] eqn:Ins.
      * unfold insert_feature in Ins.
        destruct (bind_feature row) as [bound|] eqn:Bd; simpl in Ins;
          inversion Ins; subst; clear Ins.
        apply IH in H. destruct H as (rows & -> & Hrows & Hlen). simpl.
        exists (bound :: rows). rewrite <- app_assoc. split; [reflexivity |].
        split.
        -- constructor; [exists f, row; simpl; auto |].
           eapply rows_of_incl; [| exact Hrows]. simpl. auto.
        -- intros E. simpl. f_equal. auto.
      * inversion H; subst. exists []. rewrite app_nil_r. destruct db'; simpl.
        split; [reflexivity |]. split; [constructor | discriminate].
    + inversion H; subst. exists []. rewrite app_nil_r. destruct db'; simpl.
      split; [reflexivity |]. split; [constructor | discriminate].
Qed.

Lemma insert_batches_cons db id l i starts :
  insert_batches db id (VList l) (i :: starts)
  = match insert_batch db id (firstn batch_size (skipn i l)) with
    | (db', Raise e) => (db', Raise e)
    | (db', Ok _) => insert_batches (commit db') id (VList l) starts
    end.
Proof. reflexivity. Qed.

Lemma insert_batches_spec id l starts :
  forall db db' r,
    insert_batches db id (VList l) starts = (db', r) ->
    exists rows,
      layers db' = layers db /\
      features db' = features db ++ rows /\
      rows_of id l rows /\
      (r = Ok tt -> List.length rows = sum_batches l starts).
Proof.
  induction starts as [|i starts IH]; intros db db' r H.
  - simpl in H. inversion H; subst. exists []. rewrite app_nil_r.
    repeat split; auto. constructor.
  - rewrite insert_batches_cons in H.
    destruct (insert_batch db id (firstn batch_size (skipn i l)))
      as [db1 r1] eqn:B.
    apply insert_batch_spec in B. destruct B as (rows1 & -> & Hrows1 & Hlen1).
    assert (Hin : rows_of id l rows1).
    { eapply rows_of_incl; [| exact Hrows1].
      intros f Hf. eapply in_skipn, in_firstn, Hf. }
    destruct r1 as [[]|e].
    + apply IH in H. destruct H as (rows & Hl & Hf & Hrows & Hlen).
      simpl in Hl, Hf. exists (rows1 ++ rows). rewrite app_assoc.
      repeat split; auto.
      * apply Forall_app. split; assumption.
      * intros E. rewrite length_app, (Hlen E), (Hlen1 eq_refl). reflexivity.
    + inversion H; subst. exists rows1. simpl. repeat split; auto. discriminate.
Qed.

Lemma sum_slices_range (b : nat) (l : list value) m k :
  fold_right (fun i n => List.length (firstn b (skipn i l)) + n) 0
    (map (fun j => j * b) (seq k m))
  = List.length (firstn (m * b) (skipn (k * b) l)).
Proof.
  revert k. induction m as [|m IH]; intros k; [reflexivity |].
  simpl seq. simpl map. simpl fold_right.
  rewrite IH. rewrite !length_firstn, !length_skipn.
  simpl Nat.mul. lia.
Qed.

Lemma sum_batches_range l m k :
  sum_batches l (map (fun j => j * batch_size) (seq k m))
  = List.length (firstn (m * batch_size) (skipn (k * batch_size) l)).
Proof. apply sum_slices_range. Qed.

Lemma range_step_covers n :
  n <= ((n + batch_size - 1) / batch_size) * batch_size.
Proof.
  unfold batch_size.
  pose proof (Nat.div_mod_eq (n + 500 - 1) 500) as E.
  pose proof (Nat.mod_upper_bound (n + 500 - 1) 500 ltac:(lia)) as B.
  lia.
Qed.

Lemma sum_batches_all l :
  sum_batches l (range_step (List.length l) batch_size) = List.length l.
Proof.
  unfold range_step. rewrite sum_batches_range. simpl skipn.
  rewrite firstn_all2; [reflexivity | apply range_step_covers].
Qed.

Lemma feature_row_layer id f row :
  feature_row_of id f = Ok row -> row_layer_id row = id.
Proof.
  unfold feature_row_of.
  destruct (py_get f "geometry" VNone) as [g|]; simpl; [| discriminate].
  destruct (py_get f "properties" (VDict [])) as [props|]; simpl; [| discriminate].
  destruct (get_centroid g) as [c|]; simpl; [| discriminate].
  destruct (if truthy g then py_get g "type" VNone else Ok VNone) as [t|];
    simpl; [| discriminate].
  intros E. inversion E. reflexivity.
Qed.


(** A feature list that [get_bbox] accepts is a list. *)
Lemma get_bbox_list feats box :
  get_bbox feats = Ok box -> truthy feats = true -> exists l, feats = VList l.
Proof.
  unfold get_bbox. destruct feats as [| | |s|l|d]; simpl; try discriminate.
  - destruct s as [|c s]; simpl; discriminate.
  - eauto.
  - destruct d as [|[k v] d]; simpl; discriminate.
Qed.

Lemma prepare_layer_some name doc row feats n :
  prepare_layer name doc = Ok (Some (row, feats, n)) ->
  exists l,
    feats = VList l /\ l <> [] /\ n = List.length l /\
    py_get doc "features" (VList []) = Ok (VList l) /\
    layer_id row = remove_all ".geojson" name /\
    feature_count row = List.length l.
Proof.
  unfold prepare_layer.
  destruct (py_get doc "features" (VList [])) as [feats0|]; simpl; [| discriminate].
  destruct (truthy feats0) eqn:T; simpl; [| discriminate].
  destruct (py_iter feats0) as [items|]; simpl; [| discriminate].
  destruct (first_geometry_type items) as [t|]; simpl; [| discriminate].
  destruct (get_bbox feats0) as [box|] eqn:B; simpl; [| discriminate].
  destruct (get_bbox_list _ _ B T) as [l ->].
  simpl. intros E. inversion E; subst; clear E. exists l.
  repeat split; auto.
  destruct l; [discriminate T | discriminate].
Qed.

Lemma sql_bind_error v e :
  sql_bind v = Raise e -> e = ProgrammingError \/ e = OverflowError.
Proof.
  destruct v as [| |[z|[|s|s|s m x]]| | |]; simpl; try discriminate;
    try (intros E; inversion E; auto; fail).
  destruct (_ && _)%bool; [discriminate |]. intros E. inversion E. auto.
Qed.

Lemma bind_feature_fields params row :
  bind_feature params = Ok row ->
  row_layer_id row = row_layer_id params /\
  row_geometry row = row_geometry params /\
  row_properties row = row_properties params /\
  sql_bind (row_geometry_type params) = Ok (row_geometry_type row) /\
  sql_bind (centroid_lon params) = Ok (centroid_lon row) /\
  sql_bind (centroid_lat params) = Ok (centroid_lat row).
Proof.
  unfold bind_feature.
  destruct (sql_bind (row_geometry_type params)) as [t|]; simpl; [| discriminate].
  destruct (sql_bind (centroid_lon params)) as [x|]; simpl; [| discriminate].
  destruct (sql_bind (centroid_lat params)) as [y|]; simpl; [| discriminate].
  intros E. inversion E. simpl. auto 10.
Qed.

Lemma bind_feature_error params e :
  bind_feature params = Raise e -> e = ProgrammingError \/ e = OverflowError.
Proof.
  unfold bind_feature.
  destruct (sql_bind (row_geometry_type params)) as [t|] eqn:T; simpl;
    [| intros E; inversion E; subst; exact (sql_bind_error _ _ T)].
  destruct (sql_bind (centroid_lon params)) as [x|] eqn:X; simpl;
    [| intros E; inversion E; subst; exact (sql_bind_error _ _ X)].
  destruct (sql_bind (centroid_lat params)) as [y|] eqn:Y; simpl;
    [discriminate | intros E; inversion E; subst; exact (sql_bind_error _ _ Y)].
Qed.

Lemma bind_layer_fields params row :
  bind_layer params = Ok row ->
  layer_id row = layer_id params /\
  layer_name row = layer_name params /\
  source_file row = source_file params /\
  feature_count row = feature_count params /\
  sql_bind (layer_geometry_type params) = Ok (layer_geometry_type row).
Proof.
  unfold bind_layer. destruct (layer_bbox params) as [[[w s] e] n].
  destruct (sql_bind (layer_geometry_type params)) as [t|]; simpl; [| discriminate].
  destruct (sql_bind w); simpl; [| discriminate].
  destruct (sql_bind s); simpl; [| discriminate].
  destruct (sql_bind e); simpl; [| discriminate].
  destruct (sql_bind n); simpl; [| discriminate].
  intros E. inversion E. simpl. auto 10.
Qed.

Lemma bind_layer_error params e :
  bind_layer params = Raise e -> e = ProgrammingError \/ e = OverflowError.
Proof.
  unfold bind_layer. destruct (layer_bbox params) as [[[w s] x] n].
  destruct (sql_bind (layer_geometry_type params)) as [t|] eqn:T; simpl;
    [| intros E; inversion E; subst; exact (sql_bind_error _ _ T)].
  destruct (sql_bind w) eqn:W; simpl;
    [| intros E; inversion E; subst; exact (sql_bind_error _ _ W)].
  destruct (sql_bind s) eqn:S; simpl;
    [| intros E; inversion E; subst; exact (sql_bind_error _ _ S)].
  destruct (sql_bind x) eqn:X; simpl;
    [| intros E; inversion E; subst; exact (sql_bind_error _ _ X)].
  destruct (sql_bind n) eqn:N; simpl;
    [discriminate | intros E; inversion E; subst; exact (sql_bind_error _ _ N)].
Qed.

Lemma insert_layer_ok db params db1 :
  insert_layer db params = Ok db1 ->
  exists row,
    bind_layer params = Ok row /\
    db1 = mk_database (layers db ++ [row]) (features db) (commits db) /\
    existsb (fun l => String.eqb (layer_id l) (layer_id params)) (layers db) = false.
Proof.
  unfold insert_layer. destruct (bind_layer params) as [row|]; simpl; [| discriminate].
  destruct (existsb _ _); [discriminate |].
  intros E. inversion E. eauto.
Qed.


Lemma load_file_loaded db a db' n :
  load_file db a = (db', Loaded n) ->
  exists doc l row rows,
    (700 <= filesize a)%Z /\ content a = Ok doc /\
    py_get doc "features" (VList []) = Ok (VList l) /\ l <> [] /\
    n = List.length l /\
    layer_id row = remove_all ".geojson" (filename a) /\
    feature_count row = List.length l /\
    layers db' = layers db ++ [row] /\
    features db' = features db ++ rows /\
    rows_of (layer_id row) l rows /\
    List.length rows = List.length l.
Proof.
  unfold load_file. destruct (filesize a <? 700)%Z eqn:Size; [discriminate |].
  destruct (content a) as [doc|e]; [| discriminate].
  destruct (prepare_layer (filename a) doc) as [[[[row feats] n']|]|e] eqn:P;
    try discriminate.
  destruct (prepare_layer_some _ _ _ _ _ P) as (l & -> & Hne & -> & Hget & Hid & Hcount).
  destruct (insert_layer db row) as [db1|e] eqn:L; [| discriminate].
  apply insert_layer_ok in L. destruct L as (bound & Hbound & -> & _).
  destruct (bind_layer_fields _ _ Hbound) as (Bid & _ & _ & Bcount & _).
  destruct (insert_batches _ _ _ _) as [db2 r] eqn:B.
  apply insert_batches_spec in B. destruct B as (rows & Hl & Hf & Hrows & Hlen).
  destruct r as [[]|e]; [| discriminate].
  intros E. inversion E; subst; clear E.
  exists doc, l, bound, rows. simpl in Hl, Hf. rewrite Bid, Bcount.
  repeat split; auto.
  - apply Z.ltb_ge. exact Size.
  - rewrite (Hlen eq_refl). apply sum_batches_all.
Qed.

(** *** After the layer row is written only an insert can fail *)

Lemma located_centroids_ok l cs :
  located_centroids l = Ok cs ->
  Forall (fun f => exists g c,
                     py_get f "geometry" VNone = Ok g /\ get_centroid g = Ok c) l.
Proof.
  revert cs. induction l as [|f l IH]; intros cs H; [constructor |].
  simpl in H.
  destruct (py_get f "geometry" VNone) as [g|] eqn:G; simpl in H; [| discriminate].
  destruct (get_centroid g) as [c|] eqn:C; simpl in H; [| discriminate].
  destruct (located_centroids l) as [rest|]; simpl in H; [| discriminate].
  constructor; [eauto | eapply IH; reflexivity].
Qed.

Lemma get_centroid_of_dict g c :
  get_centroid g = Ok c -> truthy g = true -> exists d, g = VDict d.
Proof.
  unfold get_centroid. intros H T. rewrite T in H.
  destruct g; simpl in H; try discriminate. eauto.
Qed.

Lemma feature_row_of_ok id f g c :
  py_get f "geometry" VNone = Ok g -> get_centroid g = Ok c ->
  exists row, feature_row_of id f = Ok row.
Proof.
  intros G C. unfold feature_row_of. rewrite G, bind_ok.
  destruct f as [| | | | |d]; try discriminate G.
  assert (P : exists props, py_get (VDict d) "properties" (VDict []) = Ok props)
    by (simpl; destruct (lookup "properties" d); eauto).
  destruct P as [props ->]. rewrite bind_ok, C, bind_ok.
  destruct (truthy g) eqn:T; [| rewrite bind_ok; eauto].
  destruct (get_centroid_of_dict _ _ C T) as [dg ->].
  simpl. destruct (lookup "type" dg); simpl; eauto.
Qed.

Lemma insert_batch_error id batch :
  Forall (fun f => exists row, feature_row_of id f = Ok row) batch ->
  forall db db' e,
    insert_batch db id batch = (db', Raise e) ->
    e = ProgrammingError \/ e = OverflowError.
Proof.
  induction 1 as [|f batch (row & Hrow) _ IH]; intros db db' e H; simpl in H;
    [discriminate |].
  rewrite Hrow in H. unfold insert_feature in H.
  destruct (bind_feature row) as [bound|e1] eqn:Bd; simpl in H;
    [eapply IH; exact H |].
  inversion H; subst. exact (bind_feature_error _ _ Bd).
Qed.

Lemma insert_batches_error id l starts :
  Forall (fun f => exists row, feature_row_of id f = Ok row) l ->
  forall db db' e,
    insert_batches db id (VList l) starts = (db', Raise e) ->
    e = ProgrammingError \/ e = OverflowError.
Proof.
  intros Hl. induction starts as [|i starts IH]; intros db db' e H;
    [discriminate |].
  rewrite insert_batches_cons in H.
  destruct (insert_batch db id (firstn batch_size (skipn i l)))
    as [db1 [[]|e1]] eqn:B.
  - eapply IH. exact H.
  - inversion H; subst. eapply insert_batch_error; [| exact B].
    rewrite Forall_forall in *. intros f Hf.
    apply Hl. eapply in_skipn, in_firstn, Hf.
Qed.

(** Once a file is accepted, the load ends well or with an error of
    the database. *)
Lemma accepted_file_fails_on_insert_only db a doc layer db' e :
  (700 <= filesize a)%Z ->
  content a = Ok doc ->
  prepare_layer (filename a) doc = Ok (Some layer) ->
  load_file db a = (db', Failed e) ->
  insert_error e.
Proof.
  intros Hsize Hdoc Hprep. unfold load_file.
  replace (filesize a <? 700)%Z with false by (symmetry; apply Z.ltb_ge; exact Hsize).
  rewrite Hdoc, Hprep. destruct layer as [[row feats] n].
  pose proof Hprep as Hsome. apply prepare_layer_some in Hsome.
  destruct Hsome as (l & -> & _ & _ & _ & _ & _).
  assert (Hrows : Forall (fun f => exists r, feature_row_of (layer_id row) f = Ok r) l).
  { unfold prepare_layer in Hprep.
    destruct (py_get doc "features" (VList [])) as [feats0|]; simpl in Hprep;
      [| discriminate].
    destruct (truthy feats0); simpl in Hprep; [| discriminate].
    destruct (py_iter feats0) as [items|]; simpl in Hprep; [| discriminate].
    destruct (first_geometry_type items) as [t|]; simpl in Hprep; [| discriminate].
    destruct (get_bbox feats0) as [box|] eqn:B; simpl in Hprep; [| discriminate].
    destruct (py_len feats0) as [n0|]; simpl in Hprep; [| discriminate].
    inversion Hprep; subst; clear Hprep.
    unfold get_bbox in B. simpl in B.
    destruct (located_centroids l) as [cs|] eqn:LC; simpl in B; [| discriminate].
    eapply Forall_impl; [| exact (located_centroids_ok _ _ LC)].
    intros f (g & c & G & C). eapply feature_row_of_ok; eauto. }
  destruct (insert_layer db row) as [db1|e1] eqn:L.
  - destruct (insert_batches _ _ _ _) as [db2 [[]|e2]] eqn:B; [discriminate |].
    intros E. inversion E; subst. right.
    eapply insert_batches_error; [exact Hrows | exact B].
  - intros E. inversion E; subst. unfold insert_layer in L.
    destruct (bind_layer row) as [bound|e1] eqn:Bd; simpl in L.
    + destruct (existsb _ _); [left; congruence | discriminate].
    + inversion L; subst. right. exact (bind_layer_error _ _ Bd).
Qed.

(** C10.  When a file is loaded, the layers row written for it has
    [feature_count] equal to the length of the file's feature list,
    and that is the number of features rows the load has inserted, all
    of them under the id of the layer, the features without geometry
    among them. *)
Theorem layer_feature_count db a db' n :
  load_file db a = (db', Loaded n) ->
  exists doc feats row rows,
    (700 <= filesize a)%Z /\ content a = Ok doc /\
    py_get doc "features" (VList []) = Ok (VList feats) /\ feats <> [] /\
    layers db' = layers db ++ [row] /\
    layer_id row = remove_all ".geojson" (filename a) /\
    features db' = features db ++ rows /\
    Forall (fun r => row_layer_id r = layer_id row) rows /\
    feature_count row = List.length feats /\
    List.length rows = feature_count row /\
    n = feature_count row /\
    List.length (rows_of_layer (layer_id row) (features db'))
    = List.length (rows_of_layer (layer_id row) (features db)) + feature_count row.
Proof.
  intros H. apply load_file_loaded in H.
  destruct H as (doc & l & row & rows & Hsize & Hdoc & Hget & Hne & -> & Hid
                 & Hcount & Hlayers & Hfeat & Hrows & Hlen).
  assert (Hids : Forall (fun r => row_layer_id r = layer_id row) rows).
  { eapply Forall_impl; [| exact Hrows]. intros r (f & params & _ & E & Bd).
    destruct (bind_feature_fields _ _ Bd) as (-> & _).
    eapply feature_row_layer, E. }
  exists doc, l, row, rows. repeat split; auto; try congruence.
  rewrite Hfeat. unfold rows_of_layer. rewrite filter_app, length_app.
  f_equal. rewrite forallb_filter_id; [congruence |].
  apply forallb_forall. intros r Hr. apply String.eqb_eq.
  rewrite Forall_forall in Hids. auto.
Qed.

Lemma layer_feature_count_witness :
  exists db' row,
    load_file create_local_db stations_file = (db', Loaded 3) /\
    layers db' = [row] /\
    layer_id row = "red-hidrometrica_layer0" /\
    feature_count row = 3 /\
    List.length (rows_of_layer (layer_id row) (features db')) = 3.
Proof.
  destruct (load_file create_local_db stations_file) as [db' status] eqn:L.
  assert (S : status = Loaded 3)
    by (apply (f_equal snd) in L; vm_compute in L; congruence).
  subst status.
  destruct (layer_feature_count _ _ _ _ L)
    as (doc & feats & row & rows & _ & _ & _ & _ & Hl & Hid & _ & _ & _ & _ & Hn & Hc).
  exists db', row. repeat split; auto.
  rewrite Hc, <- Hn. reflexivity.
Defined.





(** A well-formed geometry without a vertex has no centroid. *)
Lemma empty_line_has_no_centroid :
  get_centroid (encode (LineString [])) = Ok (VNone, VNone) /\
  esri_to_geojson_geometry (VDict [("paths", VList [VList []])])
    (VStr "esriGeometryPolyline")
  = Ok (encode (LineString [])).
Proof. split; reflexivity. Qed.




(** * Further properties *)

(** ** The translator and the assembler *)

Lemma map_singletons {A} (l : list A) : List.concat (map (fun x => [x]) l) = l.
Proof. induction l as [|x l IH]; simpl; [| rewrite IH]; reflexivity. Qed.

Lemma encode_singleton_rings rings :
  map (fun ring => VList [ring]) (map encode_line rings)
  = map encode_rings (map (fun ring => [ring]) rings).
Proof. rewrite !map_map. reflexivity. Qed.

Lemma translate_esri g :
  esri_to_geojson_geometry (encode_esri g) (VStr (esri_tag g))
  = Ok (encode (translated g)).
Proof.
  destruct g as [x y | paths | rings | points]; try reflexivity.
  - destruct paths as [|p1 [|p2 paths]]; reflexivity.
  - destruct rings as [|r1 [|r2 rings]]; try reflexivity.
    unfold esri_to_geojson_geometry, encode_esri, esri_tag, encode_rings.
    simpl. unfold encode_rings. simpl. rewrite encode_singleton_rings.
    reflexivity.
Qed.

Lemma translate_other_tag g tag :
  is_str (esri_tag g) tag = false ->
  esri_to_geojson_geometry (encode_esri g) tag = Ok VNone.
Proof.
  intros H. unfold esri_to_geojson_geometry.
  replace (truthy (encode_esri g)) with true by (destruct g; reflexivity).
  simpl negb. cbv iota.
  split_tag tag; destruct g; simpl in H; try congruence; reflexivity.
Qed.

(** X1.  Under its own tag a well-formed vendor geometry is translated
    to a well-formed standard geometry, the one [translated] names: no
    path or ring is lost, and a Polyline or Polygon without any path or
    ring becomes an empty MultiLineString or MultiPolygon, not null.
    Under any other tag it is translated to null. *)
Theorem translation_well_formed g :
  esri_to_geojson_geometry (encode_esri g) (VStr (esri_tag g))
  = Ok (encode (translated g)) /\
  vertices (Some (translated g)) = esri_vertices g /\
  forall tag, is_str (esri_tag g) tag = false ->
              esri_to_geojson_geometry (encode_esri g) tag = Ok VNone.
Proof.
  split; [apply translate_esri |]. split; [| apply translate_other_tag].
  destruct g as [x y | paths | rings | points]; try reflexivity.
  - destruct paths as [|p1 [|p2 paths]]; try reflexivity.
    simpl. symmetry. apply app_nil_r.
  - destruct rings as [|r1 [|r2 rings]]; try reflexivity.
    + simpl. symmetry. apply app_nil_r.
    + unfold translated, vertices, esri_vertices.
      rewrite map_singletons. reflexivity.
Qed.

Lemma translation_well_formed_witness :
  esri_to_geojson_geometry
    (encode_esri (EsriPolyline [[mk_position 1 2 []; mk_position 3 4 []]]))
    (VStr "esriGeometryPolygon")
  = Ok VNone.
Proof.
  destruct (translation_well_formed
              (EsriPolyline [[mk_position 1 2 []; mk_position 3 4 []]]))
    as (_ & _ & H).
  apply H. reflexivity.
Defined.




Ltac in_list := simpl; repeat first [left; reflexivity | right].

Ltac shaped :=
  right; do 2 eexists; split; [reflexivity | split; in_list].

(** X3.  Whatever it is given, when the translator returns it returns
    null or an object with exactly a type and coordinates, and the type
    is one the tag allows: Point for a Point tag, LineString or
    MultiLineString for Polyline, Polygon or MultiPolygon for Polygon,
    MultiPoint for Multipoint. *)
Theorem translator_output_shape g tag out :
  esri_to_geojson_geometry g tag = Ok out ->
  out = VNone \/
  exists type coordinates,
    out = geojson type coordinates /\
    In type (types_of_tag tag) /\ In type standard_types.
Proof.
  unfold esri_to_geojson_geometry, types_of_tag.
  destruct (truthy g); simpl negb; cbv iota; [| intros E; inversion E; auto].
  split_tag tag.
  - destruct (py_in "x" g) as [[|]|]; simpl; try discriminate.
    + destruct (py_in "y" g) as [[|]|]; simpl; try discriminate.
      * destruct (py_item g "x") as [x|]; simpl; try discriminate.
        destruct (py_item g "y") as [y|]; simpl; try discriminate.
        intros E; inversion E. shaped.
      * intros E; inversion E; auto.
    + intros E; inversion E; auto.
  - destruct (py_in "paths" g) as [[|]|]; simpl; try discriminate.
    + destruct (py_item g "paths") as [paths|]; simpl; try discriminate.
      destruct (py_len paths) as [n|]; simpl; try discriminate.
      destruct (Nat.eqb n 1).
      * destruct (py_index paths 0) as [first|]; simpl; try discriminate.
        intros E; inversion E. shaped.
      * simpl. intros E; inversion E. shaped.
    + intros E; inversion E; auto.
  - destruct (py_in "rings" g) as [[|]|]; simpl; try discriminate.
    + destruct (py_item g "rings") as [rings|]; simpl; try discriminate.
      destruct (py_len rings) as [n|]; simpl; try discriminate.
      destruct (Nat.eqb n 1).
      * simpl. intros E; inversion E. shaped.
      * destruct (py_iter rings) as [items|]; simpl; try discriminate.
        intros E; inversion E. shaped.
    + intros E; inversion E; auto.
  - destruct (py_in "points" g) as [[|]|]; simpl; try discriminate.
    + destruct (py_item g "points") as [points|]; simpl; try discriminate.
      intros E; inversion E. shaped.
    + intros E; inversion E; auto.
  - intros E; inversion E; auto.
Qed.

Lemma translator_output_shape_witness :
  geojson "Polygon" (VList [VStr "ring"]) = VNone \/
  exists type coordinates,
    geojson "Polygon" (VList [VStr "ring"]) = geojson type coordinates /\
    In type (types_of_tag (VStr "esriGeometryPolygon")) /\ In type standard_types.
Proof.
  apply (translator_output_shape
           (VDict [("rings", VList [VStr "ring"])]) (VStr "esriGeometryPolygon")).
  reflexivity.
Defined.

Lemma map_m_ok {A B} (f : A -> result B) l ys :
  map_m f l = Ok ys ->
  List.length ys = List.length l /\
  forall i x, nth_error l i = Some x ->
              exists y, nth_error ys i = Some y /\ f x = Ok y.
Proof.
  revert ys. induction l as [|a l IH]; intros ys H; simpl in H.
  - inversion H; subst. split; [reflexivity |].
    intros [|i] x E; discriminate E.
  - destruct (f a) as [b|] eqn:Fa; simpl in H; [| discriminate].
    destruct (map_m f l) as [bs|]; simpl in H; [| discriminate].
    inversion H; subst. destruct (IH bs eq_refl) as [Hlen Hnth].
    split; [simpl; f_equal; exact Hlen |].
    intros [|i] x E; simpl in E.
    + inversion E; subst. exists b. auto.
    + apply Hnth. exact E.
Qed.

Lemma map_m_map {A B C} (f : B -> result C) (g : A -> B) (h : A -> C) l :
  (forall x, f (g x) = Ok (h x)) ->
  map_m f (map g l) = Ok (map h l).
Proof.
  intros H. induction l as [|a l IH]; simpl; [reflexivity |].
  rewrite H, IH. reflexivity.
Qed.

(** X4.  When the assembler returns, it returns a feature collection
    with one feature per vendor feature, in the same order: none is
    dropped, none is added, a feature without geometry is kept.  The
    i-th feature holds the translation of the i-th vendor geometry
    under the layer's tag and the i-th attributes as its properties
    (an empty object when there are none). *)
Theorem assembler_keeps_features d out :
  esri_to_geojson (VDict d) = Ok out ->
  exists tag feats items fs,
    py_get (VDict d) "geometryType" (VStr "") = Ok tag /\
    py_get (VDict d) "features" (VList []) = Ok feats /\
    py_iter feats = Ok items /\
    out = collection fs /\
    List.length fs = List.length items /\
    forall i f, nth_error items i = Some f ->
      exists g geom props,
        py_get f "geometry" VNone = Ok g /\
        esri_to_geojson_geometry g tag = Ok geom /\
        py_get f "attributes" (VDict []) = Ok props /\
        nth_error fs i
        = Some (VDict [("type", VStr "Feature"); ("geometry", geom);
                       ("properties", props)]).
Proof.
  unfold esri_to_geojson.
  destruct (py_get (VDict d) "geometryType" (VStr "")) as [tag|] eqn:T;
    cbn [bind]; [| discriminate].
  destruct (py_get (VDict d) "features" (VList [])) as [feats|] eqn:F;
    cbn [bind]; [| discriminate].
  destruct (py_iter feats) as [items|] eqn:I; cbn [bind]; [| discriminate].
  destruct (map_m _ items) as [fs|] eqn:M; cbn [bind]; [| discriminate].
  intros E. inversion E; subst; clear E.
  apply map_m_ok in M. destruct M as [Hlen Hnth].
  exists tag, feats, items, fs. repeat split; auto.
  intros i f Hf. destruct (Hnth i f Hf) as (y & Hy & Hrow).
  destruct (py_get f "geometry" VNone) as [g|] eqn:G; cbn [bind] in Hrow;
    [| discriminate].
  destruct (esri_to_geojson_geometry g tag) as [geom|] eqn:Tr; cbn [bind] in Hrow;
    [| discriminate].
  destruct (py_get f "attributes" (VDict [])) as [props|] eqn:P; cbn [bind] in Hrow;
    [| discriminate].
  inversion Hrow; subst. exists g, geom, props.
  split; [reflexivity |]. split; [exact Tr |]. split; [reflexivity | exact Hy].
Qed.

Lemma assembler_keeps_features_witness :
  exists tag feats items fs,
    py_get (esri_document "esriGeometryPoint"
              [mk_esri_feature (Some (EsriPoint 1 2)) None;
               mk_esri_feature None (Some [("name", VStr "A")])])
      "geometryType" (VStr "") = Ok tag /\
    py_get (esri_document "esriGeometryPoint"
              [mk_esri_feature (Some (EsriPoint 1 2)) None;
               mk_esri_feature None (Some [("name", VStr "A")])])
      "features" (VList []) = Ok feats /\
    py_iter feats = Ok items /\
    collection
      [encode_feature (mk_feature (Some (Point (mk_position 1 2 []))) []);
       encode_feature (mk_feature None [("name", VStr "A")])]
    = collection fs /\
    List.length fs = List.length items /\
    forall i f, nth_error items i = Some f ->
      exists g geom props,
        py_get f "geometry" VNone = Ok g /\
        esri_to_geojson_geometry g tag = Ok geom /\
        py_get f "attributes" (VDict []) = Ok props /\
        nth_error fs i
        = Some (VDict [("type", VStr "Feature"); ("geometry", geom);
                       ("properties", props)]).
Proof.
  apply (assembler_keeps_features
           [("features",
             VList (map encode_esri_feature
                      [mk_esri_feature (Some (EsriPoint 1 2)) None;
                       mk_esri_feature None (Some [("name", VStr "A")])]));
            ("geometryType", VStr "esriGeometryPoint")]).
  reflexivity.
Defined.

Lemma assemble_feature tag f :
  (g <- py_get (encode_esri_feature f) "geometry" VNone ;;
   geometry <- esri_to_geojson_geometry g (VStr tag) ;;
   properties <- py_get (encode_esri_feature f) "attributes" (VDict []) ;;
   Ok (VDict [("type", VStr "Feature");
              ("geometry", geometry);
              ("properties", properties)]))
  = Ok (encode_feature (assembled tag f)).
Proof.
  destruct f as [[g|] [attrs|]]; unfold encode_esri_feature, assembled, encode_feature;
    simpl app; simpl esri_geometry_of; simpl esri_attributes_of;
    try reflexivity.
  - change (py_get (VDict [("attributes", VDict attrs); ("geometry", encode_esri g)])
              "geometry" VNone) with (Ok (encode_esri g)).
    rewrite bind_ok.
    destruct (String.eqb (esri_tag g) tag) eqn:E.
    + apply String.eqb_eq in E. subst tag. rewrite translate_esri. reflexivity.
    + rewrite translate_other_tag; [reflexivity |].
      simpl. rewrite String.eqb_sym. exact E.
  - change (py_get (VDict [("geometry", encode_esri g)]) "geometry" VNone)
      with (Ok (encode_esri g)).
    rewrite bind_ok.
    destruct (String.eqb (esri_tag g) tag) eqn:E.
    + apply String.eqb_eq in E. subst tag. rewrite translate_esri. reflexivity.
    + rewrite translate_other_tag; [reflexivity |].
      simpl. rewrite String.eqb_sym. exact E.
Qed.

(** X5.  On the document of a layer of well-formed vendor features the
    assembler does not raise: it returns the collection of their
    translations, feature by feature.  A geometry whose type is not the
    layer's becomes null, and so does every geometry when the layer's
    tag is not a vendor tag. *)
Theorem assembler_on_vendor_features tag fs :
  esri_to_geojson (esri_document tag fs)
  = Ok (collection (map encode_feature (map (assembled tag) fs))).
Proof.
  unfold esri_to_geojson, esri_document.
  change (py_get (VDict [("features", VList (map encode_esri_feature fs));
                         ("geometryType", VStr tag)]) "geometryType" (VStr ""))
    with (Ok (VStr tag)).
  rewrite bind_ok.
  change (py_get (VDict [("features", VList (map encode_esri_feature fs));
                         ("geometryType", VStr tag)]) "features" (VList []))
    with (Ok (VList (map encode_esri_feature fs))).
  rewrite bind_ok. unfold py_iter. rewrite bind_ok.
  rewrite (map_m_map _ encode_esri_feature
             (fun f => encode_feature (assembled tag f)))
    by (intros f; apply assemble_feature).
  rewrite bind_ok, map_map. reflexivity.
Qed.

(** ** The summarizer *)

Lemma py_index_error v i e : py_index v i = Raise e -> subscript_error e = true.
Proof.
  destruct v as [| | |s|l|d]; simpl.
  1-3,6: intros E; inversion E; reflexivity.
  - destruct (str_nth s i); intros E; inversion E; reflexivity.
  - destruct (nth_error l i); intros E; inversion E; reflexivity.
Qed.

Lemma py_iter_error v e : py_iter v = Raise e -> e = TypeError.
Proof. destruct v; simpl; intros E; inversion E; reflexivity. Qed.

Lemma subscript_centroid_error e : subscript_error e = true -> centroid_error e = true.
Proof. destruct e; simpl; congruence. Qed.

Lemma sum_from_error l :
  forall acc e, sum_from acc l = Raise e -> e = TypeError \/ e = OverflowError.
Proof.
  induction l as [|x l IH]; intros acc e; simpl; [discriminate |].
  destruct (as_num x) as [n|e1] eqn:N; cbn [bind].
  - destruct (py_add acc n) as [acc'|e1] eqn:A; cbn [bind]; [apply IH |].
    intros E. inversion E; subst. right. exact (py_add_error _ _ _ A).
  - intros E. inversion E; subst. left.
    destruct x; simpl in N; congruence.
Qed.

Lemma map_m_error {A B} (f : A -> result B) l e :
  map_m f l = Raise e -> exists x, In x l /\ f x = Raise e.
Proof.
  induction l as [|a l IH]; simpl; [discriminate |].
  destruct (f a) as [b|e'] eqn:Fa; cbn [bind].
  - destruct (map_m f l) as [bs|e'']; cbn [bind]; [discriminate |].
    intros E. inversion E; subst. destruct (IH eq_refl) as (x & Hx & Fx).
    exists x. auto.
  - intros E. inversion E; subst. exists a. auto.
Qed.

Lemma mean_lon_lat_error c cs e :
  mean_lon_lat (c :: cs) = Raise e -> centroid_error e = true.
Proof.
  unfold mean_lon_lat.
  destruct (map_m (fun c0 => py_index c0 0) (c :: cs)) as [lons|e1] eqn:Lon;
    cbn [bind].
  2:{ intros E. inversion E; subst. apply map_m_error in Lon.
      destruct Lon as (x & _ & Hx).
      eapply subscript_centroid_error, py_index_error, Hx. }
  destruct (map_m (fun c0 => py_index c0 1) (c :: cs)) as [lats|e1] eqn:Lat;
    cbn [bind].
  2:{ intros E. inversion E; subst. apply map_m_error in Lat.
      destruct Lat as (x & _ & Hx).
      eapply subscript_centroid_error, py_index_error, Hx. }
  apply map_m_ok in Lon, Lat. destruct Lon as [Hlon _], Lat as [Hlat _].
  destruct (py_sum lons) as [slon|e1] eqn:Slon; cbn [bind].
  2:{ intros E. inversion E; subst. apply sum_from_error in Slon.
      destruct Slon; subst; reflexivity. }
  destruct lons as [|lon0 lons]; [discriminate Hlon |].
  destruct lats as [|lat0 lats]; [discriminate Hlat |].
  cbn [List.length].
  destruct (py_div slon (S (List.length lons))) as [mlon|e1] eqn:Dlon; cbn [bind].
  2:{ intros E. inversion E; subst. rewrite (py_div_error _ _ _ Dlon).
      reflexivity. }
  destruct (py_sum (lat0 :: lats)) as [slat|e1] eqn:Slat; cbn [bind].
  2:{ intros E. inversion E; subst. apply sum_from_error in Slat.
      destruct Slat; subst; reflexivity. }
  destruct (py_div slat (S (List.length lats))) as [mlat|e1] eqn:Dlat; cbn [bind];
    [discriminate |].
  intros E. inversion E; subst. rewrite (py_div_error _ _ _ Dlat). reflexivity.
Qed.

Lemma mean_of_items_error v e :
  truthy v = true ->
  (cs <- py_iter v ;; r <- mean_lon_lat cs ;; Ok (Some r)) = Raise e ->
  centroid_error e = true.
Proof.
  intros T. destruct (py_iter v) as [cs|e1] eqn:I; cbn [bind].
  - destruct cs as [|c cs]; [elim (py_iter_truthy _ _ I T); reflexivity |].
    destruct (mean_lon_lat (c :: cs)) as [r|e1] eqn:M; cbn [bind];
      [discriminate |].
    intros E. inversion E; subst. eapply mean_lon_lat_error, M.
  - intros E. inversion E; subst. apply py_iter_error in I. subst. reflexivity.
Qed.

Lemma mean_of_all_error (all : list value) e :
  match all with
  | [] => Ok None
  | c :: cs => r <- mean_lon_lat (c :: cs) ;; Ok (Some r)
  end = Raise e ->
  centroid_error e = true.
Proof.
  destruct all as [|c cs]; [discriminate |].
  destruct (mean_lon_lat (c :: cs)) as [r|e1] eqn:M; cbn [bind];
    [discriminate |].
  intros E. inversion E; subst. eapply mean_lon_lat_error, M.
Qed.

Lemma centroid_try_error geom_type coords e :
  truthy coords = true ->
  centroid_try geom_type coords = Raise e ->
  centroid_error e = true.
Proof.
  intros T. unfold centroid_try.
  destruct (is_str "Point" geom_type).
  { destruct (py_index coords 0) as [lon|e1] eqn:I0; cbn [bind].
    - destruct (py_index coords 1) as [lat|e1] eqn:I1; cbn [bind];
        [discriminate |].
      intros E. inversion E; subst. eapply subscript_centroid_error, py_index_error, I1.
    - intros E. inversion E; subst. eapply subscript_centroid_error, py_index_error, I0. }
  destruct (is_str "LineString" geom_type);
    [apply mean_of_items_error; exact T |].
  destruct (is_str "Polygon" geom_type).
  { rewrite T.
    destruct (py_index coords 0) as [ring|e1] eqn:I0; cbn [bind].
    - destruct (truthy ring) eqn:Tr; [| discriminate].
      apply mean_of_items_error; exact Tr.
    - intros E. inversion E; subst. eapply subscript_centroid_error, py_index_error, I0. }
  destruct (is_str "MultiLineString" geom_type).
  { destruct (py_iter coords) as [lines|e1] eqn:I; cbn [bind].
    - destruct (map_m py_iter lines) as [all|e1] eqn:M; cbn [bind].
      + apply mean_of_all_error.
      + intros E. inversion E; subst. apply map_m_error in M.
        destruct M as (x & _ & Hx). apply py_iter_error in Hx. subst.
        reflexivity.
    - intros E. inversion E; subst. apply py_iter_error in I. subst.
      reflexivity. }
  destruct (is_str "MultiPolygon" geom_type).
  { destruct (py_iter coords) as [polys|e1] eqn:I; cbn [bind].
    - destruct (map_m _ polys) as [all|e1] eqn:M; cbn [bind].
      + apply mean_of_all_error.
      + intros E. inversion E; subst. apply map_m_error in M.
        destruct M as (poly & _ & Hx).
        destruct (py_iter poly) as [rings|e2] eqn:Ip; cbn [bind] in Hx.
        * destruct (map_m py_iter rings) as [per|e2] eqn:Mr; cbn [bind] in Hx;
            [discriminate |].
          inversion Hx; subst. apply map_m_error in Mr.
          destruct Mr as (x & _ & Hr). apply py_iter_error in Hr. subst.
          reflexivity.
        * inversion Hx; subst. apply py_iter_error in Ip. subst. reflexivity.
    - intros E. inversion E; subst. apply py_iter_error in I. subst.
      reflexivity. }
  destruct (is_str "MultiPoint" geom_type);
    [apply mean_of_items_error; exact T | discriminate].
Qed.

(** X6.  The only exceptions that leave [get_centroid] are
    [AttributeError], for a geometry that is not an object, and, for
    one that is, [KeyError], of an object where an array is expected,
    and [OverflowError], of an integer beyond the doubles in a mean.
    It never divides by zero: every mean it takes is over at least one
    vertex. *)
Theorem get_centroid_escapes g e :
  get_centroid g = Raise e ->
  match g with
  | VDict _ => e = KeyError \/ e = OverflowError
  | _ => e = AttributeError
  end.
Proof.
  unfold get_centroid. destruct (truthy g) eqn:Tg; simpl negb; cbv iota;
    [| discriminate].
  destruct g as [| |n| | |d]; try (simpl; intros E; inversion E; reflexivity).
  assert (Gt : exists t, py_get (VDict d) "type" (VStr "") = Ok t)
    by (simpl; destruct (lookup "type" d); eauto).
  assert (Gc : exists c, py_get (VDict d) "coordinates" (VList []) = Ok c)
    by (simpl; destruct (lookup "coordinates" d); eauto).
  destruct Gt as [t ->], Gc as [c ->]. rewrite !bind_ok.
  destruct (truthy c) eqn:Tc; simpl negb; cbv iota; [| discriminate].
  destruct (centroid_try t c) as [r|e1] eqn:Try; unfold catch.
  - rewrite bind_ok. destruct r; discriminate.
  - apply centroid_try_error in Try; [| exact Tc].
    destruct e1; simpl in Try; try discriminate; simpl;
      intros E; inversion E; auto.
Qed.

Lemma get_centroid_escapes_witness :
  get_centroid (geojson "LineString" (VList [VDict [("lon", VNum 1)]]))
  = Raise KeyError /\
  (KeyError = KeyError \/ KeyError = OverflowError).
Proof.
  split; [reflexivity |].
  exact (get_centroid_escapes
           (geojson "LineString" (VList [VDict [("lon", VNum 1)]])) KeyError
           eq_refl).
Defined.

Lemma located_from fs :
  forall cs c,
    located fs = Ok cs -> In c cs ->
    exists f, In f fs /\ centroid_n (geometry_of f) = Ok (Some c).
Proof.
  induction fs as [|f fs IH]; intros cs c; simpl.
  - intros E. inversion E. contradiction.
  - destruct (centroid_n (geometry_of f)) as [o|] eqn:C; cbn [bind]; [| discriminate].
    destruct (located fs) as [rest|]; cbn [bind]; [| discriminate].
    intros E. inversion E; subst; clear E.
    assert (Hrest : In c rest -> exists f0, (f = f0 \/ In f0 fs) /\
                                            centroid_n (geometry_of f0) = Ok (Some c)).
    { intros Hc. destruct (IH rest c eq_refl Hc) as (f0 & Hf0 & E0). eauto. }
    destruct o as [c0|]; [| exact Hrest].
    intros [<- | Hc]; [eauto | auto].
Qed.

Lemma located_holds fs :
  forall cs f c,
    located fs = Ok cs -> In f fs ->
    centroid_n (geometry_of f) = Ok (Some c) -> In c cs.
Proof.
  induction fs as [|f0 fs IH]; intros cs f c; simpl; [contradiction |].
  destruct (centroid_n (geometry_of f0)) as [o|] eqn:C; cbn [bind]; [| discriminate].
  destruct (located fs) as [rest|]; cbn [bind]; [| discriminate].
  intros E. inversion E; subst; clear E.
  intros [<- | Hf] Hc.
  - rewrite Hc in C. inversion C. left. reflexivity.
  - specialize (IH rest f c eq_refl Hf Hc). destruct o; [right |]; exact IH.
Qed.

(** X8.  More features never shrink the box.  For features with
    finite coordinates, when [get_bbox] gives a box for a feature list
    and returns for a list that holds all those features, in any order
    and among any others, what it returns there is a box that contains
    the first. *)
Theorem bbox_grows_with_features fs hs w s e n box :
  Forall (fun f => finite_geometry (geometry_of f) = true) hs ->
  (forall f, In f fs -> In f hs) ->
  get_bbox (VList (map encode_feature fs)) = Ok (VNum w, VNum s, VNum e, VNum n) ->
  get_bbox (VList (map encode_feature hs)) = Ok box ->
  exists w' s' e' n',
    box = (VNum w', VNum s', VNum e', VNum n') /\
    num_leb w' w = true /\ num_leb s' s = true /\
    num_leb e e' = true /\ num_leb n n' = true.
Proof.
  intros Hfin Hin. rewrite !get_bbox_features. unfold spec_bboxOf.
  destruct (located fs) as [cs|] eqn:Lfs; cbn [bind]; [| discriminate].
  destruct (located hs) as [ds|] eqn:Lhs; cbn [bind]; [| discriminate].
  intros Hbox Hbox'. inversion Hbox' as [Ebox]; clear Hbox'.
  destruct cs as [|c cs]; [discriminate Hbox |].
  assert (Hsub : forall x, In x (c :: cs) -> In x ds).
  { intros x Hx. destruct (located_from fs _ x Lfs Hx) as (f & Hf & Hc).
    exact (located_holds hs ds f x Lhs (Hin f Hf) Hc). }
  assert (Hw : In w (map fst (c :: cs)) /\ In s (map snd (c :: cs)) /\
               In e (map fst (c :: cs)) /\ In n (map snd (c :: cs))).
  { unfold box_of in Hbox. inversion Hbox.
    split; [apply (num_min_from_in (fst c) (map fst cs)) |].
    split; [apply (num_min_from_in (snd c) (map snd cs)) |].
    split; [apply (num_max_from_in (fst c) (map fst cs)) |
            apply (num_max_from_in (snd c) (map snd cs))]. }
  destruct Hw as (Hw & Hs & He & Hn).
  destruct (located_numbers hs Hfin ds Lhs) as [Hlon Hlat].
  destruct (box_of_corners ds Hlon Hlat) as (w' & s' & e' & n' & E' & _ & _ & _ & _ & Hall & _).
  { intros ->. exact (Hsub c (or_introl eq_refl)). }
  exists w', s', e', n'. split; [exact E' |].
  apply in_map_iff in Hw, Hs, He, Hn.
  destruct Hw as (cw & <- & Hcw), Hs as (cs0 & <- & Hcs),
           He as (ce & <- & Hce), Hn as (cn & <- & Hcn).
  split; [apply (Hall cw), Hsub, Hcw |].
  split; [apply (Hall cs0), Hsub, Hcs |].
  split; [apply (Hall ce), Hsub, Hce | apply (Hall cn), Hsub, Hcn].
Qed.

Lemma bbox_grows_with_features_witness :
  exists w' s' e' n',
    (VNum 1, VNum 0, VNum 9, VNum 4) = (VNum w', VNum s', VNum e', VNum n') /\
    num_leb w' 1 = true /\ num_leb s' 2 = true /\
    num_leb 3 e' = true /\ num_leb 4 n' = true.
Proof.
  apply (bbox_grows_with_features sample_features
           (mk_feature (Some (Point (mk_position 9 0 []))) [] :: sample_features)).
  - repeat constructor.
  - intros f Hf. right. exact Hf.
  - reflexivity.
  - reflexivity.
Defined.

(** ** The paginated query on any endpoint *)

Lemma page_body_items ps max d acc :
  match page_body ps max d acc with
  | Ok (_, acc') => acc' = acc ++ page_items (Decoded d)
  | Raise _ => page_items (Decoded d) = []
  end.
Proof.
  unfold page_body, page_items.
  destruct (py_in "error" d) as [[|]|]; cbn [bind];
    [symmetry; apply app_nil_r | | reflexivity].
  destruct (py_get d "features" (VList [])) as [feats|]; cbn [bind];
    [| reflexivity].
  destruct (truthy feats); simpl negb; cbv iota; [| symmetry; apply app_nil_r].
  destruct (py_iter feats) as [items|] eqn:I; cbn [bind]; [| reflexivity].
  rewrite (py_iter_len _ _ I). cbn [bind].
  destruct (_ || _); reflexivity.
Qed.

Lemma query_result_ok st v :
  query_result st = Ok v ->
  exists tag,
    v = VDict [("features", VList (all_features st)); ("geometryType", tag)].
Proof.
  unfold query_result.
  destruct (match data st with
            | Some d => py_get d "geometryType" (VStr "")
            | None => Ok (VStr "")
            end) as [t|]; cbn [bind]; [| discriminate].
  destruct (match data st with
            | Some d =>
                if truthy (VList (all_features st))
                then has <- py_in "geometryType" d ;;
                     (if has then py_item d "geometryType" else Ok t)
                else Ok t
            | None => Ok t
            end) as [t'|]; cbn [bind]; [| discriminate].
  intros E. inversion E. eauto.
Qed.

Lemma query_result_raises st e :
  query_result st = Raise e ->
  e = AttributeError /\
  exists d, data st = Some d /\ forall o, d <> VDict o.
Proof.
  intros H.
  destruct (data st) as [d|] eqn:D.
  - destruct d as [| | | | |o].
    1-5: unfold query_result in H; rewrite D in H; cbn in H; inversion H;
      split; [reflexivity | eexists; split; [reflexivity | discriminate]].
    destruct (query_result_dict st) as [tag E]; [rewrite D; exact I |].
    congruence.
  - destruct (query_result_dict st) as [tag E]; [rewrite D; exact I |].
    congruence.
Qed.

Section AnyEndpoint.

Variable p : nat.
Variable max_records : Z.
Variable serve : endpoint.

Lemma run_requests :
  forall fuel k st st',
    offset st = Z.of_nat (k * p) ->
    requests st = page_offsets p k ->
    (Z.of_nat (k * p) <= Z.of_nat (List.length (all_features st)))%Z ->
    (k = 0 \/ (Z.of_nat (List.length (all_features st)) < max_records)%Z) ->
    query_loop fuel (Z.of_nat p) max_records serve st = Some st' ->
    exists n,
      k < n /\ requests st' = page_offsets p n /\
      (n = 1 \/ (Z.of_nat ((n - 1) * p) < max_records)%Z).
Proof.
  induction fuel as [|fuel IH]; intros k st st' Hoff Hreq Hlen Hmax; [discriminate |].
  assert (Hend : exists n,
             k < n /\ requests st ++ [offset st] = page_offsets p n /\
             (n = 1 \/ (Z.of_nat ((n - 1) * p) < max_records)%Z)).
  { exists (S k). split; [lia |]. split.
    - rewrite page_offsets_S, Hreq, Hoff. reflexivity.
    - simpl. rewrite Nat.sub_0_r. destruct Hmax as [-> | Hmax]; [auto |].
      right. lia. }
  simpl. destruct (serve (offset st)) as [|d].
  { intros E. inversion E; subst. exact Hend. }
  destruct (page_body (Z.of_nat p) max_records d (all_features st))
    as [[[|] acc']|e] eqn:B.
  - intros E. inversion E; subst. exact Hend.
  - apply page_body_continue in B.
    destruct B as (feats & items & _ & _ & -> & _ & Hfull & Hbelow).
    intros E. apply (IH (S k)) in E.
    + destruct E as (n & Hn & E). exists n. split; [lia | exact E].
    + simpl. rewrite Hoff. lia.
    + simpl. rewrite page_offsets_S, Hreq, Hoff. reflexivity.
    + simpl. rewrite length_app. lia.
    + right. exact Hbelow.
  - intros E. inversion E; subst. exact Hend.
Qed.

Lemma run_features :
  forall fuel st st',
    all_features st = List.concat (map (fun off => page_items (serve off)) (requests st)) ->
    query_loop fuel (Z.of_nat p) max_records serve st = Some st' ->
    all_features st'
    = List.concat (map (fun off => page_items (serve off)) (requests st')).
Proof.
  induction fuel as [|fuel IH]; intros st st' Hacc; [discriminate |].
  assert (Happ : forall items,
             items = page_items (serve (offset st)) ->
             all_features st ++ items
             = List.concat (map (fun off => page_items (serve off))
                              (requests st ++ [offset st]))).
  { intros items ->. rewrite map_app, concat_app, <- Hacc. simpl.
    rewrite app_nil_r. reflexivity. }
  simpl. destruct (serve (offset st)) as [|d] eqn:S.
  { intros E. inversion E; subst. simpl. rewrite <- (Happ []); [| reflexivity].
    symmetry. apply app_nil_r. }
  pose proof (page_body_items (Z.of_nat p) max_records d (all_features st)) as B.
  destruct (page_body (Z.of_nat p) max_records d (all_features st))
    as [[[|] acc']|e].
  - intros E. inversion E; subst. simpl. apply Happ. reflexivity.
  - intros E. apply IH in E; [exact E |]. simpl. subst acc'. apply Happ.
    reflexivity.
  - intros E. inversion E; subst. simpl. rewrite <- (Happ []); [| auto].
    symmetry. apply app_nil_r.
Qed.

Lemma run_data :
  forall fuel st st',
    (data st = None \/ exists off, serve off = Decoded_of (data st)) ->
    query_loop fuel (Z.of_nat p) max_records serve st = Some st' ->
    data st' = None \/ exists off, serve off = Decoded_of (data st').
Proof.
  induction fuel as [|fuel IH]; intros st st' Hd; [discriminate |].
  simpl. destruct (serve (offset st)) as [|d] eqn:S.
  { intros E. inversion E; subst. exact Hd. }
  destruct (page_body (Z.of_nat p) max_records d (all_features st))
    as [[[|] acc']|e].
  - intros E. inversion E; subst. simpl. right. eauto.
  - intros E. apply IH in E; [exact E |]. simpl. right. eauto.
  - intros E. inversion E; subst. simpl. right. eauto.
Qed.

End AnyEndpoint.

Lemma run_last_document (P : value -> Prop) ps max_records serve :
  (forall off, exists d, serve off = Decoded d /\ P d) ->
  forall fuel st st',
    query_loop fuel ps max_records serve st = Some st' ->
    exists d, data st' = Some d /\ P d.
Proof.
  intros Hserve. induction fuel as [|fuel IH]; intros st st'; [discriminate |].
  simpl. destruct (Hserve (offset st)) as (d & -> & Hd).
  destruct (page_body ps max_records d (all_features st)) as [[[|] acc']|e].
  - intros E. inversion E; subst. simpl. eauto.
  - apply IH.
  - intros E. inversion E; subst. simpl. eauto.
Qed.

Lemma query_layer_paged_run ps serve max_records :
  exists st,
    query_loop (query_fuel max_records) ps max_records serve fetch_start = Some st /\
    query_layer_paged ps serve max_records = Some (requests st, query_result st).
Proof.
  destruct (query_loop_terminates ps max_records serve
              (query_fuel max_records) fetch_start) as [st Hst];
    [unfold query_fuel; simpl; lia |].
  exists st. split; [exact Hst |].
  unfold query_layer_paged. rewrite Hst. reflexivity.
Qed.

(** X9.  On every endpoint [query_layer] issues at least one request,
    and its requests are for the offsets 0, page_size, 2 * page_size,
    ... in this order, each once.  It issues a request beyond the first
    only while the features of the pages before, at least page_size
    each, are fewer than [max_records]: with [max_records <= 0] there
    is exactly one request. *)
Theorem requests_on_any_endpoint (p : nat) (max_records : Z) (serve : endpoint) :
  exists n r,
    query_layer_paged (Z.of_nat p) serve max_records = Some (page_offsets p n, r) /\
    1 <= n /\
    (n = 1 \/ (Z.of_nat ((n - 1) * p) < max_records)%Z).
Proof.
  destruct (query_layer_paged_run (Z.of_nat p) serve max_records)
    as (st & Hrun & Hq).
  destruct (run_requests p max_records serve _ 0 fetch_start st
              eq_refl eq_refl ltac:(simpl; lia) (or_introl eq_refl) Hrun)
    as (n & Hn & Hreq & Hbound).
  exists n, (query_result st). rewrite Hq, Hreq. split; [reflexivity |].
  split; [lia | exact Hbound].
Qed.

(** X10.  The features [query_layer] returns are those of the pages
    it asked for, page after page in the order of the requests and in
    the order of each page: the features of a document without an error
    field count, a failed request and a document with an error field
    give none. *)
Theorem features_in_request_order (p : nat) (max_records : Z) (serve : endpoint) :
  exists reqs r,
    query_layer_paged (Z.of_nat p) serve max_records = Some (reqs, r) /\
    forall v, r = Ok v ->
      exists tag,
        v = VDict [("features",
                    VList (List.concat
                             (map (fun off => page_items (serve off)) reqs)));
                   ("geometryType", tag)].
Proof.
  destruct (query_layer_paged_run (Z.of_nat p) serve max_records)
    as (st & Hrun & Hq).
  exists (requests st), (query_result st). split; [exact Hq |].
  intros v Hv. apply query_result_ok in Hv. destruct Hv as [tag ->].
  exists tag.
  rewrite (run_features p max_records serve _ fetch_start st eq_refl Hrun).
  reflexivity.
Qed.

(** X11.  [query_layer] raises nothing but [AttributeError], and only
    when the endpoint has answered with a document that is not an
    object; what it returns is an object with the features and the
    geometry type.  When every document decoded is an object it
    returns, whatever fails in between. *)
Theorem query_layer_raises_only (p : nat) (max_records : Z) (serve : endpoint) :
  (forall reqs e,
     query_layer_paged (Z.of_nat p) serve max_records = Some (reqs, Raise e) ->
     e = AttributeError /\
     exists off d, serve off = Decoded d /\ forall o, d <> VDict o) /\
  ((forall off d, serve off = Decoded d -> exists o, d = VDict o) ->
   exists reqs feats tag,
     query_layer_paged (Z.of_nat p) serve max_records
     = Some (reqs, Ok (VDict [("features", VList feats); ("geometryType", tag)]))).
Proof.
  destruct (query_layer_paged_run (Z.of_nat p) serve max_records)
    as (st & Hrun & Hq).
  pose proof (run_data p max_records serve _ fetch_start st (or_introl eq_refl) Hrun)
    as Hdata.
  split.
  - intros reqs e H. rewrite Hq in H. inversion H; subst.
    match goal with E : query_result st = Raise e |- _ =>
      apply query_result_raises in E; destruct E as (-> & d & Hd & Hnot) end.
    split; [reflexivity |].
    destruct Hdata as [Hnone | (off & Hoff)]; [congruence |].
    rewrite Hd in Hoff. simpl in Hoff. eauto.
  - intros Hobj.
    destruct (query_result st) as [v|e] eqn:R.
    + apply query_result_ok in R. destruct R as [tag ->].
      rewrite Hq. eauto.
    + apply query_result_raises in R. destruct R as (_ & d & Hd & Hnot).
      destruct Hdata as [Hnone | (off & Hoff)]; [congruence |].
      rewrite Hd in Hoff. simpl in Hoff.
      destruct (Hobj _ _ Hoff) as [o ->]. elim (Hnot o). reflexivity.
Qed.

Lemma query_layer_raises_only_witness :
  (AttributeError = AttributeError /\
   exists off d, (fun _ : Z => Decoded (VList [])) off = Decoded d /\
                 forall o, d <> VDict o) /\
  exists reqs feats tag,
    query_layer_paged 2 (error_after_one_page 2 [station 1; station 2]) 10
    = Some (reqs, Ok (VDict [("features", VList feats); ("geometryType", tag)])).
Proof.
  split.
  - destruct (query_layer_raises_only 1000 default_max_records
                (fun _ => Decoded (VList []))) as [H _].
    apply (H [0%Z]). vm_compute. reflexivity.
  - destruct (query_layer_raises_only 2 10
                (error_after_one_page 2 [station 1; station 2])) as [_ H].
    apply H. intros off d. unfold error_after_one_page.
    destruct (off =? 0)%Z; intros E; inversion E; eauto.
Defined.

(** X12.  When every request is answered with an object that carries
    the same geometry type, [query_layer] returns under that geometry
    type. *)
Theorem common_geometry_type (p : nat) (max_records : Z) (serve : endpoint)
    (type : string) :
  (forall off, exists o,
      serve off = Decoded (VDict o) /\
      lookup "geometryType" o = Some (VStr type)) ->
  exists reqs feats,
    query_layer_paged (Z.of_nat p) serve max_records
    = Some (reqs, Ok (VDict [("features", VList feats);
                             ("geometryType", VStr type)])).
Proof.
  intros Hserve.
  destruct (query_layer_paged_run (Z.of_nat p) serve max_records)
    as (st & Hrun & Hq).
  destruct (run_last_document
              (fun d => exists o, d = VDict o /\
                                  lookup "geometryType" o = Some (VStr type))
              (Z.of_nat p) max_records serve) with (2 := Hrun)
    as (d & Hd & o & -> & Htag).
  { intros off. destruct (Hserve off) as (o & E & L). eauto. }
  exists (requests st), (all_features st). rewrite Hq. do 2 f_equal.
  unfold query_result. rewrite Hd. cbn [py_get]. rewrite Htag, bind_ok.
  destruct (truthy (VList (all_features st))); [| reflexivity].
  cbn [py_in]. unfold has_key. rewrite Htag, bind_ok. cbn [py_item].
  rewrite Htag. reflexivity.
Qed.

Lemma common_geometry_type_witness :
  exists reqs feats,
    query_layer_paged 2 (mock_endpoint 2 "esriGeometryPoint" five_stations) 5
    = Some (reqs, Ok (VDict [("features", VList feats);
                             ("geometryType", VStr "esriGeometryPoint")])).
Proof.
  apply (common_geometry_type 2 5
           (mock_endpoint 2 "esriGeometryPoint" five_stations) "esriGeometryPoint").
  intros off. eexists. split; reflexivity.
Defined.

(** ** The loader and its tables *)

Lemma insert_batch_bound id batch :
  forall db db' r,
    insert_batch db id batch = (db', r) ->
    exists rows,
      db' = mk_database (layers db) (features db ++ rows) (commits db) /\
      Forall (fun row => row_layer_id row = id) rows /\
      List.length rows <= List.length batch /\
      (r = Ok tt -> List.length rows = List.length batch).
Proof.
  induction batch as [|f batch IH]; intros db db' r H; simpl in H.
  - inversion H; subst. exists []. rewrite app_nil_r. destruct db'; simpl.
    repeat split; auto.
  - destruct (feature_row_of id f) as [row|e] eqn:F.
    + destruct (insert_feature db row) as [db1|e] eqn:Ins.
      * unfold insert_feature in Ins.
        destruct (bind_feature row) as [bound|] eqn:Bd; simpl in Ins;
          inversion Ins; subst; clear Ins.
        apply IH in H. destruct H as (rows & -> & Hid & Hle & Hlen). simpl.
        exists (bound :: rows). rewrite <- app_assoc.
        split; [reflexivity |]. split; [| split].
        -- constructor; [| exact Hid].
           destruct (bind_feature_fields _ _ Bd) as (-> & _).
           eapply feature_row_layer, F.
        -- simpl. lia.
        -- intros E. simpl. f_equal. auto.
      * inversion H; subst. exists []. rewrite app_nil_r. destruct db'; simpl.
        repeat split; auto; [lia | discriminate].
    + inversion H; subst. exists []. rewrite app_nil_r. destruct db'; simpl.
      repeat split; auto; [lia | discriminate].
Qed.

Lemma insert_batches_bound id l starts :
  forall db db' r,
    insert_batches db id (VList l) starts = (db', r) ->
    exists rows,
      layers db' = layers db /\
      features db' = features db ++ rows /\
      Forall (fun row => row_layer_id row = id) rows /\
      List.length rows <= sum_batches l starts /\
      (r = Ok tt ->
       List.length rows = sum_batches l starts /\
       commits db' = commits db + List.length starts).
Proof.
  induction starts as [|i starts IH]; intros db db' r H.
  - simpl in H. inversion H; subst. exists []. rewrite app_nil_r.
    repeat split; auto.
  - rewrite insert_batches_cons in H.
    destruct (insert_batch db id (firstn batch_size (skipn i l)))
      as [db1 r1] eqn:B.
    apply insert_batch_bound in B.
    destruct B as (rows1 & -> & Hid1 & Hle1 & Hlen1).
    change (sum_batches l (i :: starts))
      with (List.length (firstn batch_size (skipn i l)) + sum_batches l starts).
    destruct r1 as [[]|e].
    + apply IH in H. destruct H as (rows & Hl & Hf & Hid & Hle & Hlen).
      cbn [commit layers features] in Hl, Hf.
      exists (rows1 ++ rows). rewrite app_assoc.
      split; [exact Hl |]. split; [exact Hf |]. split; [| split].
      * apply Forall_app. split; assumption.
      * rewrite length_app. lia.
      * intros E. destruct (Hlen E) as [E1 E2].
        rewrite length_app, E1, (Hlen1 eq_refl).
        cbn [commit commits] in E2. cbn [List.length].
        split; [reflexivity | lia].
    + inversion H; subst. exists rows1.
      split; [reflexivity |]. split; [reflexivity |]. split; [exact Hid1 |].
      split; [lia | discriminate].
Qed.

Lemma not_exists_layer id ls :
  existsb (fun l => String.eqb (layer_id l) id) ls = false ->
  ~ In id (map layer_id ls).
Proof.
  intros H Hin. apply in_map_iff in Hin. destruct Hin as (l & <- & Hl).
  assert (E : existsb (fun l0 => String.eqb (layer_id l0) (layer_id l)) ls = true)
    by (apply existsb_exists; exists l; split; [exact Hl | apply String.eqb_refl]).
  congruence.
Qed.

Lemma length_range_step n : List.length (range_step n batch_size) = batches n.
Proof. unfold range_step. rewrite length_map, length_seq. reflexivity. Qed.

(** What a turn of the loop writes: nothing, or a layers row under a
    new id and features rows under that id. *)
Lemma load_file_writes db a db' status :
  load_file db a = (db', status) ->
  (db' = db /\ forall n, status <> Loaded n) \/
  exists row rows,
    ~ In (layer_id row) (map layer_id (layers db)) /\
    layer_id row = remove_all ".geojson" (filename a) /\
    layers db' = layers db ++ [row] /\
    features db' = features db ++ rows /\
    Forall (fun r => row_layer_id r = layer_id row) rows /\
    List.length rows <= feature_count row /\
    (forall n, status = Loaded n ->
               n = feature_count row /\ List.length rows = n /\
               commits db' = commits db + batches n).
Proof.
  unfold load_file. destruct (filesize a <? 700)%Z.
  { intros E. inversion E; subst. left. split; [reflexivity | discriminate]. }
  destruct (content a) as [doc|e].
  2:{ intros E. inversion E; subst. left. split; [reflexivity | discriminate]. }
  destruct (prepare_layer (filename a) doc) as [[[[row feats] n]|]|e] eqn:P.
  2,3: intros E; inversion E; subst; left; split; [reflexivity | discriminate].
  destruct (prepare_layer_some _ _ _ _ _ P) as (l & -> & _ & -> & _ & Hid & Hcount).
  destruct (insert_layer db row) as [db1|e] eqn:L.
  2:{ intros E. inversion E; subst. left. split; [reflexivity | discriminate]. }
  apply insert_layer_ok in L. destruct L as (bound & Hbound & -> & Hfresh).
  apply not_exists_layer in Hfresh.
  destruct (bind_layer_fields _ _ Hbound) as (Bid & _ & _ & Bcount & _).
  destruct (insert_batches _ _ _ _) as [db2 r] eqn:B.
  apply insert_batches_bound in B.
  destruct B as (rows & Hl & Hf & Hids & Hle & Hlen).
  simpl in Hl, Hf. rewrite sum_batches_all in Hle, Hlen.
  rewrite length_range_step in Hlen.
  rewrite <- Bid in Hfresh, Hid, Hids. rewrite <- Bcount in Hcount.
  intros E. right. exists bound, rows.
  assert (db2 = db') by (destruct r as [[]|]; inversion E; reflexivity).
  subst db2.
  split; [exact Hfresh |]. split; [exact Hid |]. split; [exact Hl |].
  split; [exact Hf |]. split; [exact Hids |]. split; [lia |].
  intros m Hm. subst status. destruct r as [[]|]; inversion E; subst.
  destruct (Hlen eq_refl) as [Hrows Hc]. cbn [commits] in Hc.
  split; [lia |]. split; [lia | exact Hc].
Qed.

Lemma NoDup_snoc {A} (l : list A) x : NoDup l -> ~ In x l -> NoDup (l ++ [x]).
Proof.
  intros Hl Hx. induction Hl as [|y l Hy Hl IH]; simpl.
  - constructor; [intros [] | constructor].
  - constructor.
    + intros Hin. apply in_app_or in Hin. destruct Hin as [Hin | [E | []]].
      * contradiction.
      * subst. apply Hx. left. reflexivity.
    + apply IH. intros Hin. apply Hx. right. exact Hin.
Qed.

Lemma rows_of_layer_all id rows :
  Forall (fun r => row_layer_id r = id) rows -> rows_of_layer id rows = rows.
Proof.
  intros H. unfold rows_of_layer. apply forallb_filter_id.
  apply forallb_forall. intros r Hr. rewrite Forall_forall in H.
  apply String.eqb_eq. auto.
Qed.

Lemma rows_of_layer_none id rows :
  (forall r, In r rows -> row_layer_id r <> id) -> rows_of_layer id rows = [].
Proof.
  intros H. unfold rows_of_layer. induction rows as [|r rows IH]; [reflexivity |].
  simpl. destruct (String.eqb (row_layer_id r) id) eqn:E.
  - apply String.eqb_eq in E. elim (H r); [left; reflexivity | exact E].
  - apply IH. intros r' Hr'. apply H. right. exact Hr'.
Qed.

Lemma load_file_consistent db a db' status :
  consistent db -> load_file db a = (db', status) -> consistent db'.
Proof.
  intros (Hnodup & Hfk & Hcount) H. apply load_file_writes in H.
  destruct H as [[-> _] | (row & rows & Hfresh & _ & Hl & Hf & Hids & Hle & _)].
  { repeat split; assumption. }
  unfold consistent. rewrite Hl, Hf, map_app. simpl map.
  split; [| split].
  - apply NoDup_snoc; assumption.
  - intros r Hr. apply in_or_app. apply in_app_or in Hr.
    destruct Hr as [Hr | Hr]; [left; auto |].
    right. left. rewrite Forall_forall in Hids. symmetry. auto.
  - intros l Hin. unfold rows_of_layer. rewrite filter_app, length_app.
    fold (rows_of_layer (layer_id l) (features db)).
    fold (rows_of_layer (layer_id l) rows).
    apply in_app_or in Hin. destruct Hin as [Hin | [<- | []]].
    + rewrite (rows_of_layer_none (layer_id l) rows).
      * simpl. rewrite Nat.add_0_r. auto.
      * intros r Hr E. rewrite Forall_forall in Hids. rewrite (Hids r Hr) in E.
        apply Hfresh. rewrite E. apply in_map. exact Hin.
    + rewrite (rows_of_layer_none (layer_id row) (features db)).
      * rewrite (rows_of_layer_all _ _ Hids). simpl. exact Hle.
      * intros r Hr E. apply Hfresh. rewrite <- E. auto.
Qed.

Lemma load_all_consistent files :
  forall db total, consistent db -> consistent (fst (load_all db total files)).
Proof.
  induction files as [|a files IH]; intros db total H; [exact H |].
  simpl. destruct (load_file db a) as [db' status] eqn:L.
  pose proof (load_file_consistent _ _ _ _ H L) as H'.
  destruct status; apply IH; exact H'.
Qed.

(** X13.  Whatever the files hold and however their loads end, the
    tables [load_geojson_files] leaves satisfy the schema when those it
    started from did: no two layers rows share an id, every features
    row carries the id of a layers row, and no layer has more features
    rows than its [feature_count]. *)
Theorem load_keeps_tables_consistent db listing :
  consistent db -> consistent (fst (load_geojson_files db listing)).
Proof. intros H. apply load_all_consistent. exact H. Qed.

Lemma load_keeps_tables_consistent_witness :
  consistent create_local_db /\
  consistent (fst (load_geojson_files create_local_db
                     [stations_file; text_point_file; stations_file])).
Proof.
  assert (H : consistent create_local_db).
  { unfold consistent. simpl. repeat split; [constructor | contradiction ..]. }
  split; [exact H |].
  apply load_keeps_tables_consistent. exact H.
Defined.

Lemma load_all_total files :
  forall db total,
    List.length (features db) + (snd (load_all db total files) - total)
    <= List.length (features (fst (load_all db total files))) /\
    total <= snd (load_all db total files).
Proof.
  induction files as [|a files IH]; intros db total; [simpl; lia |].
  simpl. destruct (load_file db a) as [db' status] eqn:L.
  apply load_file_writes in L.
  assert (Hgrow : List.length (features db) <= List.length (features db')).
  { destruct L as [[-> _] | (row & rows & _ & _ & _ & -> & _)];
      [lia | rewrite length_app; lia]. }
  destruct status as [| |n|e];
    try (destruct (IH db' total) as [H1 H2]; lia).
  destruct L as [[_ Hno] | (row & rows & _ & _ & _ & Hf & _ & _ & Hn)];
    [elim (Hno n); reflexivity |].
  destruct (Hn n eq_refl) as (_ & Hrows & _).
  destruct (IH db' (total + n)) as [H1 H2].
  rewrite Hf, length_app in H1. lia.
Qed.

(** X14.  The total [load_geojson_files] returns never exceeds the
    number of features rows it has inserted: it counts the features of
    the files that loaded to the end, and the rows of a load that
    failed midway stay in the table uncounted. *)
Theorem total_within_rows db listing :
  List.length (features db) + snd (load_geojson_files db listing)
  <= List.length (features (fst (load_geojson_files db listing))).
Proof.
  unfold load_geojson_files.
  destruct (load_all_total
              (sorted_by_name
                 (filter (fun a => ends_with ".geojson" (filename a)) listing))
              db 0) as [H _].
  lia.
Qed.



(** X16.  A load that ends well has committed once per batch of 500
    features: ceil(n / 500) commits for the n features of the file. *)
Theorem commits_per_batch db a db' n :
  load_file db a = (db', Loaded n) ->
  commits db' = commits db + batches n /\
  (batches n - 1) * batch_size < n /\ n <= batches n * batch_size.
Proof.
  intros H. pose proof H as Hl. apply load_file_loaded in Hl.
  destruct Hl as (_ & l & _ & _ & _ & _ & _ & Hne & -> & _).
  apply load_file_writes in H.
  destruct H as [[_ Hno] | (row & rows & _ & _ & _ & _ & _ & _ & Hn)];
    [elim (Hno (List.length l)); reflexivity |].
  destruct (Hn _ eq_refl) as (_ & _ & Hc).
  split; [exact Hc |].
  assert (0 < List.length l) by (destruct l; [congruence | simpl; lia]).
  unfold batches, batch_size.
  pose proof (Nat.div_mod_eq (List.length l + 500 - 1) 500).
  pose proof (Nat.mod_upper_bound (List.length l + 500 - 1) 500 ltac:(lia)).
  lia.
Qed.

Lemma commits_per_batch_witness :
  commits (fst (load_file create_local_db stations_file))
  = commits create_local_db + batches 3 /\
  (batches 3 - 1) * batch_size < 3 /\ 3 <= batches 3 * batch_size.
Proof.
  apply (commits_per_batch create_local_db stations_file).
  vm_compute. reflexivity.
Defined.



















Lemma ends_with_append suffix s : ends_with suffix (s ++ suffix) = true.
Proof.
  induction s as [|c s IH]; simpl.
  - destruct suffix; simpl; [reflexivity |].
    rewrite Ascii.eqb_refl, String.eqb_refl. reflexivity.
  - rewrite IH. apply orb_true_r.
Qed.

Lemma prefix_other_head c s old :
  Ascii.eqb c "." = false -> String.prefix (String "." old) (String c s) = false.
Proof.
  intros H.
  change (String.prefix (String "." old) (String c s))
    with (match ascii_dec "." c with
          | left _ => String.prefix old s
          | right _ => false
          end).
  destruct (ascii_dec "." c) as [E|]; [| reflexivity].
  subst c. discriminate H.
Qed.

(** X18.  A file named [stem.geojson] is among the files the loader
    takes, and when the stem holds no dot its layer id is the stem. *)
Theorem layer_id_is_stem stem :
  no_dot stem = true ->
  ends_with ".geojson" (stem ++ ".geojson") = true /\
  remove_all ".geojson" (stem ++ ".geojson") = stem.
Proof.
  intros H. split; [apply ends_with_append |].
  unfold remove_all, no_dot in *.
  induction stem as [|c stem IH]; [reflexivity |].
  simpl in H. apply andb_prop in H. destruct H as [Hc Hrest].
  apply negb_true_iff in Hc.
  change ((String c stem ++ ".geojson")%string)
    with (String c (stem ++ ".geojson")%string).
  cbn [remove_from]. rewrite (prefix_other_head _ _ _ Hc).
  rewrite IH; [reflexivity | exact Hrest].
Qed.

Lemma layer_id_is_stem_witness :
  ends_with ".geojson" "red-hidrometrica_layer0.geojson" = true /\
  remove_all ".geojson" "red-hidrometrica_layer0.geojson"
  = "red-hidrometrica_layer0".
Proof.
  apply (layer_id_is_stem "red-hidrometrica_layer0"). reflexivity.
Defined.

(** ** The download of a service *)

Lemma query_layer_outcome_shape serve max_records v :
  query_layer_outcome serve max_records = Ok v ->
  exists fs tag, v = VDict [("features", VList fs); ("geometryType", tag)].
Proof.
  unfold query_layer_outcome, query_layer.
  destruct (query_layer_paged_run 1000 serve max_records) as (st & _ & ->).
  intros H. apply query_result_ok in H. destruct H as [tag ->]. eauto.
Qed.

Lemma esri_to_geojson_collection fs tag out :
  esri_to_geojson (VDict [("features", VList fs); ("geometryType", tag)]) = Ok out ->
  exists feats, out = collection feats /\ List.length feats = List.length fs.
Proof.
  unfold esri_to_geojson.
  change (py_get (VDict [("features", VList fs); ("geometryType", tag)])
            "geometryType" (VStr "")) with (Ok tag).
  change (py_get (VDict [("features", VList fs); ("geometryType", tag)])
            "features" (VList [])) with (Ok (VList fs)).
  cbn [bind py_iter].
  destruct (map_m _ fs) as [feats|] eqn:M; cbn [bind]; [| discriminate].
  intros E. inversion E. exists feats. split; [reflexivity |].
  apply map_m_ok in M. apply M.
Qed.

Section DownloaderFacts.

Variable web : nat -> value -> value -> endpoint.
Variable py_str : value -> string.
Variable writable : world -> string -> bool.
Variable makedirs_ok : bool.

Lemma download_layer_effect w service layer_id w' o :
  download_layer web py_str writable w service layer_id = (w', o) ->
  match o with
  | Saved file count =>
      exists id feats,
        py_item service "id" = Ok id /\
        feats <> [] /\
        file = layer_filename py_str id layer_id /\
        count = List.length feats /\
        written w' = (output_path file, collection feats) :: written w
  | _ => written w' = written w
  end.
Proof.
  unfold download_layer.
  destruct (py_item service "url") as [url|];
    [| intros E; inversion E; reflexivity].
  destruct (query_layer_outcome (web (queries w) url layer_id) default_max_records)
    as [esri_data|] eqn:Q; cbn [bind];
    [| intros E; inversion E; reflexivity].
  apply query_layer_outcome_shape in Q. destruct Q as (fs & tag & ->).
  change (py_item (VDict [("features", VList fs); ("geometryType", tag)]) "features")
    with (Ok (VList fs)).
  cbn [bind].
  destruct (truthy (VList fs)) eqn:T; [| intros E; inversion E; reflexivity].
  destruct (esri_to_geojson _) as [geojson|] eqn:G; cbn [bind];
    [| intros E; inversion E; reflexivity].
  apply esri_to_geojson_collection in G. destruct G as (feats & -> & Hlen).
  destruct (py_item service "id") as [id|] eqn:Hid; cbn [bind];
    [| intros E; inversion E; reflexivity].
  destruct (writable _ _); [| intros E; inversion E; reflexivity].
  change (py_item (collection feats) "features") with (Ok (VList feats)).
  cbn [bind py_len]. intros E. inversion E; subst.
  exists id, feats. split; [reflexivity |]. split.
  - intros ->. destruct fs; [discriminate T | discriminate Hlen].
  - split; [reflexivity |]. split; reflexivity.
Qed.

Lemma features_in_collection feats :
  features_in (collection feats) = List.length feats.
Proof. reflexivity. Qed.

Lemma features_written_app a b :
  features_written (a ++ b) = features_written a + features_written b.
Proof.
  unfold features_written. rewrite map_app, list_sum_app. reflexivity.
Qed.

Lemma layer_file_more service ls ls' f :
  (forall l, In l ls -> In l ls') ->
  layer_file py_str service ls f -> layer_file py_str service ls' f.
Proof.
  intros Hin (id & l & feats & Hid & Hl & Hne & ->).
  exists id, l, feats. auto.
Qed.

Lemma download_layers_effect service layer_ids :
  forall w total w' total',
    download_layers web py_str writable w service layer_ids total = (w', total') ->
    exists files,
      written w' = files ++ written w /\
      total' = total + features_written files /\
      List.length files <= List.length layer_ids /\
      Forall (layer_file py_str service layer_ids) files.
Proof.
  induction layer_ids as [|l ls IH]; intros w total w' total' H; simpl in H.
  - inversion H; subst. exists []. simpl.
    split; [reflexivity |]. split; [unfold features_written; simpl; lia |].
    split; [lia | constructor].
  - destruct (download_layer web py_str writable w service l) as [w1 o] eqn:L.
    apply download_layer_effect in L.
    assert (Hrest : forall t,
               download_layers web py_str writable w1 service ls t = (w', total') ->
               written w1 = written w ->
               exists files,
                 written w' = files ++ written w /\
                 total' = t + features_written files /\
                 List.length files <= List.length (l :: ls) /\
                 Forall (layer_file py_str service (l :: ls)) files).
    { intros t Ht Hw. apply IH in Ht.
      destruct Ht as (files & Hf & Ht & Hlen & Hall).
      exists files. rewrite Hf, Hw. split; [reflexivity |].
      split; [exact Ht |]. split; [simpl; lia |].
      eapply Forall_impl; [| exact Hall].
      intros f. apply layer_file_more. intros x Hx. right. exact Hx. }
    destruct o as [file count| |]; [| apply Hrest; exact H || exact L ..].
    + destruct L as (id & feats & Hid & Hne & -> & -> & Hw).
      apply IH in H. destruct H as (files & Hf & Ht & Hlen & Hall).
      exists (files ++ [(output_path (layer_filename py_str id l), collection feats)]).
      rewrite Hf, Hw, <- app_assoc. split; [reflexivity |].
      split.
      * rewrite features_written_app, Ht. unfold features_written at 3.
        simpl. rewrite features_in_collection. lia.
      * split; [rewrite length_app; simpl; lia |].
        apply Forall_app. split.
        -- eapply Forall_impl; [| exact Hall].
           intros f. apply layer_file_more. intros x Hx. right. exact Hx.
        -- constructor; [| constructor].
           exists id, l, feats. split; [exact Hid |].
           split; [left; reflexivity |]. split; [exact Hne | reflexivity].
Qed.

End DownloaderFacts.

(** X19.  When [download_service] returns, the files it has written
    are all it added to the disk: at most one per layer of the
    service, each a feature collection that is not empty, at the path
    [os.path.join] makes of the output directory and the name made of
    the service's id and the layer (the name itself when it begins
    with a slash).  The total it returns is the number of features in
    these files. *)
Theorem download_service_accounts web py_str writable w service w' n :
  download_service web py_str writable w service = (w', Ok n) ->
  exists layer_ids files,
    layers_of service = Ok layer_ids /\
    written w' = files ++ written w /\
    n = features_written files /\
    List.length files <= List.length layer_ids /\
    Forall (layer_file py_str service layer_ids) files.
Proof.
  unfold download_service.
  destruct (py_item service "name") as [name|]; cbn [bind]; [| discriminate].
  destruct (py_item service "id") as [id|]; cbn [bind]; [| discriminate].
  destruct (layers_of service) as [layer_ids|]; [| discriminate].
  destruct (download_layers web py_str writable w service layer_ids 0)
    as [w1 total] eqn:L.
  intros E. inversion E; subst.
  apply download_layers_effect in L.
  destruct L as (files & Hw & Ht & Hlen & Hall).
  exists layer_ids, files. auto.
Qed.

Lemma download_service_accounts_witness :
  exists layer_ids files,
    layers_of hydrometric_network = Ok layer_ids /\
    written (write_file (mk_world [] 1)
               "data/ide-chile/red-hidrometrica_layer0.geojson"
               (collection (map (fun n : Z =>
                                   VDict [("type", VStr "Feature");
                                          ("geometry",
                                           geojson "Point"
                                             (VList [VNum n; VNum 0]));
                                          ("properties",
                                           VDict [("id", VNum n)])])
                                [1; 2; 3; 4; 5]%Z)))
    = files ++ written empty_world /\
    5 = features_written files /\
    List.length files <= List.length layer_ids /\
    Forall (layer_file text_of hydrometric_network layer_ids) files.
Proof.
  apply (download_service_accounts stations_everywhere text_of always_writable
           empty_world hydrometric_network).
  vm_compute. reflexivity.
Defined.

(** ** A run while no request succeeds *)

Lemma failing_query serve max_records :
  (forall off, fails (serve off)) ->
  exists tag,
    query_layer_outcome serve max_records
    = Ok (VDict [("features", VList []); ("geometryType", tag)]).
Proof.
  intros H.
  unfold query_layer_outcome, query_layer, query_layer_paged, query_fuel.
  cbn [query_loop]. unfold fetch_start. cbn [offset all_features data requests].
  destruct (H 0%Z) as [-> | (d & -> & Hk)].
  - exists (VStr ""). reflexivity.
  - unfold page_body. cbn [py_in bind]. rewrite Hk.
    destruct (query_result_dict
                (mk_fetch_state [] 0%Z (Some (VDict d)) ([] ++ [0%Z])) I)
      as [tag E].
    exists tag. exact E.
Qed.

Section Outage.

Variable web : nat -> value -> value -> endpoint.
Variable py_str : value -> string.
Variable writable : world -> string -> bool.

Hypothesis outage : forall n url layer_id off, fails (web n url layer_id off).

Lemma download_layer_outage w service layer_id :
  exists w',
    written w' = written w /\
    (download_layer web py_str writable w service layer_id = (w', Caught) \/
     download_layer web py_str writable w service layer_id = (w', NoFeaturesFound)).
Proof.
  unfold download_layer.
  destruct (py_item service "url") as [url|]; [| exists w; auto].
  destruct (failing_query (web (queries w) url layer_id) default_max_records
              (outage _ _ _)) as [tag ->].
  eexists. split; [| right; reflexivity]. reflexivity.
Qed.

Lemma download_layers_outage service layer_ids :
  forall w total,
  exists w',
    written w' = written w /\
    download_layers web py_str writable w service layer_ids total = (w', total).
Proof.
  induction layer_ids as [|l ls IH]; intros w total; simpl.
  - exists w. auto.
  - destruct (download_layer_outage w service l) as (w1 & Hw & [-> | ->]);
      destruct (IH w1 total) as (w' & Hw' & ->);
      exists w'; (split; [congruence | reflexivity]).
Qed.

Lemma download_service_outage w service :
  catalogued service = true ->
  exists w' id name,
    written w' = written w /\
    download_service web py_str writable w service = (w', Ok 0) /\
    py_item service "id" = Ok id /\
    py_item service "name" = Ok (VStr name).
Proof.
  unfold catalogued, download_service.
  destruct (py_item service "id") as [id|]; [| discriminate].
  destruct (py_item service "name") as [[| | |name| |]|]; try discriminate.
  destruct (layers_of service) as [layer_ids|]; [| discriminate].
  intros _. cbn [bind].
  destruct (download_layers_outage service layer_ids w 0) as (w' & Hw & ->).
  exists w', id, name. auto.
Qed.

Lemma download_all_outage services :
  Forall (fun s => catalogued s = true) services ->
  forall w summary total_all,
  exists w' entries,
    written w' = written w /\
    download_all web py_str writable w services summary total_all
    = (w', Ok (summary ++ entries, total_all)) /\
    Forall2 (fun s e => entry_of s 0 "success" = Ok e) services entries /\
    forallb printable_entry entries = true.
Proof.
  induction 1 as [|s services Hs _ IH]; intros w summary total_all.
  - exists w, []. rewrite app_nil_r. simpl. auto.
  - cbn [download_all].
    destruct (download_service_outage w s Hs)
      as (w1 & id & name & Hw & -> & Hid & Hname).
    unfold entry_of. rewrite Hid, Hname. cbn [bind].
    destruct (IH w1 (summary ++ [summary_entry id (VStr name) 0 "success"])
                (total_all + 0)) as (w' & entries & Hw' & -> & Hall & Hp).
    exists w', (summary_entry id (VStr name) 0 "success" :: entries).
    split; [congruence |]. split.
    + rewrite <- app_assoc, Nat.add_0_r. reflexivity.
    + split.
      * constructor; [| exact Hall].
        unfold entry_of. rewrite Hid, Hname. reflexivity.
      * cbn [forallb]. rewrite Hp. reflexivity.
Qed.

End Outage.

(** X20.  A run during which no request succeeds (each fails or is
    answered with an error document) is not reported as a failure.
    For a catalog of services with an id, a string name and iterable
    layers, [main] finishes when it can make the output directory and
    write the summary; it writes no layer file, and the summary counts
    no feature and lists every service, in the order of the catalog,
    with zero features and the status "success". *)
Theorem outage_reported_as_success web py_str writable now w services :
  (forall n url layer_id off, fails (web n url layer_id off)) ->
  Forall (fun s => catalogued s = true) services ->
  (forall w', writable w' (output_path "download-summary.json") = true) ->
  exists w' summary,
    main web py_str writable true now w services = (w', Finished) /\
    written w'
    = (output_path "download-summary.json", summary_document now summary 0)
        :: written w /\
    Forall2 (fun s e => entry_of s 0 "success" = Ok e) services summary.
Proof.
  intros Hout Hcat Hwr. unfold main.
  destruct (download_all_outage web py_str writable Hout services Hcat w [] 0)
    as (w1 & entries & Hw & -> & Hall & Hp).
  cbn [app]. rewrite Hwr, Hp.
  eexists. exists entries. split; [reflexivity |].
  split; [| exact Hall].
  unfold write_file. cbn [written]. rewrite Hw. reflexivity.
Qed.

Lemma outage_reported_as_success_witness :
  exists w' summary,
    main network_down text_of always_writable true "2026-01-01T00:00:00Z"
      empty_world [hydrometric_network] = (w', Finished) /\
    written w'
    = (output_path "download-summary.json",
       summary_document "2026-01-01T00:00:00Z" summary 0)
        :: written empty_world /\
    Forall2 (fun s e => entry_of s 0 "success" = Ok e) [hydrometric_network] summary.
Proof.
  apply outage_reported_as_success.
  - intros n url layer_id off. left. reflexivity.
  - constructor; [reflexivity | constructor].
  - intros w'. reflexivity.
Defined.

(** ** The summary of a run *)

Section Run.

Variable web : nat -> value -> value -> endpoint.
Variable py_str : value -> string.
Variable writable : world -> string -> bool.

Lemma download_service_effect w service w' r :
  download_service web py_str writable w service = (w', r) ->
  match r with
  | Ok n =>
      exists layer_ids files,
        layers_of service = Ok layer_ids /\
        written w' = files ++ written w /\
        n = features_written files /\
        Forall (layer_file py_str service layer_ids) files
  | Raise _ => w' = w
  end.
Proof.
  unfold download_service.
  destruct (py_item service "name") as [name|]; cbn [bind];
    [| intros E; inversion E; reflexivity].
  destruct (py_item service "id") as [id|]; cbn [bind];
    [| intros E; inversion E; reflexivity].
  destruct (layers_of service) as [layer_ids|];
    [| intros E; inversion E; reflexivity].
  destruct (download_layers web py_str writable w service layer_ids 0)
    as [w1 total] eqn:L.
  intros E. inversion E; subst.
  apply download_layers_effect in L.
  destruct L as (files & Hw & Ht & _ & Hall).
  exists layer_ids, files. auto.
Qed.

Lemma entry_reported service count status entry :
  entry_of service count status = Ok entry ->
  status = "success" \/ (status = "failed" /\ count = 0) ->
  reported service (count, entry).
Proof.
  unfold entry_of, reported. intros H Hs.
  destruct (py_item service "id") as [id|]; cbn [bind] in H; [| discriminate].
  destruct (py_item service "name") as [name|]; cbn [bind] in H; [| discriminate].
  inversion H. exists id, name, status. auto.
Qed.

Lemma file_of_catalog_more services services' f :
  (forall s, In s services -> In s services') ->
  file_of_catalog py_str services f -> file_of_catalog py_str services' f.
Proof.
  intros Hin (s & ls & Hs & Hl & Hf). exists s, ls. auto.
Qed.

Lemma download_all_effect services :
  forall w summary total_all w' summary' total_all',
    download_all web py_str writable w services summary total_all
    = (w', Ok (summary', total_all')) ->
    exists rows files,
      summary' = summary ++ map snd rows /\
      total_all' = total_all + list_sum (map fst rows) /\
      Forall2 reported services rows /\
      written w' = files ++ written w /\
      total_all' = total_all + features_written files /\
      Forall (file_of_catalog py_str services) files.
Proof.
  induction services as [|s services IH];
    intros w summary total_all w' summary' total_all' H.
  - simpl in H. inversion H; subst. exists [], []. simpl.
    rewrite app_nil_r. unfold features_written. simpl.
    split; [reflexivity |]. split; [lia |]. split; [constructor |].
    split; [reflexivity |]. split; [lia | constructor].
  - cbn [download_all] in H.
    destruct (download_service web py_str writable w s) as [w1 r] eqn:D.
    apply download_service_effect in D.
    assert (Hstep : forall entry count files1,
               download_all web py_str writable w1 services
                 (summary ++ [entry]) (total_all + count)
               = (w', Ok (summary', total_all')) ->
               reported s (count, entry) ->
               written w1 = files1 ++ written w ->
               count = features_written files1 ->
               Forall (file_of_catalog py_str (s :: services)) files1 ->
               exists rows files,
                 summary' = summary ++ map snd rows /\
                 total_all' = total_all + list_sum (map fst rows) /\
                 Forall2 reported (s :: services) rows /\
                 written w' = files ++ written w /\
                 total_all' = total_all + features_written files /\
                 Forall (file_of_catalog py_str (s :: services)) files).
    { intros entry count files1 Hrun Hrep Hw1 Hcount Hfiles1.
      apply IH in Hrun.
      destruct Hrun as (rows & files & Hs & Ht & Hall & Hw & Hf & Hfiles).
      exists ((count, entry) :: rows), (files ++ files1).
      split; [rewrite Hs, <- app_assoc; reflexivity |].
      split; [rewrite Ht; simpl; lia |].
      split; [constructor; assumption |].
      split; [rewrite Hw, Hw1, app_assoc; reflexivity |].
      split; [rewrite features_written_app, Hf, Hcount; lia |].
      apply Forall_app. split; [| exact Hfiles1].
      eapply Forall_impl; [| exact Hfiles].
      intros f. apply file_of_catalog_more. intros x Hx. right. exact Hx. }
    assert (Hfailed : w1 = w ->
               match entry_of s 0 "failed" with
               | Ok entry =>
                   download_all web py_str writable w1 services
                     (summary ++ [entry]) total_all
               | Raise e => (w1, Raise e)
               end = (w', Ok (summary', total_all')) ->
               exists rows files,
                 summary' = summary ++ map snd rows /\
                 total_all' = total_all + list_sum (map fst rows) /\
                 Forall2 reported (s :: services) rows /\
                 written w' = files ++ written w /\
                 total_all' = total_all + features_written files /\
                 Forall (file_of_catalog py_str (s :: services)) files).
    { intros -> Hrun.
      destruct (entry_of s 0 "failed") as [entry|] eqn:En; [| discriminate].
      apply (Hstep entry 0 []).
      - rewrite Nat.add_0_r. exact Hrun.
      - apply (entry_reported _ _ _ _ En). right. auto.
      - reflexivity.
      - reflexivity.
      - constructor. }
    destruct r as [count|e].
    + destruct D as (ls & files1 & Hls & Hw1 & Hcount & Hfiles1).
      destruct (entry_of s count "success") as [entry|] eqn:En; cbn [bind] in H.
      * apply (Hstep entry count files1); auto.
        -- apply (entry_reported _ _ _ _ En). left. reflexivity.
        -- eapply Forall_impl; [| exact Hfiles1].
           intros f Hf. exists s, ls. split; [left; reflexivity | auto].
      * exfalso. unfold entry_of in En, H.
        destruct (py_item s "id"); cbn [bind] in En, H; [| discriminate].
        destruct (py_item s "name"); cbn [bind] in En, H; discriminate.
    + apply Hfailed; [exact D | exact H].
Qed.

Lemma main_effect makedirs_ok now w services w' :
  main web py_str writable makedirs_ok now w services = (w', Finished) ->
  exists rows files,
    written w'
    = (output_path "download-summary.json",
       summary_document now (map snd rows) (list_sum (map fst rows)))
        :: files ++ written w /\
    Forall2 reported services rows /\
    list_sum (map fst rows) = features_written files /\
    Forall (file_of_catalog py_str services) files.
Proof.
  unfold main. destruct makedirs_ok; [| discriminate].
  destruct (download_all web py_str writable w services [] 0)
    as [w1 [[summary total_all]|e]] eqn:A; [| discriminate].
  apply download_all_effect in A.
  destruct A as (rows & files & Hs & Ht & Hall & Hw & Hf & Hfiles).
  destruct (writable w1 _); [| discriminate].
  destruct (forallb printable_entry summary); [| discriminate].
  intros E. inversion E; subst. exists rows, files.
  unfold write_file. cbn [written app]. rewrite Hw.
  split; [reflexivity |]. split; [exact Hall |]. split; [lia | exact Hfiles].
Qed.

End Run.

(** X21.  When [main] finishes, the last file it has written is the
    summary, and the summary lists the services of the catalog one by
    one in their order, each with its own id and name, a feature count
    and the status "success" or "failed"; a failed service counts no
    feature, and [totalFeatures] is the sum of the counts listed. *)
Theorem summary_lists_catalog web py_str writable makedirs_ok now w services w' :
  main web py_str writable makedirs_ok now w services = (w', Finished) ->
  exists rows earlier,
    written w'
    = (output_path "download-summary.json",
       summary_document now (map snd rows) (list_sum (map fst rows)))
        :: earlier /\
    Forall2 reported services rows.
Proof.
  intros H. apply main_effect in H.
  destruct H as (rows & files & Hw & Hall & _).
  exists rows, (files ++ written w). auto.
Qed.

Lemma summary_lists_catalog_witness :
  exists rows earlier,
    written
      (write_file
         (write_file (mk_world [] 1)
            "data/ide-chile/red-hidrometrica_layer0.geojson"
            (collection (map (fun n : Z =>
                                VDict [("type", VStr "Feature");
                                       ("geometry",
                                        geojson "Point"
                                          (VList [VNum n; VNum 0]));
                                       ("properties",
                                        VDict [("id", VNum n)])])
                             [1; 2; 3; 4; 5]%Z)))
         "data/ide-chile/download-summary.json"
         (summary_document "2026-01-01T00:00:00Z"
            [summary_entry (VStr "red-hidrometrica") (VStr "Hydrometric Network")
               5 "success";
             summary_entry (VStr "alertas-dga") (VStr "Flood Alerts")
               0 "failed"]
            5))
    = (output_path "download-summary.json",
       summary_document "2026-01-01T00:00:00Z" (map snd rows)
         (list_sum (map fst rows)))
        :: earlier /\
    Forall2 reported [hydrometric_network; without_layers] rows.
Proof.
  apply (summary_lists_catalog stations_everywhere text_of always_writable true
           "2026-01-01T00:00:00Z" empty_world
           [hydrometric_network; without_layers]).
  vm_compute. reflexivity.
Defined.

(** X22.  When [main] finishes, what it has added to the disk is the
    summary and, before it, files of layers of the catalog's services,
    each a feature collection that is not empty; the [totalFeatures]
    of the summary is the number of features in these files. *)
Theorem total_counts_written_features web py_str writable makedirs_ok now w
    services w' :
  main web py_str writable makedirs_ok now w services = (w', Finished) ->
  exists summary files,
    written w'
    = (output_path "download-summary.json",
       summary_document now summary (features_written files))
        :: files ++ written w /\
    Forall (file_of_catalog py_str services) files.
Proof.
  intros H. apply main_effect in H.
  destruct H as (rows & files & Hw & _ & Ht & Hfiles).
  exists (map snd rows), files. rewrite <- Ht. auto.
Qed.

Lemma total_counts_written_features_witness :
  exists summary files,
    written
      (write_file
         (write_file (mk_world [] 1)
            "data/ide-chile/red-hidrometrica_layer0.geojson"
            (collection (map (fun n : Z =>
                                VDict [("type", VStr "Feature");
                                       ("geometry",
                                        geojson "Point"
                                          (VList [VNum n; VNum 0]));
                                       ("properties",
                                        VDict [("id", VNum n)])])
                             [1; 2; 3; 4; 5]%Z)))
         "data/ide-chile/download-summary.json"
         (summary_document "2026-01-01T00:00:00Z"
            [summary_entry (VStr "red-hidrometrica") (VStr "Hydrometric Network")
               5 "success";
             summary_entry (VStr "alertas-dga") (VStr "Flood Alerts")
               0 "failed"]
            5))
    = (output_path "download-summary.json",
       summary_document "2026-01-01T00:00:00Z" summary (features_written files))
        :: files ++ written empty_world /\
    Forall (file_of_catalog text_of [hydrometric_network; without_layers]) files.
Proof.
  apply (total_counts_written_features stations_everywhere text_of always_writable
           true "2026-01-01T00:00:00Z" empty_world
           [hydrometric_network; without_layers]).
  vm_compute. reflexivity.
Defined.

(** ** From the endpoint to the database *)




